(** * Qlik script generator: a shallow embedding of [generate_das_qvs]

    The program under study (src/qlik_script_generator.py) reads a YAML
    schema, builds a list of text lines (a fixed header followed by one
    block per table) and writes the newline-joined lines to
    [data_according_to_system.qvs].

    Strings are modelled as Rocq [string]s, i.e. as the UTF-8 bytes of the
    Python [str].  Substring search, replacement of an ASCII character and
    lexicographic comparison all commute with UTF-8 encoding, so nothing is
    lost for the operations the generator uses. *)

From Stdlib Require Import String Ascii List Bool Arith ZArith Lia.
From Stdlib Require Import Permutation Sorted.
From stdpp Require Import gmap strings.
Import ListNotations.

Local Open Scope string_scope.
Local Open Scope list_scope.
Local Open Scope stdpp_scope.

(** ** Python string methods *)

Module PyStr.

(** [s.startswith(p)] *)
Fixpoint startswith (s p : string) {struct p} : bool :=
  match p with
  | EmptyString => true
  | String a p' =>
      match s with
      | EmptyString => false
      | String b s' => Ascii.eqb a b && startswith s' p'
      end
  end.

(** [s.endswith(p)]: some suffix of [s] is [p]. *)
Fixpoint endswith (s p : string) {struct s} : bool :=
  String.eqb s p ||
  match s with
  | EmptyString => false
  | String _ s' => endswith s' p
  end.

(** [p in s] for two strings: [p] starts at some position of [s]. *)
Fixpoint contains (s p : string) {struct s} : bool :=
  startswith s p ||
  match s with
  | EmptyString => false
  | String _ s' => contains s' p
  end.

(** [s.split(sep)] for a non-empty [sep]: the separator is searched from
    the left, matches do not overlap.  [skip] counts the characters of a
    separator just matched that are still to be stepped over. *)
Fixpoint split_from (sep : string) (skip : nat) (s : string) : list string :=
  match s with
  | EmptyString => [EmptyString]
  | String c s' =>
      match skip with
      | S k => split_from sep k s'
      | O =>
          if startswith s sep
          then EmptyString :: split_from sep (String.length sep - 1) s'
          else match split_from sep O s' with
               | piece :: pieces => String c piece :: pieces
               | [] => [String c EmptyString]
               end
      end
  end.

Definition split (s sep : string) : list string := split_from sep 0 s.

(** [s.replace(old, new)] for a non-empty [old]: every non-overlapping
    occurrence of [old], found from the left, becomes [new]. *)
Fixpoint replace_from (old new : string) (skip : nat) (s : string) : string :=
  match s with
  | EmptyString => EmptyString
  | String c s' =>
      match skip with
      | S k => replace_from old new k s'
      | O =>
          if startswith s old
          then new +:+ replace_from old new (String.length old - 1) s'
          else String c (replace_from old new O s')
      end
  end.

Definition replace (s old new : string) : string := replace_from old new 0 s.

(** ['sep'.join(ls)] *)
Definition join (sep : string) (ls : list string) : string := String.concat sep ls.

(** Number of positions of [s] at which [p] starts. *)
Fixpoint count_at (s p : string) {struct s} : nat :=
  (if startswith s p then 1 else 0) +
  match s with
  | EmptyString => 0
  | String _ s' => count_at s' p
  end.

End PyStr.

(** ** Parsed YAML documents

    The values [yaml.safe_load] returns for the core YAML schema.  A Python
    [dict] keeps its keys in insertion order, which is the order the
    generator iterates in, so a mapping is an association list. *)

#[warnings="-register-all"]
Inductive yaml : Type :=
| YNull
| YBool (b : bool)
| YInt (n : Z)
| YFloat (literal : string)
| YStr (s : string)
| YSeq (elems : list yaml)
| YMap (entries : list (yaml * yaml)).

(** ** Exceptions and the error monad *)

Inductive exn : Type :=
| FileNotFoundError
| IsADirectoryError
| YAMLError
| TypeError
| AttributeError
| KeyError
| UnicodeEncodeError.

Inductive result (A : Type) : Type :=
| Ok (a : A)
| Raise (e : exn).
Arguments Ok {A} a.
Arguments Raise {A} e.

#[global] Instance result_ret : MRet result := fun A a => Ok a.
#[global] Instance result_bind : MBind result := fun A B f r =>
  match r with
  | Ok a => f a
  | Raise e => Raise e
  end.

(** A [for] loop whose body may raise: the loop state is threaded through,
    the first exception ends the loop. *)
Fixpoint for_each {A S : Type} (body : S -> A -> result S) (l : list A) (s : S)
  : result S :=
  match l with
  | [] => Ok s
  | x :: l' => s' ← body s x; for_each body l' s'
  end.

(** ** Python operators on dynamically typed values *)

Module Py.

Definition is_str (key : string) (v : yaml) : bool :=
  match v with
  | YStr s => String.eqb key s
  | _ => false
  end.

(** ['key' in container] *)
Definition str_in (key : string) (container : yaml) : result bool :=
  match container with
  | YMap entries => Ok (existsb (fun e => is_str key (fst e)) entries)
  | YSeq elems => Ok (existsb (is_str key) elems)
  | YStr s => Ok (PyStr.contains s key)
  | YNull | YBool _ | YInt _ | YFloat _ => Raise TypeError
  end.

(** [container['key']] *)
Definition getitem (container : yaml) (key : string) : result yaml :=
  match container with
  | YMap entries =>
      match find (fun e => is_str key (fst e)) entries with
      | Some e => Ok (snd e)
      | None => Raise KeyError
      end
  | _ => Raise TypeError
  end.

(** [v.items()] *)
Definition items (v : yaml) : result (list (yaml * yaml)) :=
  match v with
  | YMap entries => Ok entries
  | _ => Raise AttributeError
  end.

(** The receiver of a [str] method ([split], [startswith], [replace]). *)
Definition str_method (v : yaml) : result string :=
  match v with
  | YStr s => Ok s
  | _ => Raise AttributeError
  end.

(** [enumerate(l)] *)
Definition enumerate {A : Type} (l : list A) : list (Z * A) :=
  combine (map Z.of_nat (seq 0 (length l))) l.

(** [l.sort(key=lambda x: x[0])] on pairs whose first component is a
    string: the stable sort by key, here by insertion. *)
Fixpoint insert_by_name {A : Type} (x : string * A) (l : list (string * A))
  : list (string * A) :=
  match l with
  | [] => [x]
  | y :: l' =>
      if String.leb (fst x) (fst y) then x :: y :: l'
      else y :: insert_by_name x l'
  end.

Definition sort_by_name {A : Type} (l : list (string * A)) : list (string * A) :=
  fold_right insert_by_name [] l.

End Py.

(** ** The generator

    The line lists below are the literal arguments of the successive
    [append] calls of [generate_das_qvs], in source order. *)

Definition header_lines : list string :=
  [ "Trace";
    "===============================================================";
    "    DATA ACCORDING TO SYSTEM";
    "    Script generated by Qlik Script Generator";
    "===============================================================";
    ";" ].

Definition setup_lines (table_name : string) : list string :=
  [ "Trace";
    "---------------------------------------------------------------";
    "    Extracting " +:+ table_name;
    "---------------------------------------------------------------";
    ";";
    "Trace Setting variables...;";
    "Let val__qvd_target = '$(val__qvd_path__das)/" +:+ table_name +:+ ".qvd';";
    "Let val__target_qvd_exists = Not IsNull(QvdCreateTime('$(val__qvd_target)'));";
    "Let val__incremental_value = '1970-01-01';";
    "";
    "Trace Define hash table...;";
    "[processed_record_hashes]:";
    "Load";
    "    Null() As [old_record_hash]";
    "AutoGenerate 0";
    ";";
    "";
    "Trace Checking if target QVD exists...;";
    "If $(val__target_qvd_exists) Then";
    "    Trace Target found, loading hashes and max incremental value...;";
    "";
    "    Concatenate([processed_record_hashes])";
    "    Load";
    "        [record_hash] As [old_record_hash]";
    "";
    "    From";
    "        [$(val__qvd_target)] (qvd)";
    "    ;";
    "";
    "    [max_incremental_value]:";
    "    Load";
    "        Date(Max(Num#([modified_date])), 'YYYY-MM-DD') As [max_incremental_value]";
    "    From";
    "        [$(val__qvd_target)] (qvd)";
    "    ;";
    "";
    "    Let val__incremental_value = Coalesce(Peek('max_incremental_value', -1, 'max_incremental_value'), '$(val__incremental_value)');";
    "    Drop Table [max_incremental_value];";
    "";
    "Else";
    "    Trace Target not found, starting full load...;";
    "";
    "End If";
    "" ].

Definition hash_open_lines : list string :=
  [ "Trace Loading new data with incremental value $(val__incremental_value)...;";
    "Set var__record_hash = Hash256(" ].

Definition load_open_lines (table_name : string) : list string :=
  [ ")";
    ";";
    "";
    "[" +:+ table_name +:+ "]:";
    "Load";
    "    *,";
    "    $(var__record_hash) As [record_hash],";
    "    Timestamp#('$(val__utc)', 'YYYY-MM-DD hh:mm:ss.ffffff') As [record_loaded_at]";
    "";
    "Where";
    "    Not Exists ([old_record_hash], $(var__record_hash))";
    ";";
    "";
    "Load" ].

Definition load_close_lines (table_name : string) : list string :=
  [ "";
    "From";
    "    [lib://OneDrive - mattias.thalen@two.se/Qlik/Analytical Data Storage System/data/das." +:+ table_name +:+ ".parquet] (parquet)";
    "";
    "Where";
    "    Date([modified_date], 'YYYY-MM-DD') >= Date#('$(val__incremental_value)', 'YYYY-MM-DD')";
    ";";
    "";
    "Trace Dropping hash table...;";
    "Drop Table [processed_record_hashes];";
    "";
    "Trace Counting new records...;";
    "Set val__no_of_new_records = Alt(NoOfRows('" +:+ table_name +:+ "'), 0);";
    "";
    "Trace Checking if there are new records...;";
    "If $(val__no_of_new_records) > 0 Then";
    "";
    "    Trace Checking if target QVD exists...;";
    "    If $(val__target_qvd_exists) Then";
    "        Trace Appending previously ingested data...;";
    "";
    "        Concatenate([" +:+ table_name +:+ "])";
    "        Load * From [$(val__qvd_target)] (qvd) Where Not Exists ([record_hash]);";
    "";
    "    Else";
    "        Trace Target not found, skipping append...;";
    "";
    "    End If";
    "" ].

Definition store_reset_lines (table_name : string) : list string :=
  [ "    Trace Storing data...;";
    "    Store [" +:+ table_name +:+ "] Into [$(val__qvd_path__das)/" +:+ table_name +:+ ".qvd] (qvd);";
    "";
    "Else";
    "    Trace No new records loaded...;";
    "";
    "End If";
    "";
    "Trace Dropping table...;";
    "Drop Table [" +:+ table_name +:+ "];";
    "";
    "Trace Resetting variables...;";
    "Let val__qvd_target = Null();";
    "Let val__target_qvd_exists = Null();";
    "Let val__incremental_value = Null();";
    "Let var__record_hash = Null();";
    "Let val__no_of_new_records = Null();";
    "" ].

(** The four lists filled by the categorisation loop. *)
Record buckets : Type := {
  primary_keys : list (string * yaml);
  foreign_keys : list (string * yaml);
  regular_fields : list (string * yaml);
  system_fields : list (string * yaml)
}.

Definition empty_buckets : buckets :=
  {| primary_keys := []; foreign_keys := []; regular_fields := []; system_fields := [] |}.

(** [table_name.split('__')[-1]] *)
Definition entity_name_of (table_name : string) : string :=
  List.last (PyStr.split table_name "__") "".

(** One iteration of the loop over [table_info['columns'].items()]. *)
Definition categorize_step (entity_name : string) (b : buckets) (item : yaml * yaml)
  : result buckets :=
  let '(column_key, column_info) := item in
  column_name ← Py.str_method column_key;
  if PyStr.startswith column_name "_dlt_" then
    Ok b
  else if existsb (String.eqb column_name) ["rowguid"; "modified_date"] then
    Ok {| primary_keys := primary_keys b;
          foreign_keys := foreign_keys b;
          regular_fields := regular_fields b;
          system_fields := system_fields b ++ [(column_name, column_info)] |}
  else if PyStr.endswith column_name "_id" && PyStr.contains column_name entity_name then
    Ok {| primary_keys := primary_keys b ++ [(column_name, column_info)];
          foreign_keys := foreign_keys b;
          regular_fields := regular_fields b;
          system_fields := system_fields b |}
  else if PyStr.endswith column_name "_id" then
    Ok {| primary_keys := primary_keys b;
          foreign_keys := foreign_keys b ++ [(column_name, column_info)];
          regular_fields := regular_fields b;
          system_fields := system_fields b |}
  else
    Ok {| primary_keys := primary_keys b;
          foreign_keys := foreign_keys b;
          regular_fields := regular_fields b ++ [(column_name, column_info)];
          system_fields := system_fields b |}.

Definition categorize (entity_name : string) (columns : list (yaml * yaml))
  : result buckets :=
  for_each (categorize_step entity_name) columns empty_buckets.

(** The four sorts and the concatenation into [sorted_columns]. *)
Definition sorted_columns_of (b : buckets) : list (string * yaml) :=
  Py.sort_by_name (primary_keys b) ++ Py.sort_by_name (foreign_keys b) ++
  Py.sort_by_name (regular_fields b) ++ Py.sort_by_name (system_fields b).

(** The lists filled by the loop over [enumerate(sorted_columns)]. *)
Record field_lists : Type := {
  hash_fields : list string;
  field_load_lines : list string;
  field_comments : list string
}.

Definition empty_field_lists : field_lists :=
  {| hash_fields := []; field_load_lines := []; field_comments := [] |}.

Definition escape_quotes (desc : string) : string :=
  PyStr.replace desc "'" "$(=Chr39())".

(** One iteration of that loop; [len] is [len(sorted_columns)]. *)
Definition field_step (len : Z) (fl : field_lists) (item : Z * (string * yaml))
  : result field_lists :=
  let '(i, (column_name, column_info)) := item in
  let hash_fields' :=
    if (i <? len - 1)%Z
    then hash_fields fl ++ ["    [" +:+ column_name +:+ "],"]
    else hash_fields fl ++ ["    [" +:+ column_name +:+ "]"] in
  let field_load_lines' :=
    if (i <? len - 1)%Z
    then field_load_lines fl ++
           ["    Text([" +:+ column_name +:+ "]) As [" +:+ column_name +:+ "],"]
    else field_load_lines fl ++
           ["    Text([" +:+ column_name +:+ "]) As [" +:+ column_name +:+ "]"] in
  has_description ← Py.str_in "description" column_info;
  if has_description : bool then
    d ← Py.getitem column_info "description";
    desc ← Py.str_method d;
    Ok {| hash_fields := hash_fields';
          field_load_lines := field_load_lines';
          field_comments := field_comments fl ++
            ["Comment Field [" +:+ column_name +:+ "] With '" +:+
               escape_quotes desc +:+ "';"] |}
  else
    Ok {| hash_fields := hash_fields';
          field_load_lines := field_load_lines';
          field_comments := field_comments fl |}.

Definition field_lists_of (sorted_columns : list (string * yaml)) : result field_lists :=
  for_each (field_step (Z.of_nat (length sorted_columns)))
           (Py.enumerate sorted_columns) empty_field_lists.

(** Lines 108-162: the three lists of a table. *)
Definition table_fields (entity_name : string) (table_info : yaml) : result field_lists :=
  has_columns ← Py.str_in "columns" table_info;
  if has_columns : bool then
    cols ← Py.getitem table_info "columns";
    columns ← Py.items cols;
    b ← categorize entity_name columns;
    field_lists_of (sorted_columns_of b)
  else Ok empty_field_lists.

(** Lines 222-227: the optional table comment. *)
Definition table_comment_lines (table_name : string) (table_info : yaml)
  : result (list string) :=
  has_description ← Py.str_in "description" table_info;
  if has_description : bool then
    d ← Py.getitem table_info "description";
    table_desc ← Py.str_method d;
    Ok [ "    Trace Commenting table...;";
         "    Comment Table [" +:+ table_name +:+ "] With '" +:+
           escape_quotes table_desc +:+ "';";
         "" ]
  else Ok [].

(** Lines 229-235: the optional field comments. *)
Definition field_comment_lines (field_comments : list string) : list string :=
  match field_comments with
  | [] => []
  | _ :: _ =>
      ["    Trace Commenting fields...;"] ++
      map (fun comment => "    " +:+ comment) field_comments ++
      [""]
  end.

(** The body of the loop over [schema_data['tables'].items()]: the lines
    of one table block. *)
Definition table_block (table_key table_info : yaml) : result (list string) :=
  table_name ← Py.str_method table_key;
  let entity_name := entity_name_of table_name in
  fl ← table_fields entity_name table_info;
  table_comment ← table_comment_lines table_name table_info;
  Ok (setup_lines table_name ++
      hash_open_lines ++ hash_fields fl ++
      load_open_lines table_name ++ field_load_lines fl ++
      load_close_lines table_name ++
      table_comment ++
      field_comment_lines (field_comments fl) ++
      store_reset_lines table_name).

(** Lines 36-258: the list [output]. *)
Definition build_output (schema_data : yaml) : result (list string) :=
  has_tables ← Py.str_in "tables" schema_data;
  if has_tables : bool then
    tbls ← Py.getitem schema_data "tables";
    tables ← Py.items tbls;
    for_each (fun output item =>
                table_lines ← table_block (fst item) (snd item);
                Ok (output ++ table_lines))
             tables header_lines
  else Ok header_lines.

Definition newline : string := String (Ascii.ascii_of_nat 10) EmptyString.

(** The text handed to [f.write]. *)
Definition render (output : list string) : string := PyStr.join newline output.

(** ** Files and the entry point

    A path is the list of its components; [p / name] appends one.  The
    world holds the regular files with their contents, the directories,
    and what was printed. *)

Abbreviation path := (list string).

Record world : Type := {
  files : gmap path string;
  dirs : gset path;
  stdout : list string
}.

Definition path_str (p : path) : string := PyStr.join "/" p.

(** [open(p, 'r')] followed by reading the whole file. *)
Definition read_text (w : world) (p : path) : result string :=
  match files w !! p with
  | Some content => Ok content
  | None => if decide (p ∈ dirs w) then Raise IsADirectoryError
            else Raise FileNotFoundError
  end.

(** [open(p, 'w')]: the file is created, or emptied when it is there; the
    directory holding it must exist. *)
Definition open_for_writing (w : world) (parent : path) (name : string) : result world :=
  if decide (parent ++ [name] ∈ dirs w) then Raise IsADirectoryError
  else if decide (parent ∈ dirs w) then
    Ok {| files := <[parent ++ [name] := ""]> (files w);
          dirs := dirs w;
          stdout := stdout w |}
  else Raise FileNotFoundError.

(** [f.write(text)] on the file just opened, and its closing: the text is
    encoded as a whole, so when the encoding cannot take it nothing is
    written and the file stays as [open] left it. *)
Definition write_text (encodable : string -> bool) (w : world) (p : path) (text : string)
  : world * result unit :=
  if encodable text then
    ({| files := <[p := text]> (files w); dirs := dirs w; stdout := stdout w |}, Ok tt)
  else (w, Raise UnicodeEncodeError).

Definition print (w : world) (msg : string) : world :=
  {| files := files w; dirs := dirs w; stdout := stdout w ++ [msg] |}.

Section EntryPoint.

(** The YAML parser is a dependency of the program; it is a function of
    the file's text that returns a document or raises. *)
Variable yaml_safe_load : string -> result yaml.

(** So is the text encoding files are opened with by default: it can
    encode a text or not. *)
Variable encodable : string -> bool.

(** Lines 32-258: everything before the output file is opened. *)
Definition load_and_build (w : world) (schema_path : path) : result (list string) :=
  content ← read_text w schema_path;
  schema_data ← yaml_safe_load content;
  build_output schema_data.

Definition generate_das_qvs (script_path schema_path : path) (w : world)
  : world * result unit :=
  let output_name := "data_according_to_system.qvs" in
  match load_and_build w schema_path with
  | Raise e => (w, Raise e)
  | Ok output =>
      match open_for_writing w script_path output_name with
      | Raise e => (w, Raise e)
      | Ok opened =>
          let '(written, r) :=
            write_text encodable opened (script_path ++ [output_name]) (render output) in
          match r with
          | Raise e => (written, Raise e)
          | Ok _ =>
              (print written
                 ("Generated QVS file at: " +:+ path_str (script_path ++ [output_name])),
               Ok tt)
          end
      end
  end.

End EntryPoint.

(** ** Vocabulary of the statements *)

(** The tables of a document in iteration order; none when the key is
    absent. *)
Definition tables_of (schema_data : yaml) : list (yaml * yaml) :=
  match Py.getitem schema_data "tables" with
  | Ok (YMap tables) => tables
  | _ => []
  end.

(** The roots the test for the [tables] key (line 47) can be put to:
    mappings, sequences and strings. *)
Definition membership_tested (schema_data : yaml) : bool :=
  match schema_data with
  | YMap _ | YSeq _ | YStr _ => true
  | YNull | YBool _ | YInt _ | YFloat _ => false
  end.

Definition block_of (item : yaml * yaml) (block : list string) : Prop :=
  table_block (fst item) (snd item) = Ok block.


(** The order the sort arranges the columns in: by name, as byte strings. *)
Definition name_le {A : Type} (x y : string * A) : Prop :=
  String.leb (fst x) (fst y) = true.

(** A line of [n] copies of the character [c]. *)
Definition rule (c : ascii) (n : nat) : string :=
  string_of_list_ascii (repeat c n).

(** The first five lines of a block: a trace banner naming the table
    between two dashed rules of [n] characters. *)
Definition has_banner (n : nat) (table_name : string) (block : list string) : Prop :=
  firstn 5 block =
    [ "Trace"; rule "-" n; "    Extracting " +:+ table_name; rule "-" n; ";" ].

(** The header block, line by line and as text. *)
Definition header_block : list string :=
  [ "Trace";
    rule "=" 63;
    "    DATA ACCORDING TO SYSTEM";
    "    Script generated by Qlik Script Generator";
    rule "=" 63;
    ";" ].

Definition header_text : string :=
  "Trace
===============================================================
    DATA ACCORDING TO SYSTEM
    Script generated by Qlik Script Generator
===============================================================
;".

(** The statements that clear the per-table variables. *)
Definition reset_statements : list string :=
  [ "Let val__qvd_target = Null();";
    "Let val__target_qvd_exists = Null();";
    "Let val__incremental_value = Null();";
    "Let var__record_hash = Null();";
    "Let val__no_of_new_records = Null();" ].

Definition ends_with_reset (block : list string) : Prop :=
  exists before,
    block = before ++ ["Trace Resetting variables...;"] ++ reset_statements ++ [""].

(** The precedence of the classification, as a function of the name. *)
Inductive category : Type :=
| Excluded
| SystemField
| PrimaryKey
| ForeignKey
| RegularField.

Definition category_eqb (c1 c2 : category) : bool :=
  match c1, c2 with
  | Excluded, Excluded | SystemField, SystemField | PrimaryKey, PrimaryKey
  | ForeignKey, ForeignKey | RegularField, RegularField => true
  | _, _ => false
  end.

Definition classify (entity_name column_name : string) : category :=
  if PyStr.startswith column_name "_dlt_" then Excluded
  else if String.eqb column_name "rowguid" || String.eqb column_name "modified_date"
  then SystemField
  else if PyStr.endswith column_name "_id" then
    if PyStr.contains column_name entity_name then PrimaryKey else ForeignKey
  else RegularField.

Definition in_category (entity_name : string) (c : category) (col : string * yaml) : bool :=
  category_eqb (classify entity_name (fst col)) c.

(** A columns mapping whose keys are all strings. *)
Definition named_columns (named : list (string * yaml)) : list (yaml * yaml) :=
  map (fun col => (YStr (fst col), snd col)) named.

(** The name occurs in a list of columns. *)
Definition listed (column_name : string) (l : list (string * yaml)) : Prop :=
  In column_name (map fst l).

(** The rendered line of a column in each of the three lists. *)
Definition hash_line (column_name : string) : string :=
  "    [" +:+ column_name +:+ "]".

Definition load_line (column_name : string) : string :=
  "    Text([" +:+ column_name +:+ "]) As [" +:+ column_name +:+ "]".

Definition comment_line (column_name desc : string) : string :=
  "Comment Field [" +:+ column_name +:+ "] With '" +:+ desc +:+ "';".

(** A comma after every entry but the last. *)
Fixpoint with_commas (entries : list string) : list string :=
  match entries with
  | [] => []
  | [x] => [x]
  | x :: rest => (x +:+ ",") :: with_commas rest
  end.

(** The [description] of a table or column, when it has one. *)
Definition description_of (info : yaml) : option string :=
  match Py.getitem info "description" with
  | Ok (YStr d) => Some d
  | _ => None
  end.

(** Escaping, character by character: a single quote becomes
    [$(=Chr39())], every other character stays. *)
Definition escaped (desc : string) : string :=
  String.concat ""
    (map (fun c => if Ascii.eqb "'" c then "$(=Chr39())" else String c "")
         (list_ascii_of_string desc)).

Definition comments_of (cols : list (string * yaml)) : list string :=
  flat_map (fun col =>
              match description_of (snd col) with
              | Some d => [comment_line (fst col) (escaped d)]
              | None => []
              end) cols.

(** No rendered line of the three lists is a line of [column_name]. *)
Definition not_rendered (column_name : string) (fl : field_lists) : Prop :=
  ~ In (hash_line column_name) (hash_fields fl) /\
  ~ In (hash_line column_name +:+ ",") (hash_fields fl) /\
  ~ In (load_line column_name) (field_load_lines fl) /\
  ~ In (load_line column_name +:+ ",") (field_load_lines fl) /\
  forall desc, ~ In (comment_line column_name desc) (field_comments fl).

(** The column is in its own list and named in none of the others. *)
Definition only_in (column_name : string) (column_info : yaml)
  (own : list (string * yaml)) (others : list (list (string * yaml))) : Prop :=
  In (column_name, column_info) own /\
  Forall (fun l => ~ listed column_name l) others.

(** The classification of one column of a table, by precedence. *)
Definition classified_by_precedence (entity_name : string) (b : buckets)
  (column_name : string) (column_info : yaml) : Prop :=
  if PyStr.startswith column_name "_dlt_" then
    ~ listed column_name (primary_keys b) /\
    ~ listed column_name (foreign_keys b) /\
    ~ listed column_name (regular_fields b) /\
    ~ listed column_name (system_fields b) /\
    ~ listed column_name (sorted_columns_of b) /\
    forall fl, field_lists_of (sorted_columns_of b) = Ok fl -> not_rendered column_name fl
  else if String.eqb column_name "rowguid" || String.eqb column_name "modified_date" then
    only_in column_name column_info (system_fields b)
            [primary_keys b; foreign_keys b; regular_fields b]
  else if PyStr.endswith column_name "_id" && PyStr.contains column_name entity_name then
    only_in column_name column_info (primary_keys b)
            [foreign_keys b; regular_fields b; system_fields b]
  else if PyStr.endswith column_name "_id" then
    only_in column_name column_info (foreign_keys b)
            [primary_keys b; regular_fields b; system_fields b]
  else
    only_in column_name column_info (regular_fields b)
            [primary_keys b; foreign_keys b; system_fields b].

(** A list of names in lexicographic order. *)
Definition names_sorted (l : list string) : Prop :=
  StronglySorted (fun a b => String.leb a b = true) l.

(** The names of the columns of one category, in mapping order. *)
Definition names_in (entity_name : string) (c : category) (named : list (string * yaml))
  : list string :=
  map fst (List.filter (in_category entity_name c) named).

(** [l] is the sorted arrangement of the names of category [c]. *)
Definition sorted_bucket (entity_name : string) (c : category)
  (named : list (string * yaml)) (l : list string) : Prop :=
  names_sorted l /\ Permutation l (names_in entity_name c named).

(** The comment statements as they stand in a block. *)
Definition table_comment_statement (table_name desc : string) : string :=
  "    Comment Table [" +:+ table_name +:+ "] With '" +:+ escaped desc +:+ "';".

Definition field_comment_statement (column_name desc : string) : string :=
  "    Comment Field [" +:+ column_name +:+ "] With '" +:+ escaped desc +:+ "';".

(** Documents that follow the data model: [tables], when present, maps
    table names to mappings; [columns], when present, maps column names to
    mappings; a [description], when present, is a string.  What stands
    under a column that is dropped is never looked at. *)
Definition wf_description (info : yaml) : bool :=
  match info with
  | YMap entries =>
      match find (fun e => Py.is_str "description" (fst e)) entries with
      | None => true
      | Some (_, YStr _) => true
      | Some _ => false
      end
  | _ => false
  end.

Definition wf_column (col : yaml * yaml) : bool :=
  match fst col with
  | YStr column_name =>
      PyStr.startswith column_name "_dlt_" || wf_description (snd col)
  | _ => false
  end.

Definition wf_table (item : yaml * yaml) : bool :=
  match fst item with
  | YStr _ =>
      wf_description (snd item) &&
      match Py.getitem (snd item) "columns" with
      | Ok (YMap columns) => forallb wf_column columns
      | Ok _ => false
      | Raise _ => true
      end
  | _ => false
  end.

Definition well_formed (schema_data : yaml) : bool :=
  match schema_data with
  | YMap entries =>
      match find (fun e => Py.is_str "tables" (fst e)) entries with
      | None => true
      | Some (_, YMap tables) => forallb wf_table tables
      | Some _ => false
      end
  | _ => false
  end.

(** The references to the files of a table. *)
Definition qvd_prefix : string := "$(val__qvd_path__das)/".

Definition qvd_reference (table_name : string) : string :=
  qvd_prefix +:+ table_name +:+ ".qvd".

Definition parquet_reference (table_name : string) : string :=
  "das." +:+ table_name +:+ ".parquet".

Definition qvd_target_statement (table_name : string) : string :=
  "Let val__qvd_target = '" +:+ qvd_reference table_name +:+ "';".

Definition store_statement (table_name : string) : string :=
  "    Store [" +:+ table_name +:+ "] Into [" +:+ qvd_reference table_name +:+ "] (qvd);".

Definition parquet_source (table_name : string) : string :=
  "    [lib://OneDrive - mattias.thalen@two.se/Qlik/Analytical Data Storage System/data/" +:+
  parquet_reference table_name +:+ "] (parquet)".

(** Text without a dollar sign, and tables whose name-independent text
    (kept column names, descriptions) is without one. *)
Definition plain (s : string) : bool := negb (PyStr.contains s "$").

Definition plain_description (info : yaml) : bool :=
  match description_of info with
  | Some d => plain d
  | None => true
  end.

Definition plain_column (col : yaml * yaml) : bool :=
  match fst col with
  | YStr column_name =>
      PyStr.startswith column_name "_dlt_" ||
      (plain column_name && plain_description (snd col))
  | _ => true
  end.

Definition plain_table (table_info : yaml) : bool :=
  plain_description table_info &&
  match Py.getitem table_info "columns" with
  | Ok (YMap columns) => forallb plain_column columns
  | _ => true
  end.

(** [s] adds [n] occurrences of the qvd reference of [table_name] to any
    text it is put in front of. *)
Definition adds (table_name : string) (n : nat) (s : string) : Prop :=
  forall t,
    PyStr.count_at (s +:+ t) (qvd_reference table_name) =
    n + PyStr.count_at t (qvd_reference table_name).

(** No position of [s] can start a text that begins with [qvd_prefix]. *)
Fixpoint inert (s : string) : bool :=
  match s with
  | EmptyString => true
  | String _ s' =>
      negb (PyStr.startswith s qvd_prefix || PyStr.startswith qvd_prefix s) && inert s'
  end.

(** The lines of a list, each followed by a newline. *)
Definition unlines (l : list string) : string :=
  String.concat "" (map (fun line => line +:+ newline) l).

(** ** Sample documents *)

(** The schema of the end-to-end scenario, with a column that is dropped
    and a description that needs escaping. *)
Definition sample_columns : list (yaml * yaml) :=
  [ (YStr "order_id", YMap [(YStr "description", YStr "Primary key")]);
    (YStr "customer_id", YMap []);
    (YStr "modified_date", YMap []);
    (YStr "_dlt_load_id", YNull);
    (YStr "note", YMap [(YStr "description", YStr "it's")]);
    (YStr "rowguid", YMap []) ].

Definition sample_table : yaml :=
  YMap [ (YStr "description", YStr "Order header data");
         (YStr "columns", YMap sample_columns) ].

Definition sample_schema : yaml :=
  YMap [ (YStr "tables", YMap [ (YStr "sales__order", sample_table) ]) ].

Definition sample_buckets : buckets :=
  Eval vm_compute in
    match categorize "order" sample_columns with
    | Ok b => b
    | Raise _ => empty_buckets
    end.

Definition sample_buckets_trailing : buckets :=
  Eval vm_compute in
    match categorize (entity_name_of "staging___") sample_columns with
    | Ok b => b
    | Raise _ => empty_buckets
    end.

Definition sample_fields : field_lists :=
  Eval vm_compute in
    match table_fields "order" sample_table with
    | Ok fl => fl
    | Raise _ => empty_field_lists
    end.

Definition sample_block : list string :=
  Eval vm_compute in
    match table_block (YStr "sales__order") sample_table with
    | Ok block => block
    | Raise _ => []
    end.

Definition sample_output : list string :=
  Eval vm_compute in
    match build_output sample_schema with
    | Ok out => out
    | Raise _ => []
    end.

(** A parser that knows two texts, and two worlds to run the entry point
    in: one with the sample schema, one whose schema parses but has a
    column without a mapping. *)
Definition sample_text : string := "tables: {sales__order: {columns: {order_id: {}}}}".
Definition malformed_text : string := "tables: {sales__order: {columns: {order_id: }}}".

Definition malformed_schema : yaml :=
  YMap [ (YStr "tables",
          YMap [ (YStr "sales__order",
                  YMap [ (YStr "columns", YMap [ (YStr "order_id", YNull) ]) ]) ]) ].

Definition sample_parser (text : string) : result yaml :=
  if String.eqb text sample_text then Ok sample_schema
  else if String.eqb text malformed_text then Ok malformed_schema
  else Raise YAMLError.

(** Encodings: one that takes every text, one that takes ASCII only. *)
Definition every_text (text : string) : bool := true.

Definition ascii_only (text : string) : bool :=
  forallb (fun c => Nat.ltb (nat_of_ascii c) 128) (list_ascii_of_string text).

Definition sample_schema_path : path := ["app"; "schemas"; "raw_schema.yaml"].
Definition sample_script_path : path := ["app"; "scripts"].
Definition sample_output_path : path :=
  sample_script_path ++ ["data_according_to_system.qvs"].

Definition sample_world : world :=
  {| files := {[ sample_schema_path := sample_text ]};
     dirs := {[ ["app"]; ["app"; "schemas"]; sample_script_path ]};
     stdout := [] |}.

Definition malformed_world : world :=
  {| files := <[ sample_output_path := "previous run" ]>
                {[ sample_schema_path := malformed_text ]};
     dirs := {[ ["app"]; ["app"; "schemas"]; sample_script_path ]};
     stdout := [] |}.

Definition sample_world_after : world :=
  fst (generate_das_qvs sample_parser every_text sample_script_path sample_schema_path
         sample_world).

Definition sample_world_twice : world :=
  fst (generate_das_qvs sample_parser every_text sample_script_path sample_schema_path
         sample_world_after).

(** An empty schema file: the parser returns [None] for it. *)
Definition empty_file_parser (text : string) : result yaml :=
  if String.eqb text "" then Ok YNull else Raise YAMLError.

Definition empty_file_world : world :=
  {| files := {[ sample_schema_path := "" ]};
     dirs := {[ ["app"]; ["app"; "schemas"]; sample_script_path ]};
     stdout := [] |}.

(** A schema file in ASCII whose description holds an accented letter,
    written as an escape in a double-quoted scalar; loaded, the letter is
    one character outside ASCII (here the two bytes of its UTF-8 form). *)
Definition double_quote : string := String (ascii_of_nat 34) "".

Definition e_acute : string := String (ascii_of_nat 195) (String (ascii_of_nat 169) "").

Definition accented_text : string :=
  "tables: {cafe: {description: " +:+ double_quote +:+ "caf\u00E9" +:+ double_quote +:+ "}}".

Definition accented_schema : yaml :=
  YMap [ (YStr "tables",
          YMap [ (YStr "cafe",
                  YMap [ (YStr "description", YStr ("caf" +:+ e_acute)) ]) ]) ].

Definition accented_parser (text : string) : result yaml :=
  if String.eqb text accented_text then Ok accented_schema else Raise YAMLError.

(** A world that has the output of an earlier run. *)
Definition accented_world : world :=
  {| files := <[ sample_output_path := "previous run" ]>
                {[ sample_schema_path := accented_text ]};
     dirs := {[ ["app"]; ["app"; "schemas"]; sample_script_path ]};
     stdout := [] |}.

Definition accented_output : list string :=
  Eval vm_compute in
    match build_output accented_schema with
    | Ok output => output
    | Raise _ => []
    end.

Definition accented_world_after : world :=
  fst (generate_das_qvs accented_parser ascii_only sample_script_path sample_schema_path
         accented_world).

(** The table of the path example, and one whose description quotes its
    own qvd file. *)
Definition customer_block : list string :=
  Eval vm_compute in
    match table_block (YStr "sales__customer") sample_table with
    | Ok block => block
    | Raise _ => []
    end.

Definition annotated_table : yaml :=
  YMap [ (YStr "description",
          YStr "Kept in $(val__qvd_path__das)/sales__customer.qvd") ].

Definition annotated_block : list string :=
  Eval vm_compute in
    match table_block (YStr "sales__customer") annotated_table with
    | Ok block => block
    | Raise _ => []
    end.

(** ** The program run directly

    Lines 266-275.  [base_dir] is the directory that holds the program
    file. *)

Section Main.

Variable yaml_safe_load : string -> result yaml.
Variable encodable : string -> bool.

Definition main (base_dir : path) (w : world) : world * result unit :=
  let schema_path := (base_dir ++ ["schemas"]) ++ ["raw_schema.yaml"] in
  let script_path := base_dir ++ ["scripts"] in
  generate_das_qvs yaml_safe_load encodable script_path schema_path w.

End Main.

(** ** Vocabulary of the further properties *)

Definition succeeds {A : Type} (r : result A) : Prop := exists a, r = Ok a.

(** The values under which the test for a [description] and its use go
    through: a mapping without the key or with a string under it, a list
    that does not hold the word, a string that does not contain it. *)
Definition description_readable (info : yaml) : bool :=
  match info with
  | YMap entries =>
      match find (fun e => Py.is_str "description" (fst e)) entries with
      | None => true
      | Some (_, YStr _) => true
      | Some _ => false
      end
  | YSeq elems => negb (existsb (Py.is_str "description") elems)
  | YStr s => negb (PyStr.contains s "description")
  | YNull | YBool _ | YInt _ | YFloat _ => false
  end.

Definition column_accepted (col : yaml * yaml) : bool :=
  match fst col with
  | YStr column_name =>
      PyStr.startswith column_name "_dlt_" || description_readable (snd col)
  | _ => false
  end.

Definition columns_accepted (table_info : yaml) : bool :=
  match table_info with
  | YMap entries =>
      match find (fun e => Py.is_str "columns" (fst e)) entries with
      | None => true
      | Some (_, YMap columns) => forallb column_accepted columns
      | Some _ => false
      end
  | YSeq elems => negb (existsb (Py.is_str "columns") elems)
  | YStr s => negb (PyStr.contains s "columns")
  | YNull | YBool _ | YInt _ | YFloat _ => false
  end.

Definition table_accepted (item : yaml * yaml) : bool :=
  match fst item with
  | YStr _ => columns_accepted (snd item) && description_readable (snd item)
  | _ => false
  end.

Definition document_accepted (schema_data : yaml) : bool :=
  match schema_data with
  | YMap entries =>
      match find (fun e => Py.is_str "tables" (fst e)) entries with
      | None => true
      | Some (_, YMap tables) => forallb table_accepted tables
      | Some _ => false
      end
  | YSeq elems => negb (existsb (Py.is_str "tables") elems)
  | YStr s => negb (PyStr.contains s "tables")
  | YNull | YBool _ | YInt _ | YFloat _ => false
  end.

(** A column key that is a string starting with [_dlt_]. *)
Definition is_dlt_key (col : yaml * yaml) : bool :=
  match fst col with
  | YStr column_name => PyStr.startswith column_name "_dlt_"
  | _ => false
  end.

(** How the last piece of [s.split('__')] lies in [s]: it holds no
    separator, and it is all of [s] when there is one piece, and otherwise
    what follows a separator. *)
Definition last_segment (s : string) (pieces : list string) : Prop :=
  let e := List.last pieces "" in
  PyStr.contains e "__" = false /\
  ((pieces = [e] /\ s = e) \/
   (2 <= length pieces /\ exists p, s = p +:+ e /\ PyStr.endswith p "__" = true)).

Definition reordered_table : yaml := YMap [ (YStr "columns", YMap (rev sample_columns)) ].

Definition trimmed_table : yaml :=
  YMap [ (YStr "columns",
          YMap (List.filter (fun col => negb (is_dlt_key col)) sample_columns)) ].

(** Documents that hold one table each, and one that holds both. *)
Definition orders_only : yaml := sample_schema.

Definition customers_only : yaml :=
  YMap [ (YStr "tables", YMap [ (YStr "sales__customer", sample_table) ]) ].

Definition orders_and_customers : yaml :=
  YMap [ (YStr "tables",
          YMap ([ (YStr "sales__order", sample_table) ] ++
                [ (YStr "sales__customer", sample_table) ])) ].

Definition sample_buckets_id : buckets :=
  Eval vm_compute in
    match categorize (entity_name_of "dim__id") sample_columns with
    | Ok b => b
    | Raise _ => empty_buckets
    end.

Definition sample_sorted_columns : list (string * yaml) :=
  Eval vm_compute in sorted_columns_of sample_buckets.


Definition main_world_after : world :=
  fst (main sample_parser every_text ["app"] sample_world).

(** The columns of a table that are not dropped, in mapping order. *)
Definition kept_columns (table_info : yaml) : list (yaml * yaml) :=
  match Py.getitem table_info "columns" with
  | Ok (YMap columns) => List.filter (fun col => negb (is_dlt_key col)) columns
  | _ => []
  end.

Definition has_description (col : yaml * yaml) : bool :=
  match description_of (snd col) with
  | Some _ => true
  | None => false
  end.

(** The number of lines the field comments take in a block. *)
Definition comment_section_length (n : nat) : nat :=
  match n with
  | O => 0
  | S _ => n + 2
  end.

Definition bare_table : yaml := YMap [ (YStr "description", YStr "No columns yet") ].

Definition bare_block : list string :=
  Eval vm_compute in
    match table_block (YStr "sales__empty") bare_table with
    | Ok block => block
    | Raise _ => []
    end.

(** Text that fits on one line. *)
Definition one_line (s : string) : bool := negb (PyStr.contains s newline).

Definition one_line_description (info : yaml) : bool :=
  match description_of info with
  | Some d => one_line d
  | None => true
  end.

Definition one_line_column (col : yaml * yaml) : bool :=
  match fst col with
  | YStr column_name => one_line column_name && one_line_description (snd col)
  | _ => true
  end.
(** * Properties *)

(** ** Python string methods on examples *)

Example split_ex1 : PyStr.split "sales__customer" "__" = ["sales"; "customer"].
Proof. reflexivity. Qed.
Example split_ex2 : PyStr.split "a___" "__" = ["a"; "_"].
Proof. reflexivity. Qed.
Example split_ex3 : PyStr.split "a__" "__" = ["a"; ""].
Proof. reflexivity. Qed.
Example replace_ex1 : PyStr.replace "it's" "'" "$(=Chr39())" = "it$(=Chr39())s".
Proof. reflexivity. Qed.


(** ** The error monad and the loops *)

Lemma bind_Ok {A B : Type} (r : result A) (k : A -> result B) (b : B) :
  r ≫= k = Ok b -> exists a, r = Ok a /\ k a = Ok b.
Proof.
  destruct r as [a|e]; simpl; intros H.
  - exists a. split; [reflexivity | exact H].
  - discriminate H.
Qed.

Ltac bind_inv H :=
  let a := fresh "a" in
  let Ha := fresh "H" a in
  apply bind_Ok in H; destruct H as [a [Ha H]].

Lemma for_each_app {A S : Type} (body : S -> A -> result S) (l1 l2 : list A) (s : S) :
  for_each body (l1 ++ l2) s = s' ← for_each body l1 s; for_each body l2 s'.
Proof.
  revert s. induction l1 as [|x l1 IH]; intros s; simpl.
  - reflexivity.
  - destruct (body s x) as [s1|e]; simpl; [apply IH | reflexivity].
Qed.

Lemma extend_loop_blocks (tables : list (yaml * yaml)) (acc out : list string) :
  for_each (fun output item =>
              table_lines ← table_block (fst item) (snd item);
              Ok (output ++ table_lines)) tables acc = Ok out ->
  exists blocks, Forall2 block_of tables blocks /\ out = acc ++ List.concat blocks.
Proof.
  revert acc. induction tables as [|item tables IH]; intros acc H; simpl in H.
  - exists []. split; [constructor|]. injection H as <-. now rewrite app_nil_r.
  - bind_inv H. bind_inv Ha. injection Ha as <-.
    destruct (IH _ H) as [blocks [HF ->]].
    exists (a0 :: blocks). split.
    + constructor; [exact Ha0 | exact HF].
    + simpl. now rewrite <- app_assoc.
Qed.

Lemma find_none_existsb {A : Type} (f : A -> bool) (l : list A) :
  existsb f l = false -> find f l = None.
Proof.
  induction l as [|x l IH]; simpl; [reflexivity|].
  destruct (f x); simpl; [discriminate | exact IH].
Qed.

Lemma find_some_existsb {A : Type} (f : A -> bool) (l : list A) :
  existsb f l = true -> exists x, find f l = Some x.
Proof.
  induction l as [|x l IH]; simpl; [discriminate|].
  destruct (f x); simpl; [eauto | exact IH].
Qed.

(** The output is the header followed by one block per table, in order. *)
Lemma build_output_blocks (schema_data : yaml) (out : list string) :
  build_output schema_data = Ok out ->
  exists blocks,
    Forall2 block_of (tables_of schema_data) blocks /\
    out = header_lines ++ List.concat blocks.
Proof.
  unfold build_output. intros H. bind_inv H. destruct a.
  - bind_inv H. bind_inv H. unfold tables_of. rewrite Ha0.
    destruct a; try discriminate Ha1. injection Ha1 as ->.
    now apply extend_loop_blocks.
  - injection H as <-. exists []. split; [|reflexivity].
    unfold tables_of.
    destruct schema_data; simpl in *; try constructor.
    injection Ha as Ha. rewrite (find_none_existsb _ _ Ha). constructor.
Qed.

(** A block is the concatenation of its fixed and computed parts. *)
Lemma table_block_parts (table_key table_info : yaml) (block : list string) :
  table_block table_key table_info = Ok block ->
  exists table_name fl table_comment,
    table_key = YStr table_name /\
    table_fields (entity_name_of table_name) table_info = Ok fl /\
    table_comment_lines table_name table_info = Ok table_comment /\
    block = setup_lines table_name ++
            hash_open_lines ++ hash_fields fl ++
            load_open_lines table_name ++ field_load_lines fl ++
            load_close_lines table_name ++
            table_comment ++
            field_comment_lines (field_comments fl) ++
            store_reset_lines table_name.
Proof.
  unfold table_block. intros H. bind_inv H. bind_inv H. bind_inv H.
  injection H as <-.
  destruct table_key; try discriminate Ha. injection Ha as ->.
  exists a, a0, a1. auto.
Qed.

Lemma sample_block_ok : table_block (YStr "sales__order") sample_table = Ok sample_block.
Proof. vm_compute. reflexivity. Qed.

Lemma sample_output_ok : build_output sample_schema = Ok sample_output.
Proof. vm_compute. reflexivity. Qed.

(** ** The banner of a block *)

(** C8, as the code has it: every table block starts with the trace
    banner, the line [    Extracting T] between two dashed rules and closed
    by [;]; the rules are 63 characters long. *)
Theorem banner_63 (table_key table_info : yaml) (block : list string)
  (H : table_block table_key table_info = Ok block) :
  exists table_name, table_key = YStr table_name /\ has_banner 63 table_name block.
Proof.
  destruct (table_block_parts _ _ _ H) as (table_name & fl & tc & -> & _ & _ & ->).
  exists table_name. split; reflexivity.
Qed.

Lemma banner_63_witness :
  exists table_name,
    YStr "sales__order" = YStr table_name /\ has_banner 63 table_name sample_block.
Proof. apply (banner_63 (YStr "sales__order") sample_table), sample_block_ok. Defined.

(** C8 as stated fails: the rules of the banner are not 65 characters
    long. *)
Lemma banner_65_fails :
  table_block (YStr "sales__order") sample_table = Ok sample_block /\
  ~ has_banner 65 "sales__order" sample_block /\
  (exists r, nth_error sample_block 1 = Some r /\ nth_error sample_block 3 = Some r /\
             String.length r = 63).
Proof.
  split; [exact sample_block_ok|]. split.
  - unfold has_banner. vm_compute. discriminate.
  - eexists. repeat split; vm_compute; reflexivity.
Qed.

(** ** The reset at the end of a block *)

(** C6: every table block of the output ends with the statements that
    assign [Null()] to the five per-table variables, so the reset comes
    before the next block starts. *)
Theorem blocks_end_with_reset (schema_data : yaml) (out : list string)
  (H : build_output schema_data = Ok out) :
  exists blocks,
    out = header_lines ++ List.concat blocks /\
    Forall2 block_of (tables_of schema_data) blocks /\
    Forall ends_with_reset blocks.
Proof.
  destruct (build_output_blocks _ _ H) as [blocks [HF ->]].
  exists blocks. repeat split; [exact HF|].
  clear H. induction HF as [|item block tables blocks Hb HF IH]; constructor; [|exact IH].
  destruct (table_block_parts _ _ _ Hb) as (table_name & fl & tc & _ & _ & _ & ->).
  unfold ends_with_reset.
  exists (setup_lines table_name ++ hash_open_lines ++ hash_fields fl ++
          load_open_lines table_name ++ field_load_lines fl ++
          load_close_lines table_name ++ tc ++
          field_comment_lines (field_comments fl) ++
          firstn 11 (store_reset_lines table_name)).
  repeat rewrite <- app_assoc. repeat f_equal.
Qed.

Lemma blocks_end_with_reset_witness :
  exists blocks,
    sample_output = header_lines ++ List.concat blocks /\
    Forall2 block_of (tables_of sample_schema) blocks /\
    Forall ends_with_reset blocks.
Proof. apply (blocks_end_with_reset sample_schema), sample_output_ok. Defined.

(** ** Facts about the string methods *)

#[local] Arguments String.append : simpl nomatch.

Lemma append_assoc (a b c : string) : (a +:+ b) +:+ c = a +:+ b +:+ c.
Proof. induction a as [|x a IH]; simpl; [reflexivity | now rewrite IH]. Qed.

Lemma append_empty_r (a : string) : a +:+ "" = a.
Proof. induction a as [|x a IH]; simpl; [reflexivity | now rewrite IH]. Qed.

Lemma append_length (a b : string) :
  String.length (a +:+ b) = String.length a + String.length b.
Proof. induction a as [|x a IH]; simpl; [reflexivity | now rewrite IH]. Qed.

Lemma append_inv_head (a b c : string) : a +:+ b = a +:+ c -> b = c.
Proof. induction a as [|x a IH]; simpl; intros H; [exact H | injection H as H; auto]. Qed.

Lemma append_same_length (a b c d : string) :
  String.length a = String.length c -> a +:+ b = c +:+ d -> a = c /\ b = d.
Proof.
  revert c. induction a as [|x a IH]; intros [|y c] Hl H; simpl in *; try discriminate.
  - auto.
  - injection H as -> H. injection Hl as Hl. destruct (IH _ Hl H) as [-> ->]. auto.
Qed.

Lemma startswith_spec (s p : string) :
  PyStr.startswith s p = true <-> exists r, s = p +:+ r.
Proof.
  revert s. induction p as [|a p IH]; intros s; simpl.
  - split; [intros _; now exists s | reflexivity].
  - destruct s as [|b s].
    + split; [discriminate | intros [r Hr]; discriminate].
    + rewrite andb_true_iff, IH, Ascii.eqb_eq. split.
      * intros [-> [r ->]]. now exists r.
      * intros [r Hr]. injection Hr as -> ->. split; [reflexivity | now exists r].
Qed.

Lemma startswith_append (p r : string) : PyStr.startswith (p +:+ r) p = true.
Proof. apply startswith_spec. now exists r. Qed.

Lemma endswith_spec (s p : string) :
  PyStr.endswith s p = true <-> exists u, s = u +:+ p.
Proof.
  induction s as [|c s IH]; cbn [PyStr.endswith].
  - rewrite orb_false_r, String.eqb_eq. split.
    + intros <-. now exists "".
    + intros [[|x u] Hu]; simpl in Hu; [auto | discriminate].
  - rewrite orb_true_iff, String.eqb_eq, IH. split.
    + intros [<- | [u ->]]; [now exists "" | now exists (String c u)].
    + intros [[|x u] Hu]; simpl in Hu; [now left|].
      injection Hu as -> ->. right. now exists u.
Qed.

Lemma contains_spec (s p : string) :
  PyStr.contains s p = true <-> exists u v, s = u +:+ p +:+ v.
Proof.
  induction s as [|c s IH]; cbn [PyStr.contains].
  - rewrite orb_false_r, startswith_spec. split.
    + intros [r ->]. now exists "", r.
    + intros [[|x u] [v Hv]]; simpl in Hv; [now exists v | discriminate].
  - rewrite orb_true_iff, startswith_spec, IH. split.
    + intros [[r ->] | [u [v ->]]]; [now exists "", r | now exists (String c u), v].
    + intros [[|x u] [v Hv]]; simpl in Hv; [left; now exists v|].
      injection Hv as -> ->. right. now exists u, v.
Qed.

Lemma contains_empty (s : string) : PyStr.contains s "" = true.
Proof. destruct s; reflexivity. Qed.

(** Replacing a one-character pattern rewrites the string character by
    character. *)
Lemma replace_char (c : ascii) (new s : string) :
  PyStr.replace s (String c "") new =
  String.concat "" (map (fun x => if Ascii.eqb c x then new else String x "")
                        (list_ascii_of_string s)).
Proof.
  unfold PyStr.replace. induction s as [|x s IH]; [reflexivity|].
  cbn [PyStr.replace_from PyStr.startswith String.length Nat.sub list_ascii_of_string map].
  rewrite andb_true_r, IH.
  destruct (list_ascii_of_string s) as [|y l] eqn:E; simpl.
  - destruct (Ascii.eqb c x); simpl; [now rewrite append_empty_r | reflexivity].
  - destruct (Ascii.eqb c x); reflexivity.
Qed.

(** Splitting loses nothing: joining the pieces with the separator gives
    the string back. *)
Lemma concat_cons_nonempty (sep x : string) (l : list string) :
  l <> [] -> String.concat sep (x :: l) = x +:+ sep +:+ String.concat sep l.
Proof. destruct l; [congruence | reflexivity]. Qed.

Lemma split_from_nonempty (sep : string) (skip : nat) (s : string) :
  PyStr.split_from sep skip s <> [].
Proof.
  revert skip. induction s as [|c s IH]; intros skip; cbn [PyStr.split_from].
  - discriminate.
  - destruct skip as [|k]; [|apply IH].
    destruct (PyStr.startswith (String c s) sep); [discriminate|].
    destruct (PyStr.split_from sep 0 s); discriminate.
Qed.

Lemma split_from_join (sep s : string) (k : nat) (pre rest s2 : string) :
  sep <> "" ->
  sep = pre +:+ rest ->
  String.length rest = k ->
  s = rest +:+ s2 ->
  String.concat sep (PyStr.split_from sep k s) = s2.
Proof.
  intros Hne. revert k pre rest s2.
  induction s as [|c s IH]; intros k pre rest s2 Hsep Hlen Hs.
  - destruct rest; [|discriminate Hs]. cbn in Hs. now subst.
  - destruct k as [|k].
    + destruct rest; [|discriminate Hlen]. cbn [String.append] in Hs. subst s2.
      cbn [PyStr.split_from].
      destruct (PyStr.startswith (String c s) sep) eqn:Hsw.
      * apply startswith_spec in Hsw as [r Hr].
        destruct sep as [|a sep']; [congruence|].
        cbn [String.append] in Hr. injection Hr as -> ->.
        cbn [String.length Nat.sub]. rewrite Nat.sub_0_r.
        rewrite concat_cons_nonempty by apply split_from_nonempty.
        rewrite (IH (String.length sep') (String a "") sep' r); reflexivity.
      * pose proof (IH 0 sep "" s (eq_sym (append_empty_r sep)) eq_refl eq_refl) as Hj.
        pose proof (split_from_nonempty sep 0 s) as Hn.
        destruct (PyStr.split_from sep 0 s) as [|p [|q ps]]; [congruence | |].
        -- cbn [String.concat] in *. now subst.
        -- cbn [String.concat] in *. cbn [String.append]. now rewrite Hj.
    + destruct rest as [|b rest]; [discriminate Hlen|].
      cbn [String.append String.length] in *. injection Hs as -> ->. injection Hlen as Hlen.
      cbn [PyStr.split_from].
      apply (IH k (pre +:+ String b "") rest); [|exact Hlen | reflexivity].
      now rewrite append_assoc.
Qed.

Lemma split_join (s sep : string) :
  sep <> "" -> PyStr.join sep (PyStr.split s sep) = s.
Proof.
  intros Hne. unfold PyStr.join, PyStr.split.
  apply (split_from_join sep s 0 sep ""); auto using append_empty_r.
Qed.

(** ** The order on names and the sort *)

Lemma ascii_compare_lt_trans (a b c : ascii) :
  Ascii.compare a b = Lt -> Ascii.compare b c = Lt -> Ascii.compare a c = Lt.
Proof.
  unfold Ascii.compare. rewrite !N.compare_lt_iff. apply N.lt_trans.
Qed.

Lemma string_compare_refl (s : string) : String.compare s s = Eq.
Proof.
  induction s as [|a s IH]; simpl; [reflexivity|].
  unfold Ascii.compare. now rewrite N.compare_refl.
Qed.

Lemma string_compare_lt_trans (s t u : string) :
  String.compare s t = Lt -> String.compare t u = Lt -> String.compare s u = Lt.
Proof.
  revert t u. induction s as [|a s IH]; intros [|b t] [|c u]; simpl; try discriminate; auto.
  destruct (Ascii.compare a b) eqn:Eab; try discriminate;
  destruct (Ascii.compare b c) eqn:Ebc; try discriminate; intros H1 H2.
  - apply Ascii.compare_eq_iff in Eab, Ebc. subst.
    unfold Ascii.compare. rewrite N.compare_refl. eauto.
  - apply Ascii.compare_eq_iff in Eab. subst. now rewrite Ebc.
  - apply Ascii.compare_eq_iff in Ebc. subst. now rewrite Eab.
  - now rewrite (ascii_compare_lt_trans _ _ _ Eab Ebc).
Qed.

Lemma leb_trans (s t u : string) :
  String.leb s t = true -> String.leb t u = true -> String.leb s u = true.
Proof.
  unfold String.leb.
  destruct (String.compare s t) eqn:Est; try discriminate;
  destruct (String.compare t u) eqn:Etu; try discriminate; intros _ _.
  - apply String.compare_eq_iff in Est, Etu. subst. now rewrite string_compare_refl.
  - apply String.compare_eq_iff in Est. subst. now rewrite Etu.
  - apply String.compare_eq_iff in Etu. subst. now rewrite Est.
  - now rewrite (string_compare_lt_trans _ _ _ Est Etu).
Qed.

Section Sorting.

Context {A : Type}.

Lemma insert_by_name_perm (x : string * A) (l : list (string * A)) :
  Permutation (Py.insert_by_name x l) (x :: l).
Proof.
  induction l as [|y l IH]; simpl; [reflexivity|].
  destruct (String.leb (fst x) (fst y)); [reflexivity|].
  rewrite IH. apply perm_swap.
Qed.

Lemma sort_by_name_perm (l : list (string * A)) : Permutation (Py.sort_by_name l) l.
Proof.
  induction l as [|x l IH]; simpl; [reflexivity|].
  rewrite insert_by_name_perm. now constructor.
Qed.

Lemma insert_by_name_sorted (x : string * A) (l : list (string * A)) :
  StronglySorted name_le l -> StronglySorted name_le (Py.insert_by_name x l).
Proof.
  induction l as [|y l IH]; intros Hs; simpl.
  - repeat constructor.
  - inversion Hs as [|? ? Hs' Hall]; subst.
    destruct (String.leb (fst x) (fst y)) eqn:E.
    + constructor; [exact Hs|]. constructor; [exact E|].
      eapply Forall_impl; [exact Hall|]. intros z Hz. unfold name_le in *.
      eapply leb_trans; eassumption.
    + constructor; [auto|].
      assert (Hyx : name_le y x).
      { unfold name_le. destruct (String.leb_total (fst x) (fst y)); congruence. }
      eapply Permutation_Forall; [symmetry; apply insert_by_name_perm|].
      constructor; assumption.
Qed.

Lemma sort_by_name_sorted (l : list (string * A)) :
  StronglySorted name_le (Py.sort_by_name l).
Proof.
  induction l as [|x l IH]; simpl; [constructor | now apply insert_by_name_sorted].
Qed.

Lemma sort_by_name_In (x : string * A) (l : list (string * A)) :
  In x (Py.sort_by_name l) <-> In x l.
Proof.
  split; apply Permutation_in; [|symmetry]; apply sort_by_name_perm.
Qed.

End Sorting.

(** ** The categorisation loop *)

Lemma categorize_loop (e : string) (cols : list (yaml * yaml)) (b0 b : buckets) :
  for_each (categorize_step e) cols b0 = Ok b ->
  exists named,
    cols = named_columns named /\
    primary_keys b = primary_keys b0 ++ List.filter (in_category e PrimaryKey) named /\
    foreign_keys b = foreign_keys b0 ++ List.filter (in_category e ForeignKey) named /\
    regular_fields b = regular_fields b0 ++ List.filter (in_category e RegularField) named /\
    system_fields b = system_fields b0 ++ List.filter (in_category e SystemField) named.
Proof.
  revert b0. induction cols as [|[k info] cols IH]; intros b0 H; cbn [for_each] in H.
  - injection H as <-. exists []. cbn [List.filter]. rewrite !app_nil_r. auto.
  - bind_inv H. unfold categorize_step in Ha. bind_inv Ha.
    destruct k; try discriminate Ha0. injection Ha0 as ->.
    destruct (IH _ H) as (named & -> & Hpk & Hfk & Hrg & Hsy). clear IH H.
    exists ((a0, info) :: named). split; [reflexivity|].
    unfold in_category in *. cbn [List.filter fst snd]. unfold classify.
    cbn [existsb] in Ha. rewrite orb_false_r in Ha.
    destruct (PyStr.startswith a0 "_dlt_").
    { injection Ha as <-. auto. }
    destruct (String.eqb a0 "rowguid" || String.eqb a0 "modified_date").
    { injection Ha as <-.
      cbn [primary_keys foreign_keys regular_fields system_fields category_eqb] in *.
      rewrite <- app_assoc in Hsy. auto. }
    destruct (PyStr.endswith a0 "_id"); cbn [andb] in Ha.
    + destruct (PyStr.contains a0 e); injection Ha as <-;
        cbn [primary_keys foreign_keys regular_fields system_fields category_eqb] in *.
      * rewrite <- app_assoc in Hpk. auto.
      * rewrite <- app_assoc in Hfk. auto.
    + injection Ha as <-.
      cbn [primary_keys foreign_keys regular_fields system_fields category_eqb] in *.
      rewrite <- app_assoc in Hrg. auto.
Qed.

Lemma categorize_spec (e : string) (cols : list (yaml * yaml)) (b : buckets) :
  categorize e cols = Ok b ->
  exists named,
    cols = named_columns named /\
    primary_keys b = List.filter (in_category e PrimaryKey) named /\
    foreign_keys b = List.filter (in_category e ForeignKey) named /\
    regular_fields b = List.filter (in_category e RegularField) named /\
    system_fields b = List.filter (in_category e SystemField) named.
Proof. intros H. exact (categorize_loop _ _ _ _ H). Qed.

Lemma in_named_columns (name : string) (info : yaml) (named : list (string * yaml)) :
  In (YStr name, info) (named_columns named) <-> In (name, info) named.
Proof.
  unfold named_columns. rewrite in_map_iff. split.
  - intros [[n i] [Heq Hin]]. simpl in Heq. now injection Heq as -> ->.
  - intros Hin. now exists (name, info).
Qed.

Lemma listed_filter (e : string) (c : category) (name : string)
  (named : list (string * yaml)) :
  listed name (List.filter (in_category e c) named) ->
  classify e name = c.
Proof.
  unfold listed. rewrite in_map_iff. intros [[n i] [Heq Hin]]. simpl in Heq. subst n.
  apply filter_In in Hin as [_ Hc]. unfold in_category in Hc. simpl in Hc.
  destruct (classify e name), c; simpl in Hc; congruence.
Qed.

Lemma category_eqb_refl (c : category) : category_eqb c c = true.
Proof. now destruct c. Qed.

Lemma sorted_columns_listed (b : buckets) (name : string) :
  listed name (sorted_columns_of b) <->
  listed name (primary_keys b) \/ listed name (foreign_keys b) \/
  listed name (regular_fields b) \/ listed name (system_fields b).
Proof.
  unfold listed, sorted_columns_of. rewrite !map_app, !in_app_iff.
  assert (Hs : forall l : list (string * yaml),
             In name (map fst (Py.sort_by_name l)) <-> In name (map fst l)).
  { intros l. split; apply Permutation_in, Permutation_map;
      [|symmetry]; apply sort_by_name_perm. }
  now rewrite !Hs.
Qed.

(** ** The rendering loop *)

Lemma escape_quotes_escaped (desc : string) : escape_quotes desc = escaped desc.
Proof. unfold escape_quotes, escaped. apply replace_char. Qed.

(** What the test for a description and its retrieval amount to, when
    they do not raise. *)
Lemma description_cases {A : Type} (info : yaml) (with_desc : string -> A) (without : A)
  (r : A) :
  (has_description ← Py.str_in "description" info;
   if has_description : bool then
     d ← Py.getitem info "description";
     desc ← Py.str_method d;
     Ok (with_desc desc)
   else Ok without) = Ok r ->
  match description_of info with
  | Some desc => r = with_desc desc
  | None => r = without
  end.
Proof.
  intros H. bind_inv H. unfold description_of. destruct a.
  - bind_inv H. bind_inv H. injection H as <-. rewrite Ha0.
    destruct a; try discriminate Ha1. now injection Ha1 as ->.
  - injection H as <-.
    destruct info; cbn [Py.getitem]; try reflexivity.
    cbn [Py.str_in] in Ha. injection Ha as Ha.
    now rewrite (find_none_existsb _ _ Ha).
Qed.

Lemma with_commas_cons (x y : string) (rest : list string) :
  with_commas (x :: y :: rest) = (x +:+ ",") :: with_commas (y :: rest).
Proof. reflexivity. Qed.

Lemma field_loop (len : Z) (i : nat) (cols : list (string * yaml)) (fl0 fl : field_lists) :
  len = Z.of_nat (i + length cols) ->
  for_each (field_step len) (combine (map Z.of_nat (seq i (length cols))) cols) fl0 = Ok fl ->
  hash_fields fl = hash_fields fl0 ++ with_commas (map hash_line (map fst cols)) /\
  field_load_lines fl = field_load_lines fl0 ++ with_commas (map load_line (map fst cols)) /\
  field_comments fl = field_comments fl0 ++ comments_of cols.
Proof.
  revert i fl0. induction cols as [|[name info] cols IH]; intros i fl0 Hlen H.
  - cbn in H. injection H as <-. cbn. now rewrite !app_nil_r.
  - cbn [length seq map combine for_each] in H. bind_inv H.
    assert (Hlen' : len = Z.of_nat (S i + length cols)).
    { rewrite Hlen. cbn [length]. f_equal. lia. }
    destruct (IH _ _ Hlen' H) as (Hh & Hl & Hc). clear IH H.
    unfold field_step in Ha.
    apply description_cases in Ha.
    assert (Hlast : (Z.of_nat i <? len - 1)%Z = negb (Nat.eqb (length cols) 0)).
    { rewrite Hlen'. destruct cols; cbn [length Nat.eqb negb].
      - apply Z.ltb_ge. lia.
      - apply Z.ltb_lt. lia. }
    rewrite Hlast in Ha.
    unfold comments_of in *. cbn [flat_map map fst snd].
    destruct cols as [|c cols].
    + cbn [length Nat.eqb negb] in Ha.
      destruct (description_of info); subst a;
        cbn [hash_fields field_load_lines field_comments] in *;
        rewrite Hh, Hl, Hc; cbn; rewrite ?app_nil_r, ?escape_quotes_escaped; auto.
    + cbn [length Nat.eqb negb] in Ha. cbn [map] in *. rewrite !with_commas_cons.
      destruct (description_of info); subst a;
        cbn [hash_fields field_load_lines field_comments] in *;
        rewrite Hh, Hl, Hc, <- ?app_assoc, ?escape_quotes_escaped;
        unfold hash_line, load_line, comment_line;
        rewrite ?append_assoc; auto.
Qed.

Lemma field_lists_spec (cols : list (string * yaml)) (fl : field_lists) :
  field_lists_of cols = Ok fl ->
  hash_fields fl = with_commas (map hash_line (map fst cols)) /\
  field_load_lines fl = with_commas (map load_line (map fst cols)) /\
  field_comments fl = comments_of cols.
Proof.
  intros H.
  apply (field_loop (Z.of_nat (length cols)) 0 cols empty_field_lists fl);
    [reflexivity | exact H].
Qed.

(** ** Rendered lines determine their column *)

Lemma append_inv_tail (a b c : string) : a +:+ c = b +:+ c -> a = b.
Proof.
  intros H. apply (append_same_length a c b c); [|exact H].
  apply (f_equal String.length) in H. rewrite !append_length in H. lia.
Qed.

Lemma append_last_inj (a b : string) (x y : ascii) :
  a +:+ String x "" = b +:+ String y "" -> a = b /\ x = y.
Proof.
  revert b. induction a as [|c a IH]; intros [|d b] H; simpl in H.
  - injection H as ->. auto.
  - injection H as -> H. destruct b; discriminate H.
  - injection H as -> H. destruct a; discriminate H.
  - injection H as -> H. destruct (IH _ H) as [-> ->]. auto.
Qed.

Lemma in_with_commas (x : string) (l : list string) :
  In x (with_commas l) -> exists y, In y l /\ (x = y \/ x = y +:+ ",").
Proof.
  induction l as [|y l IH]; [intros []|].
  destruct l as [|z l].
  - intros [<-|[]]. exists y. split; [now left | now left].
  - rewrite with_commas_cons. intros [<-|Hin].
    + exists y. split; [now left | now right].
    + destruct (IH Hin) as [w [Hw Hx]]. exists w. split; [now right | exact Hx].
Qed.

Lemma hash_line_inj (a b : string) : hash_line a = hash_line b -> a = b.
Proof.
  unfold hash_line. intros H. apply append_inv_head in H. now apply append_inv_tail in H.
Qed.

Lemma hash_line_no_comma (a b : string) : hash_line a <> hash_line b +:+ ",".
Proof.
  unfold hash_line. intros H. rewrite !append_assoc in H. apply append_inv_head in H.
  change ("]" +:+ ",") with ("]" +:+ String "," "") in H.
  rewrite <- append_assoc in H. apply append_last_inj in H as [_ H]. discriminate H.
Qed.

Lemma load_line_length (a : string) :
  String.length (load_line a) = 2 * String.length a + 18.
Proof. unfold load_line. rewrite !append_length. cbn [String.length]. lia. Qed.

Lemma load_line_inj (a b : string) : load_line a = load_line b -> a = b.
Proof.
  intros H. assert (Hl := f_equal String.length H). rewrite !load_line_length in Hl.
  unfold load_line in H. apply append_inv_head in H.
  apply append_same_length in H as [H _]; [exact H | lia].
Qed.

Lemma load_line_no_comma (a b : string) : load_line a <> load_line b +:+ ",".
Proof.
  intros H. apply (f_equal String.length) in H.
  rewrite append_length, !load_line_length in H. cbn [String.length] in H. lia.
Qed.

Lemma in_comments_of (line : string) (cols : list (string * yaml)) :
  In line (comments_of cols) ->
  exists name desc, listed name cols /\ line = comment_line name desc.
Proof.
  unfold comments_of. rewrite in_flat_map. intros [[name info] [Hin Hl]].
  cbn [fst snd] in Hl. destruct (description_of info) as [d|]; [|destruct Hl].
  destruct Hl as [<-|[]]. exists name, (escaped d). split; [|reflexivity].
  unfold listed. rewrite in_map_iff. now exists (name, info).
Qed.

(** A comment line of a column whose name starts with [_dlt_] is not the
    comment line of a column whose name does not. *)
Lemma comment_line_dlt (a b da db : string) :
  PyStr.startswith a "_dlt_" = true ->
  PyStr.startswith b "_dlt_" = false ->
  comment_line a da <> comment_line b db.
Proof.
  intros Ha Hb H. apply startswith_spec in Ha as [r ->].
  unfold comment_line in H. apply append_inv_head in H.
  do 5 (destruct b as [|? b]; [discriminate H|]; simpl in H; injection H as <- H).
  discriminate Hb.
Qed.

(** ** Classification *)

Lemma classify_cases (e name : string) :
  classify e name =
    if PyStr.startswith name "_dlt_" then Excluded
    else if String.eqb name "rowguid" || String.eqb name "modified_date" then SystemField
    else if PyStr.endswith name "_id" && PyStr.contains name e then PrimaryKey
    else if PyStr.endswith name "_id" then ForeignKey
    else RegularField.
Proof.
  unfold classify.
  destruct (PyStr.startswith name "_dlt_"); [reflexivity|].
  destruct (String.eqb name "rowguid" || String.eqb name "modified_date"); [reflexivity|].
  destruct (PyStr.endswith name "_id"); reflexivity.
Qed.

Lemma in_filter_category (e : string) (c : category) (name : string) (info : yaml)
  (named : list (string * yaml)) :
  In (name, info) named -> classify e name = c ->
  In (name, info) (List.filter (in_category e c) named).
Proof.
  intros Hin Hc. apply filter_In. split; [exact Hin|].
  unfold in_category. cbn [fst]. rewrite Hc. apply category_eqb_refl.
Qed.

Lemma sorted_columns_not_excluded (e : string) (cols : list (yaml * yaml)) (b : buckets)
  (name : string) :
  categorize e cols = Ok b ->
  listed name (sorted_columns_of b) ->
  PyStr.startswith name "_dlt_" = false.
Proof.
  intros H Hl. destruct (categorize_spec _ _ _ H) as (named & _ & Hpk & Hfk & Hrg & Hsy).
  apply sorted_columns_listed in Hl. rewrite Hpk, Hfk, Hrg, Hsy in Hl.
  assert (Hc : classify e name <> Excluded).
  { destruct Hl as [Hl|[Hl|[Hl|Hl]]]; apply listed_filter in Hl; congruence. }
  unfold classify in Hc. destruct (PyStr.startswith name "_dlt_"); congruence.
Qed.

Lemma excluded_not_rendered (e : string) (cols : list (yaml * yaml)) (b : buckets)
  (name : string) (fl : field_lists) :
  categorize e cols = Ok b ->
  PyStr.startswith name "_dlt_" = true ->
  field_lists_of (sorted_columns_of b) = Ok fl ->
  not_rendered name fl.
Proof.
  intros H Hd Hfl. destruct (field_lists_spec _ _ Hfl) as (Hh & Hl & Hc).
  assert (Hno : forall n, listed n (sorted_columns_of b) -> n <> name).
  { intros n Hn ->. rewrite (sorted_columns_not_excluded _ _ _ _ H Hn) in Hd.
    discriminate Hd. }
  unfold not_rendered. rewrite Hh, Hl, Hc. repeat split.
  - intros Hin. apply in_with_commas in Hin as [y [Hy Hx]].
    apply in_map_iff in Hy as [n [<- Hn]].
    destruct Hx as [Hx|Hx]; [|now apply hash_line_no_comma in Hx].
    apply hash_line_inj in Hx. now apply (Hno n).
  - intros Hin. apply in_with_commas in Hin as [y [Hy Hx]].
    apply in_map_iff in Hy as [n [<- Hn]].
    destruct Hx as [Hx|Hx]; [symmetry in Hx; now apply hash_line_no_comma in Hx|].
    apply append_inv_tail, hash_line_inj in Hx. now apply (Hno n).
  - intros Hin. apply in_with_commas in Hin as [y [Hy Hx]].
    apply in_map_iff in Hy as [n [<- Hn]].
    destruct Hx as [Hx|Hx]; [|now apply load_line_no_comma in Hx].
    apply load_line_inj in Hx. now apply (Hno n).
  - intros Hin. apply in_with_commas in Hin as [y [Hy Hx]].
    apply in_map_iff in Hy as [n [<- Hn]].
    destruct Hx as [Hx|Hx]; [symmetry in Hx; now apply load_line_no_comma in Hx|].
    apply append_inv_tail, load_line_inj in Hx. now apply (Hno n).
  - intros desc Hin. apply in_comments_of in Hin as (n & dn & Hn & Hx).
    revert Hx. apply comment_line_dlt; [exact Hd|].
    exact (sorted_columns_not_excluded _ _ _ _ H Hn).
Qed.

(** C1: every column of a table falls under exactly one case, in this
    precedence: a name starting with [_dlt_] is in no list and in no
    rendered line (hash fields, projection, comments); otherwise [rowguid]
    and [modified_date] are system fields; otherwise a name ending in
    [_id] that contains the entity name is a primary key; otherwise a name
    ending in [_id] is a foreign key; every other column is a regular
    field. *)
Theorem classification_precedence (entity_name : string) (columns : list (yaml * yaml))
  (b : buckets) (column_name : string) (column_info : yaml)
  (H : categorize entity_name columns = Ok b)
  (Hin : In (YStr column_name, column_info) columns) :
  classified_by_precedence entity_name b column_name column_info.
Proof.
  destruct (categorize_spec _ _ _ H) as (named & -> & Hpk & Hfk & Hrg & Hsy).
  apply in_named_columns in Hin.
  assert (Hcl := classify_cases entity_name column_name).
  assert (Hother : forall c, listed column_name (List.filter (in_category entity_name c) named) ->
                             classify entity_name column_name = c).
  { intros c. apply listed_filter. }
  assert (Hown : forall c, classify entity_name column_name = c ->
                           In (column_name, column_info)
                              (List.filter (in_category entity_name c) named)).
  { intros c. now apply in_filter_category. }
  unfold classified_by_precedence, only_in.
  destruct (PyStr.startswith column_name "_dlt_") eqn:Hd.
  { assert (Hno : forall c, c <> Excluded ->
                    ~ listed column_name (List.filter (in_category entity_name c) named)).
    { intros c Hc Hl. apply Hother in Hl. congruence. }
    rewrite Hpk, Hfk, Hrg, Hsy.
    do 4 (split; [apply Hno; discriminate|]). split.
    - rewrite sorted_columns_listed, Hpk, Hfk, Hrg, Hsy.
      intros [Hl|[Hl|[Hl|Hl]]]; revert Hl; apply Hno; discriminate.
    - intros fl Hfl. now apply (excluded_not_rendered entity_name (named_columns named) b). }
  rewrite Hpk, Hfk, Hrg, Hsy.
  destruct (String.eqb column_name "rowguid" || String.eqb column_name "modified_date").
  { split; [now apply Hown|].
    repeat constructor; intros Hl; apply Hother in Hl; congruence. }
  destruct (PyStr.endswith column_name "_id" && PyStr.contains column_name entity_name).
  { split; [now apply Hown|].
    repeat constructor; intros Hl; apply Hother in Hl; congruence. }
  destruct (PyStr.endswith column_name "_id").
  { split; [now apply Hown|].
    repeat constructor; intros Hl; apply Hother in Hl; congruence. }
  split; [now apply Hown|].
  repeat constructor; intros Hl; apply Hother in Hl; congruence.
Qed.

Lemma sample_buckets_ok : categorize "order" sample_columns = Ok sample_buckets.
Proof. vm_compute. reflexivity. Qed.

Lemma classification_precedence_witness :
  classified_by_precedence "order" sample_buckets "_dlt_load_id" YNull /\
  classified_by_precedence "order" sample_buckets "order_id"
    (YMap [(YStr "description", YStr "Primary key")]) /\
  classified_by_precedence "order" sample_buckets "customer_id" (YMap []).
Proof.
  split; [|split];
    apply (classification_precedence "order" sample_columns);
    solve [exact sample_buckets_ok | vm_compute; tauto].
Defined.

(** ** The sorted column list *)

Lemma find_some_true {A : Type} (f : A -> bool) (l : list A) (x : A) :
  find f l = Some x -> existsb f l = true.
Proof.
  induction l as [|y l IH]; cbn [find existsb]; [discriminate|].
  destruct (f y); [reflexivity | exact IH].
Qed.

Lemma getitem_str_in (info : yaml) (key : string) (v : yaml) :
  Py.getitem info key = Ok v -> Py.str_in key info = Ok true.
Proof.
  destruct info; try discriminate. cbn [Py.getitem Py.str_in].
  destruct (find _ entries) eqn:E; [|discriminate]. intros _.
  now rewrite (find_some_true _ _ _ E).
Qed.

Lemma table_fields_columns (e : string) (table_info : yaml) (cols : list (yaml * yaml))
  (fl : field_lists) :
  Py.getitem table_info "columns" = Ok (YMap cols) ->
  table_fields e table_info = Ok fl ->
  exists b, categorize e cols = Ok b /\ field_lists_of (sorted_columns_of b) = Ok fl.
Proof.
  intros Hg H. unfold table_fields in H.
  rewrite (getitem_str_in _ _ _ Hg), Hg in H. cbn in H.
  bind_inv H. now exists a.
Qed.

Lemma sorted_names {A : Type} (l : list (string * A)) :
  StronglySorted name_le l -> names_sorted (map fst l).
Proof.
  unfold names_sorted. induction 1 as [|x l Hs IH Hall]; cbn [map]; constructor.
  - exact IH.
  - apply Forall_map. exact Hall.
Qed.

Lemma sort_by_name_bucket (e : string) (c : category) (named : list (string * yaml)) :
  sorted_bucket e c named
    (map fst (Py.sort_by_name (List.filter (in_category e c) named))).
Proof.
  split.
  - apply sorted_names, sort_by_name_sorted.
  - apply Permutation_map, sort_by_name_perm.
Qed.

(** C2: for a table with columns, the hash field list and the field
    projection list render one and the same sequence of columns: the
    primary keys, then the foreign keys, then the regular fields, then the
    system fields, each group sorted by name on its own. *)
Theorem one_sorted_sequence (entity_name : string) (table_info : yaml)
  (columns : list (yaml * yaml)) (fl : field_lists)
  (Hcols : Py.getitem table_info "columns" = Ok (YMap columns))
  (H : table_fields entity_name table_info = Ok fl) :
  exists named pk fk rg sy,
    columns = named_columns named /\
    hash_fields fl = with_commas (map hash_line (pk ++ fk ++ rg ++ sy)) /\
    field_load_lines fl = with_commas (map load_line (pk ++ fk ++ rg ++ sy)) /\
    sorted_bucket entity_name PrimaryKey named pk /\
    sorted_bucket entity_name ForeignKey named fk /\
    sorted_bucket entity_name RegularField named rg /\
    sorted_bucket entity_name SystemField named sy.
Proof.
  destruct (table_fields_columns _ _ _ _ Hcols H) as (b & Hb & Hfl).
  destruct (categorize_spec _ _ _ Hb) as (named & -> & Hpk & Hfk & Hrg & Hsy).
  destruct (field_lists_spec _ _ Hfl) as (Hh & Hl & _).
  unfold sorted_columns_of in Hh, Hl. rewrite Hpk, Hfk, Hrg, Hsy in Hh, Hl.
  exists named,
    (map fst (Py.sort_by_name (List.filter (in_category entity_name PrimaryKey) named))),
    (map fst (Py.sort_by_name (List.filter (in_category entity_name ForeignKey) named))),
    (map fst (Py.sort_by_name (List.filter (in_category entity_name RegularField) named))),
    (map fst (Py.sort_by_name (List.filter (in_category entity_name SystemField) named))).
  split; [reflexivity|].
  split; [now rewrite Hh, !map_app|]. split; [now rewrite Hl, !map_app|].
  repeat split; apply sort_by_name_bucket.
Qed.

Lemma sample_fields_ok : table_fields "order" sample_table = Ok sample_fields.
Proof. vm_compute. reflexivity. Qed.

Lemma one_sorted_sequence_witness :
  exists named pk fk rg sy,
    sample_columns = named_columns named /\
    hash_fields sample_fields = with_commas (map hash_line (pk ++ fk ++ rg ++ sy)) /\
    field_load_lines sample_fields = with_commas (map load_line (pk ++ fk ++ rg ++ sy)) /\
    sorted_bucket "order" PrimaryKey named pk /\
    sorted_bucket "order" ForeignKey named fk /\
    sorted_bucket "order" RegularField named rg /\
    sorted_bucket "order" SystemField named sy.
Proof.
  apply (one_sorted_sequence "order" sample_table sample_columns sample_fields).
  - reflexivity.
  - exact sample_fields_ok.
Defined.

(** The example of the specification: the sort is within each group, the
    whole sequence is not in name order. *)
Example sample_hash_fields :
  hash_fields sample_fields =
    [ "    [order_id],"; "    [customer_id],"; "    [note],";
      "    [modified_date],"; "    [rowguid]" ].
Proof. reflexivity. Qed.

(** ** Escaping of quotes in comments *)

Lemma concat_empty_cons (x : string) (xs : list string) :
  String.concat "" (x :: xs) = x +:+ String.concat "" xs.
Proof.
  destruct xs as [|y xs]; cbn [String.concat].
  - now rewrite append_empty_r.
  - reflexivity.
Qed.

Lemma escaped_cons (c : ascii) (s : string) :
  escaped (String c s) =
  (if Ascii.eqb "'" c then "$(=Chr39())" else String c "") +:+ escaped s.
Proof. unfold escaped. cbn [list_ascii_of_string map]. apply concat_empty_cons. Qed.

Lemma contains_char_append (a b : string) (c : ascii) :
  PyStr.contains (a +:+ b) (String c "") =
  PyStr.contains a (String c "") || PyStr.contains b (String c "").
Proof.
  induction a as [|x a IH].
  - cbn [String.append PyStr.contains PyStr.startswith]. now rewrite orb_false_l.
  - cbn [String.append]. cbn [PyStr.contains PyStr.startswith]. rewrite IH.
    now rewrite orb_assoc.
Qed.

Lemma escaped_no_quote (desc : string) : PyStr.contains (escaped desc) "'" = false.
Proof.
  induction desc as [|c s IH]; [reflexivity|].
  rewrite escaped_cons, contains_char_append, IH, orb_false_r.
  destruct (Ascii.eqb "'" c) eqn:E; [reflexivity|].
  cbn [PyStr.contains PyStr.startswith]. now rewrite E.
Qed.

Lemma endswith_append (a p : string) : PyStr.endswith (a +:+ p) p = true.
Proof. apply endswith_spec. now exists a. Qed.

Lemma sorted_columns_complete (e : string) (named : list (string * yaml)) (b : buckets)
  (name : string) (info : yaml) :
  categorize e (named_columns named) = Ok b ->
  In (name, info) named ->
  PyStr.startswith name "_dlt_" = false ->
  In (name, info) (sorted_columns_of b).
Proof.
  intros H Hin Hd.
  destruct (categorize_spec _ _ _ H) as (named' & Heq & Hpk & Hfk & Hrg & Hsy).
  assert (named' = named) as ->.
  { clear -Heq. revert named' Heq.
    induction named as [|[n i] named IH]; intros [|[n' i'] named'] Heq;
      try discriminate; [reflexivity|].
    cbn in Heq. injection Heq as -> -> Heq. f_equal. now apply IH. }
  unfold sorted_columns_of. rewrite !in_app_iff, !sort_by_name_In, Hpk, Hfk, Hrg, Hsy.
  assert (Hown := fun c => in_filter_category e c name info named Hin).
  destruct (classify e name) eqn:Hc; auto.
  unfold classify in Hc. rewrite Hd in Hc.
  destruct (_ || _); [discriminate|].
  destruct (PyStr.endswith name "_id"); [|discriminate].
  destruct (PyStr.contains name e); discriminate.
Qed.

Lemma in_field_comment_lines (comment : string) (comments : list string) :
  In comment comments -> In ("    " +:+ comment) (field_comment_lines comments).
Proof.
  intros Hin. destruct comments as [|c cs]; [destruct Hin|].
  unfold field_comment_lines. apply in_app_iff. right. apply in_app_iff. left.
  apply in_map_iff. now exists comment.
Qed.

(** C5: the comment of a table with a description, and the comment of
    every kept column with a description, stand in the block with each
    single quote of the description replaced by [$(=Chr39())]; the escaped
    text holds no single quote and the statement ends with [;]. *)
Theorem comments_escape_quotes (table_key table_info : yaml) (block : list string)
  (H : table_block table_key table_info = Ok block) :
  exists table_name,
    table_key = YStr table_name /\
    (forall desc,
        description_of table_info = Some desc ->
        In (table_comment_statement table_name desc) block /\
        PyStr.endswith (table_comment_statement table_name desc) ";" = true) /\
    (forall columns column_name column_info desc,
        Py.getitem table_info "columns" = Ok (YMap columns) ->
        In (YStr column_name, column_info) columns ->
        PyStr.startswith column_name "_dlt_" = false ->
        description_of column_info = Some desc ->
        In (field_comment_statement column_name desc) block /\
        PyStr.endswith (field_comment_statement column_name desc) ";" = true) /\
    (forall desc, PyStr.contains (escaped desc) "'" = false) /\
    escaped "it's" = "it$(=Chr39())s".
Proof.
  destruct (table_block_parts _ _ _ H) as (table_name & fl & tc & -> & Hfl & Htc & ->).
  exists table_name. split; [reflexivity|]. split; [|split; [|split]].
  - intros desc Hdesc. split.
    + unfold table_comment_lines in Htc. apply description_cases in Htc.
      rewrite Hdesc in Htc. subst tc.
      rewrite !in_app_iff. do 6 right. left. right. left.
      now rewrite escape_quotes_escaped.
    + unfold table_comment_statement.
      change "';" with ("'" +:+ ";"). rewrite <- !append_assoc. apply endswith_append.
  - intros columns column_name column_info desc Hcols Hin Hd Hdesc. split.
    + destruct (table_fields_columns _ _ _ _ Hcols Hfl) as (b & Hb & Hfl').
      destruct (categorize_spec _ _ _ Hb) as (named & -> & _).
      apply in_named_columns in Hin.
      assert (Hs := sorted_columns_complete _ _ _ _ _ Hb Hin Hd).
      destruct (field_lists_spec _ _ Hfl') as (_ & _ & Hc).
      rewrite !in_app_iff. do 7 right. left.
      change (field_comment_statement column_name desc)
        with ("    " +:+ comment_line column_name (escaped desc)).
      apply in_field_comment_lines. rewrite Hc. unfold comments_of.
      apply in_flat_map. exists (column_name, column_info). split; [exact Hs|].
      cbn [fst snd]. rewrite Hdesc. now left.
    + unfold field_comment_statement.
      change "';" with ("'" +:+ ";"). rewrite <- !append_assoc. apply endswith_append.
  - exact escaped_no_quote.
  - reflexivity.
Qed.

Lemma comments_escape_quotes_witness :
  In "    Comment Table [sales__order] With 'Order header data';" sample_block /\
  In "    Comment Field [note] With 'it$(=Chr39())s';" sample_block.
Proof.
  destruct (comments_escape_quotes (YStr "sales__order") sample_table sample_block
              sample_block_ok) as (table_name & Heq & Htable & Hfield & _).
  injection Heq as <-. split.
  - apply (Htable "Order header data"). reflexivity.
  - apply (Hfield sample_columns "note" (YMap [(YStr "description", YStr "it's")]) "it's").
    + reflexivity.
    + cbn. tauto.
    + reflexivity.
    + reflexivity.
Defined.

(** ** Table names that end with the separator *)

Lemma last_cons_nonempty {A : Type} (x : A) (l : list A) (d : A) :
  l <> [] -> List.last (x :: l) d = List.last l d.
Proof. destruct l; [congruence | reflexivity]. Qed.

(** After a name that ends with [__], the last piece of the split is empty
    or one underscore; with no separator pending, a separator was found. *)
Lemma split_trailing_separator (s : string) (skip : nat) :
  skip <= 1 ->
  PyStr.endswith s "__" = true ->
  (List.last (PyStr.split_from "__" skip s) "" = "" \/
   List.last (PyStr.split_from "__" skip s) "" = "_") /\
  (skip = 0 -> 2 <= length (PyStr.split_from "__" skip s)).
Proof.
  revert skip. induction s as [|c s IH]; intros skip Hskip He.
  - discriminate He.
  - cbn [PyStr.endswith] in He. apply orb_true_iff in He.
    destruct skip as [|[|k]]; [| |lia].
    + (* no separator pending *)
      cbn [PyStr.split_from].
      destruct (PyStr.startswith (String c s) "__") eqn:Hsw.
      * cbn [String.length Nat.sub]. split; [|intros _; cbn [length];
          pose proof (split_from_nonempty "__" 1 s);
          destruct (PyStr.split_from "__" 1 s); [congruence | cbn [length]; lia]].
        rewrite last_cons_nonempty by apply split_from_nonempty.
        destruct He as [He|He].
        -- apply String.eqb_eq in He. injection He as -> ->. now left.
        -- apply (IH 1); [lia | exact He].
      * destruct He as [He|He].
        { apply String.eqb_eq in He. rewrite He in Hsw. discriminate Hsw. }
        destruct (IH 0 ltac:(lia) He) as [Hlast Hlen]. specialize (Hlen eq_refl).
        destruct (PyStr.split_from "__" 0 s) as [|p [|q ps]]; cbn [length] in Hlen;
          [lia | lia |].
        split; [exact Hlast | intros _; cbn [length]; lia].
    + (* the second character of a separator *)
      cbn [PyStr.split_from]. split; [|discriminate].
      destruct He as [He|He].
      * apply String.eqb_eq in He. injection He as -> ->. now right.
      * apply (IH 0); [lia | exact He].
Qed.

Lemma entity_name_trailing_separator (table_name : string) :
  PyStr.endswith table_name "__" = true ->
  entity_name_of table_name = "" \/ entity_name_of table_name = "_".
Proof.
  intros He. unfold entity_name_of, PyStr.split.
  apply (split_trailing_separator table_name 0); [lia | exact He].
Qed.

Lemma id_contains_underscore (name : string) :
  PyStr.endswith name "_id" = true -> PyStr.contains name "_" = true.
Proof.
  induction name as [|c s IH]; cbn [PyStr.endswith PyStr.contains]; intros H.
  - discriminate H.
  - apply orb_true_iff in H as [H|H].
    + apply String.eqb_eq in H. injection H as -> ->. reflexivity.
    + rewrite (IH H). apply orb_true_r.
Qed.

(** C10, as the code has it: for a table whose name ends with [__] the
    entity name is empty or the single character [_]; either is part of
    every name that ends with [_id], so every such column that is kept is
    a primary key and the table has no foreign keys. *)
Theorem trailing_separator_no_foreign_keys (table_name : string)
  (columns : list (yaml * yaml)) (b : buckets)
  (Hend : PyStr.endswith table_name "__" = true)
  (H : categorize (entity_name_of table_name) columns = Ok b) :
  (entity_name_of table_name = "" \/ entity_name_of table_name = "_") /\
  foreign_keys b = [] /\
  forall column_name column_info,
    In (YStr column_name, column_info) columns ->
    PyStr.endswith column_name "_id" = true ->
    PyStr.startswith column_name "_dlt_" = false ->
    In (column_name, column_info) (primary_keys b).
Proof.
  pose proof (entity_name_trailing_separator _ Hend) as He.
  assert (Hsub : forall name, PyStr.endswith name "_id" = true ->
                              PyStr.contains name (entity_name_of table_name) = true).
  { intros name Hid. destruct He as [-> | ->];
      [apply contains_empty | now apply id_contains_underscore]. }
  split; [exact He|].
  destruct (categorize_spec _ _ _ H) as (named & -> & Hpk & Hfk & _).
  split.
  - rewrite Hfk. clear -Hsub. induction named as [|[n i] named IH]; [reflexivity|].
    cbn [List.filter]. unfold in_category at 1. cbn [fst]. unfold classify.
    destruct (PyStr.startswith n "_dlt_"); [exact IH|].
    destruct (_ || _); [exact IH|].
    destruct (PyStr.endswith n "_id") eqn:Hid; [|exact IH].
    rewrite (Hsub _ Hid). exact IH.
  - intros name info Hin Hid Hd. apply in_named_columns in Hin.
    rewrite Hpk. apply in_filter_category; [exact Hin|].
    unfold classify. rewrite Hd, Hid, (Hsub _ Hid).
    destruct (String.eqb name "rowguid") eqn:E1.
    { apply String.eqb_eq in E1. subst name. discriminate Hid. }
    destruct (String.eqb name "modified_date") eqn:E2.
    { apply String.eqb_eq in E2. subst name. discriminate Hid. }
    reflexivity.
Qed.

Lemma trailing_separator_witness :
  (entity_name_of "staging___" = "" \/ entity_name_of "staging___" = "_") /\
  foreign_keys sample_buckets_trailing = [] /\
  forall column_name column_info,
    In (YStr column_name, column_info) sample_columns ->
    PyStr.endswith column_name "_id" = true ->
    PyStr.startswith column_name "_dlt_" = false ->
    In (column_name, column_info) (primary_keys sample_buckets_trailing).
Proof.
  apply (trailing_separator_no_foreign_keys "staging___" sample_columns).
  - reflexivity.
  - vm_compute. reflexivity.
Defined.

(** C10 as stated fails: a name can end with [__] and have a non-empty
    entity name. *)
Lemma trailing_separator_entity_not_empty :
  PyStr.endswith "staging___" "__" = true /\
  entity_name_of "staging___" = "_" /\
  String.eqb (entity_name_of "staging___") "" = false.
Proof. repeat split. Qed.

(** ** Well-formed documents are always rendered *)

Lemma for_each_total {A S : Type} (body : S -> A -> result S) (P : A -> Prop)
  (l : list A) :
  (forall s x, P x -> exists s', body s x = Ok s') ->
  Forall P l ->
  forall s, exists s', for_each body l s = Ok s'.
Proof.
  intros Hbody HP. induction HP as [|x l Hx HP IH]; intros s; cbn [for_each].
  - now exists s.
  - destruct (Hbody s x Hx) as [s1 ->]. apply IH.
Qed.

Lemma wf_description_total {A : Type} (info : yaml) (with_desc : string -> A) (without : A) :
  wf_description info = true ->
  exists r,
    (has_description ← Py.str_in "description" info;
     if has_description : bool then
       d ← Py.getitem info "description";
       desc ← Py.str_method d;
       Ok (with_desc desc)
     else Ok without) = Ok r.
Proof.
  unfold wf_description. destruct info; try discriminate.
  cbn [Py.str_in Py.getitem].
  destruct (find _ entries) as [[k v]|] eqn:E.
  - destruct v; try discriminate. intros _.
    rewrite (find_some_true _ _ _ E).
    cbn [snd Py.str_method mbind result_bind]. eauto.
  - intros _.
    destruct (existsb _ entries) eqn:Ex.
    + apply find_some_existsb in Ex as [x Hx]. congruence.
    + cbn [mbind result_bind]. eauto.
Qed.

Lemma categorize_total (e : string) (cols : list (yaml * yaml)) :
  forallb wf_column cols = true -> exists b, categorize e cols = Ok b.
Proof.
  intros H. apply (for_each_total _ (fun col => wf_column col = true)).
  - intros b [k info] Hk. unfold wf_column in Hk. cbn [fst snd] in Hk.
    destruct k; try discriminate Hk. unfold categorize_step. cbn [Py.str_method].
    cbn [mbind result_bind].
    destruct (PyStr.startswith s "_dlt_"); [eauto|].
    destruct (existsb _ _); [eauto|].
    destruct (_ && _); [eauto|].
    destruct (PyStr.endswith s "_id"); eauto.
  - apply List.Forall_forall. intros x Hx. rewrite forallb_forall in H. auto.
Qed.

Lemma sorted_columns_sound (e : string) (named : list (string * yaml)) (b : buckets)
  (name : string) (info : yaml) :
  categorize e (named_columns named) = Ok b ->
  In (name, info) (sorted_columns_of b) ->
  In (YStr name, info) (named_columns named) /\ PyStr.startswith name "_dlt_" = false.
Proof.
  intros H Hin. split.
  - destruct (categorize_spec _ _ _ H) as (named' & -> & Hpk & Hfk & Hrg & Hsy).
    apply in_named_columns.
    unfold sorted_columns_of in Hin.
    rewrite !in_app_iff, !sort_by_name_In, Hpk, Hfk, Hrg, Hsy in Hin.
    destruct Hin as [Hin|[Hin|[Hin|Hin]]]; now apply filter_In in Hin.
  - apply (sorted_columns_not_excluded e (named_columns named) b); [exact H|].
    unfold listed. apply in_map_iff. now exists (name, info).
Qed.

Lemma field_lists_total (cols : list (string * yaml)) :
  Forall (fun col => wf_description (snd col) = true) cols ->
  exists fl, field_lists_of cols = Ok fl.
Proof.
  intros H. unfold field_lists_of, Py.enumerate.
  apply (for_each_total _ (fun item : Z * (string * yaml) =>
                             wf_description (snd (snd item)) = true)).
  - intros fl [i [name info]] Hwf. cbn [snd] in Hwf. unfold field_step.
    now apply wf_description_total.
  - apply List.Forall_forall. intros [i col] Hin. apply in_combine_r in Hin.
    rewrite List.Forall_forall in H. cbn [snd]. now apply H.
Qed.

Lemma table_block_total (item : yaml * yaml) :
  wf_table item = true -> exists block, block_of item block.
Proof.
  destruct item as [k info]. unfold wf_table, block_of. cbn [fst snd].
  destruct k; try discriminate. intros H. apply andb_true_iff in H as [Hd Hc].
  unfold table_block. cbn [Py.str_method mbind result_bind].
  assert (Hf : exists fl, table_fields (entity_name_of s) info = Ok fl).
  { unfold table_fields. destruct info; try discriminate Hd.
    cbn [Py.getitem] in Hc. cbn [Py.str_in Py.getitem mbind result_bind].
    destruct (find _ entries) as [[k v]|] eqn:E.
    - rewrite (find_some_true _ _ _ E). cbn [snd] in *. destruct v; try discriminate Hc.
      cbn [Py.items mbind result_bind].
      destruct (categorize_total (entity_name_of s) _ Hc) as [b Hb]. rewrite Hb.
      destruct (categorize_spec _ _ _ Hb) as (named & -> & _).
      apply field_lists_total. apply List.Forall_forall. intros [name i] Hin. cbn [snd].
      destruct (sorted_columns_sound _ _ _ _ _ Hb Hin) as [Hin' Hnd].
      rewrite forallb_forall in Hc. specialize (Hc _ Hin').
      unfold wf_column in Hc. cbn [fst snd] in Hc. rewrite Hnd in Hc. exact Hc.
    - destruct (existsb _ entries) eqn:Ex.
      + apply find_some_existsb in Ex as [x Hx]. congruence.
      + eauto. }
  destruct Hf as [fl ->].
  destruct (wf_description_total info
              (fun desc => [ "    Trace Commenting table...;";
                             "    Comment Table [" +:+ s +:+ "] With '" +:+
                               escape_quotes desc +:+ "';";
                             "" ]) [] Hd) as [tc Htc].
  unfold table_comment_lines. rewrite Htc. eauto.
Qed.

Lemma build_output_total (schema_data : yaml) :
  well_formed schema_data = true -> exists out, build_output schema_data = Ok out.
Proof.
  unfold well_formed, build_output. destruct schema_data; try discriminate.
  cbn [Py.str_in Py.getitem mbind result_bind].
  destruct (find _ entries) as [[k v]|] eqn:E.
  - rewrite (find_some_true _ _ _ E). cbn [snd]. destruct v; try discriminate.
    intros H. cbn [Py.items mbind result_bind].
    apply (for_each_total _ (fun item => wf_table item = true)).
    + intros out item Hwf. destruct (table_block_total _ Hwf) as [block Hb].
      unfold block_of in Hb. rewrite Hb. cbn [mbind result_bind]. eauto.
    + apply List.Forall_forall. intros x Hx. rewrite forallb_forall in H. auto.
  - intros _. destruct (existsb _ entries) eqn:Ex.
    + apply find_some_existsb in Ex as [x Hx]. congruence.
    + eauto.
Qed.

(** ** The header *)

Lemma render_header (rest : list string) :
  exists tail, render (header_lines ++ rest) = header_text +:+ tail.
Proof.
  destruct rest as [|r rs].
  - exists "". reflexivity.
  - exists (newline +:+ PyStr.join newline (r :: rs)). reflexivity.
Qed.

(** C3, as the code has it: an output that is produced starts with the
    fixed header block, whatever the document; when the test for the
    [tables] key answers no, the output is produced and is the header
    alone; an output is produced for every document that follows the data
    model; and a document whose root is neither a mapping, a sequence nor
    a string, as the empty document is, has no output: the test for the
    key raises a type error. *)
Theorem header_starts_every_output (schema_data : yaml) :
  (forall out,
      build_output schema_data = Ok out ->
      firstn 6 out = header_block /\
      exists tail, render out = header_text +:+ tail) /\
  (Py.str_in "tables" schema_data = Ok false ->
   build_output schema_data = Ok header_block /\
   render header_block = header_text) /\
  (well_formed schema_data = true ->
   exists out, build_output schema_data = Ok out) /\
  (membership_tested schema_data = false ->
   build_output schema_data = Raise TypeError).
Proof.
  split; [|split; [|split]].
  - intros out H. destruct (build_output_blocks _ _ H) as (blocks & _ & ->). split.
    + reflexivity.
    + apply render_header.
  - intros H. unfold build_output. rewrite H. split; reflexivity.
  - apply build_output_total.
  - destruct schema_data; try discriminate; reflexivity.
Qed.

Lemma header_starts_every_output_witness :
  (firstn 6 sample_output = header_block /\
   exists tail, render sample_output = header_text +:+ tail) /\
  (build_output (YMap [(YStr "version", YInt 1)]) = Ok header_block /\
   render header_block = header_text) /\
  build_output (YInt 7) = Raise TypeError.
Proof.
  split; [|split].
  - apply (header_starts_every_output sample_schema), sample_output_ok.
  - apply (header_starts_every_output (YMap [(YStr "version", YInt 1)])). reflexivity.
  - apply (header_starts_every_output (YInt 7)). reflexivity.
Defined.

(** C3 as stated fails: the empty document has no [tables] key, and no
    output begins with the header, for there is no output. The run on an
    empty schema file ends with a type error and writes no file. *)
Lemma empty_document_has_no_output :
  empty_file_parser "" = Ok YNull /\
  tables_of YNull = [] /\
  build_output YNull = Raise TypeError /\
  generate_das_qvs empty_file_parser every_text sample_script_path sample_schema_path
    empty_file_world = (empty_file_world, Raise TypeError) /\
  files empty_file_world !! sample_output_path = None.
Proof.
  split; [reflexivity|]. split; [reflexivity|]. split; [reflexivity|].
  split; vm_compute; reflexivity.
Qed.

(** ** Runs of the entry point *)

Section Runs.

Variable parse : string -> result yaml.
Variable encodable : string -> bool.

Lemma load_and_build_content (w : world) (schema_path : path) (content : string) :
  files w !! schema_path = Some content ->
  load_and_build parse w schema_path = (parse content ≫= build_output).
Proof.
  intros H. unfold load_and_build, read_text. now rewrite H.
Qed.

Lemma generate_ok (script_path schema_path : path) (w w' : world) :
  generate_das_qvs parse encodable script_path schema_path w = (w', Ok tt) ->
  exists output,
    load_and_build parse w schema_path = Ok output /\
    files w' = <[script_path ++ ["data_according_to_system.qvs"] := render output]> (files w) /\
    dirs w' = dirs w.
Proof.
  unfold generate_das_qvs.
  destruct (load_and_build parse w schema_path) as [output|e]; [|discriminate].
  unfold open_for_writing, write_text. repeat case_decide; try discriminate.
  destruct (encodable (render output)); [|discriminate].
  intros Hrun. injection Hrun as <-. exists output. cbn [print files dirs].
  split; [reflexivity|]. split; [apply insert_insert_eq|reflexivity].
Qed.

(** C4: two runs on the same schema text, in whatever worlds, build the
    same lines or fail alike; when both runs succeed the output file
    holds the same text after each. *)
Theorem runs_are_deterministic (script_path schema_path : path) (content : string)
  (w1 w2 w1' w2' : world)
  (H1 : files w1 !! schema_path = Some content)
  (H2 : files w2 !! schema_path = Some content)
  (Hrun1 : generate_das_qvs parse encodable script_path schema_path w1 = (w1', Ok tt))
  (Hrun2 : generate_das_qvs parse encodable script_path schema_path w2 = (w2', Ok tt)) :
  load_and_build parse w1 schema_path = load_and_build parse w2 schema_path /\
  exists text,
    files w1' !! (script_path ++ ["data_according_to_system.qvs"]) = Some text /\
    files w2' !! (script_path ++ ["data_according_to_system.qvs"]) = Some text.
Proof.
  assert (Heq : load_and_build parse w1 schema_path = load_and_build parse w2 schema_path).
  { now rewrite (load_and_build_content _ _ _ H1), (load_and_build_content _ _ _ H2). }
  split; [exact Heq|].
  destruct (generate_ok _ _ _ _ Hrun1) as (out1 & Ho1 & Hf1 & _).
  destruct (generate_ok _ _ _ _ Hrun2) as (out2 & Ho2 & Hf2 & _).
  rewrite Ho1, Ho2 in Heq. injection Heq as <-.
  exists (render out1). rewrite Hf1, Hf2. split; apply lookup_insert_eq.
Qed.

(** C7: when loading the schema or building the lines fails, the run
    ends with that exception in the world it started in: no file is
    written, emptied or created. A run that succeeds has made one change
    to the files, the output file holding the text of all the lines.
    Once the lines are built the file is opened, and from there a failure
    is another matter: when the opening fails nothing has changed, but
    when the text cannot be encoded the run ends with the output file
    empty, whatever it held before. *)
Theorem no_partial_output (script_path schema_path : path) (w : world) :
  (forall e,
      load_and_build parse w schema_path = Raise e ->
      generate_das_qvs parse encodable script_path schema_path w = (w, Raise e)) /\
  (forall w',
      generate_das_qvs parse encodable script_path schema_path w = (w', Ok tt) ->
      exists output,
        load_and_build parse w schema_path = Ok output /\
        files w' =
          <[script_path ++ ["data_according_to_system.qvs"] := render output]> (files w)) /\
  (forall output,
      load_and_build parse w schema_path = Ok output ->
      (forall e,
          open_for_writing w script_path "data_according_to_system.qvs" = Raise e ->
          generate_das_qvs parse encodable script_path schema_path w = (w, Raise e)) /\
      (forall opened,
          open_for_writing w script_path "data_according_to_system.qvs" = Ok opened ->
          encodable (render output) = false ->
          generate_das_qvs parse encodable script_path schema_path w =
            (opened, Raise UnicodeEncodeError) /\
          files opened =
            <[script_path ++ ["data_according_to_system.qvs"] := ""]> (files w))).
Proof.
  split; [|split].
  - intros e H. unfold generate_das_qvs. now rewrite H.
  - intros w' H. destruct (generate_ok _ _ _ _ H) as (output & Ho & Hf & _). eauto.
  - intros output Ho. split.
    + intros e He. unfold generate_das_qvs. now rewrite Ho, He.
    + intros opened Hopen Henc. split.
      * unfold generate_das_qvs. rewrite Ho, Hopen. unfold write_text. now rewrite Henc.
      * unfold open_for_writing in Hopen. repeat case_decide; try discriminate.
        now injection Hopen as <-.
Qed.

End Runs.

(** A run and its re-run, the second starting where the first ended. *)
Lemma runs_are_deterministic_witness :
  load_and_build sample_parser sample_world sample_schema_path =
  load_and_build sample_parser sample_world_after sample_schema_path /\
  exists text,
    files sample_world_after !! sample_output_path = Some text /\
    files sample_world_twice !! sample_output_path = Some text.
Proof.
  apply (runs_are_deterministic sample_parser every_text sample_script_path
           sample_schema_path sample_text sample_world sample_world_after
           sample_world_after sample_world_twice);
    vm_compute; reflexivity.
Defined.

(** A schema whose column has no mapping fails in the rendering loop; the
    output file of an earlier run is still there, untouched. A schema
    whose description the encoding cannot take fails in the write: the
    output file of the earlier run is there, empty. *)
Lemma no_partial_output_witness :
  (generate_das_qvs sample_parser every_text sample_script_path sample_schema_path
     malformed_world = (malformed_world, Raise TypeError) /\
   files malformed_world !! sample_output_path = Some "previous run") /\
  (files accented_world !! sample_output_path = Some "previous run" /\
   generate_das_qvs accented_parser ascii_only sample_script_path sample_schema_path
     accented_world = (accented_world_after, Raise UnicodeEncodeError) /\
   files accented_world_after !! sample_output_path = Some "").
Proof.
  split.
  - split.
    + apply (no_partial_output sample_parser every_text sample_script_path
               sample_schema_path malformed_world).
      vm_compute. reflexivity.
    + vm_compute. reflexivity.
  - split; [vm_compute; reflexivity|].
    destruct (no_partial_output accented_parser ascii_only sample_script_path
                sample_schema_path accented_world) as (_ & _ & Hwrite).
    destruct (Hwrite accented_output) as (_ & Hencode);
      [vm_compute; reflexivity|].
    destruct (Hencode accented_world_after) as (Hrun & Hfiles);
      [vm_compute; reflexivity | vm_compute; reflexivity |].
    split; [exact Hrun|].
    rewrite Hfiles. apply lookup_insert_eq.
Defined.

(** ** Occurrences of the qvd reference *)

Section Occurrences.

Variable T : string.

Lemma count_at_cons (c : ascii) (s p : string) :
  PyStr.count_at (String c s) p =
  (if PyStr.startswith (String c s) p then 1 else 0) + PyStr.count_at s p.
Proof. reflexivity. Qed.

Lemma adds_empty : adds T 0 "".
Proof. intros t. reflexivity. Qed.

Lemma adds_append (n m : nat) (a b : string) :
  adds T n a -> adds T m b -> adds T (n + m) (a +:+ b).
Proof.
  intros Ha Hb t. rewrite append_assoc, Ha, Hb. lia.
Qed.

Lemma startswith_append_cases (u t p x : string) :
  PyStr.startswith (u +:+ t) (p +:+ x) = true ->
  PyStr.startswith u p = true \/ PyStr.startswith p u = true.
Proof.
  revert u. induction p as [|a p IH]; intros u H.
  - now left.
  - destruct u as [|b u]; [now right|].
    cbn [String.append PyStr.startswith] in *.
    apply andb_true_iff in H as [Hab H]. apply Ascii.eqb_eq in Hab. subst b.
    rewrite !Ascii.eqb_refl. cbn [andb]. now apply IH.
Qed.

Lemma adds_inert (s : string) : inert s = true -> adds T 0 s.
Proof.
  induction s as [|c s IH]; intros H t; [reflexivity|].
  cbn [inert] in H. apply andb_true_iff in H as [Hc Hs].
  cbn [String.append]. rewrite count_at_cons, (IH Hs t).
  destruct (PyStr.startswith (String c (s +:+ t)) (qvd_reference T)) eqn:E; [|reflexivity].
  unfold qvd_reference in E.
  apply (startswith_append_cases (String c s) t qvd_prefix) in E.
  apply negb_true_iff, orb_false_iff in Hc as [H1 H2].
  destruct E; congruence.
Qed.

Lemma adds_plain (s : string) : plain s = true -> adds T 0 s.
Proof.
  unfold plain. induction s as [|c s IH]; intros H t; [reflexivity|].
  cbn [PyStr.contains PyStr.startswith] in H.
  rewrite andb_true_r in H. apply negb_true_iff, orb_false_iff in H as [Hc Hs].
  cbn [String.append]. rewrite count_at_cons, (IH ltac:(now rewrite Hs) t).
  unfold qvd_reference, qvd_prefix.
  cbn [String.append PyStr.startswith]. now rewrite Hc.
Qed.

Hypothesis plain_name : plain T = true.

Lemma adds_reference : adds T 1 (qvd_reference T).
Proof.
  intros t. unfold qvd_reference at 1.
  assert (Hstart : PyStr.startswith (qvd_reference T +:+ t) (qvd_reference T) = true)
    by apply startswith_append.
  assert (Hrest : adds T 0 ("(val__qvd_path__das)/" +:+ T +:+ ".qvd")).
  { apply (adds_append 0 0); [now apply adds_inert|].
    apply (adds_append 0 0); [now apply adds_plain | now apply adds_inert]. }
  unfold qvd_reference at 1 in Hstart. unfold qvd_prefix in *.
  cbn [String.append] in *. rewrite count_at_cons, Hstart.
  specialize (Hrest t). cbn [String.append] in Hrest. rewrite Hrest. reflexivity.
Qed.

Lemma adds_escaped (desc : string) : plain desc = true -> adds T 0 (escaped desc).
Proof.
  unfold plain. induction desc as [|c s IH]; intros H; [apply adds_empty|].
  cbn [PyStr.contains PyStr.startswith] in H.
  rewrite andb_true_r in H. apply negb_true_iff, orb_false_iff in H as [Hc Hs].
  rewrite escaped_cons. apply (adds_append 0 0); [|apply IH; now rewrite Hs].
  destruct (Ascii.eqb "'" c); [now apply adds_inert|].
  apply adds_plain. unfold plain. cbn [PyStr.contains PyStr.startswith].
  now rewrite Hc.
Qed.

Lemma adds_unlines (l : list string) : Forall (adds T 0) l -> adds T 0 (unlines l).
Proof.
  unfold unlines. induction 1 as [|x l Hx Hl IH]; [apply adds_empty|].
  cbn [map]. rewrite concat_empty_cons.
  apply (adds_append 0 0); [|exact IH].
  apply (adds_append 0 0); [exact Hx | now apply adds_inert].
Qed.

Lemma count_at_empty : PyStr.count_at "" (qvd_reference T) = 0.
Proof. reflexivity. Qed.

Lemma adds_count (n : nat) (s : string) :
  adds T n s -> PyStr.count_at s (qvd_reference T) = n.
Proof.
  intros H. specialize (H ""). rewrite append_empty_r, count_at_empty in H. lia.
Qed.

Lemma join_cons (x y : string) (l : list string) :
  PyStr.join newline (x :: y :: l) = x +:+ newline +:+ PyStr.join newline (y :: l).
Proof. reflexivity. Qed.

Lemma join_unlines (A : list string) (x : string) (R : list string) :
  PyStr.join newline (A ++ x :: R) = unlines A +:+ PyStr.join newline (x :: R).
Proof.
  induction A as [|a A IH]; [reflexivity|].
  unfold unlines in *. cbn [map]. rewrite concat_empty_cons, !append_assoc, <- IH.
  destruct A; cbn [app]; now rewrite join_cons.
Qed.

Lemma join_last (A : list string) (x : string) :
  PyStr.join newline (A ++ [x]) = unlines A +:+ x.
Proof. apply join_unlines. Qed.

Lemma unlines_cons (x : string) (l : list string) :
  unlines (x :: l) = (x +:+ newline) +:+ unlines l.
Proof. unfold unlines. cbn [map]. apply concat_empty_cons. Qed.

Lemma adds_line (n : nat) (x : string) (l : list string) :
  adds T n x -> Forall (adds T 0) l -> adds T n (unlines (x :: l)).
Proof.
  intros Hx Hl. rewrite unlines_cons.
  replace n with ((n + 0) + 0) by lia.
  apply adds_append; [|now apply adds_unlines].
  apply adds_append; [exact Hx | now apply adds_inert].
Qed.

Lemma adds_target_statement : adds T 1 (qvd_target_statement T).
Proof.
  unfold qvd_target_statement.
  apply (adds_append 0 1); [now apply adds_inert|].
  apply (adds_append 1 0); [apply adds_reference | now apply adds_inert].
Qed.

Lemma adds_store_statement : adds T 1 (store_statement T).
Proof.
  unfold store_statement.
  apply (adds_append 0 1); [now apply adds_inert|].
  apply (adds_append 0 1); [now apply adds_plain|].
  apply (adds_append 0 1); [now apply adds_inert|].
  apply (adds_append 1 0); [apply adds_reference | now apply adds_inert].
Qed.

(** A text with the target statement and the store statement among
    lines that add nothing holds the reference twice. *)
Lemma count_two (A B C : list string) (x : string) :
  Forall (adds T 0) A -> Forall (adds T 0) B -> Forall (adds T 0) C -> adds T 0 x ->
  PyStr.count_at
    (render (A ++ qvd_target_statement T :: B ++ store_statement T :: C ++ [x]))
    (qvd_reference T) = 2.
Proof.
  intros HA HB HC Hx. unfold render.
  rewrite join_unlines.
  replace (qvd_target_statement T :: B ++ store_statement T :: C ++ [x])
    with ((qvd_target_statement T :: B) ++ store_statement T :: C ++ [x]) by reflexivity.
  rewrite join_unlines.
  replace (store_statement T :: C ++ [x]) with ((store_statement T :: C) ++ [x])
    by reflexivity.
  rewrite join_last.
  apply (adds_count 2).
  apply (adds_append 0 2); [now apply adds_unlines|].
  apply (adds_append 1 1); [apply adds_line; [apply adds_target_statement | exact HB]|].
  apply (adds_append 1 0); [apply adds_line; [apply adds_store_statement | exact HC]|].
  exact Hx.
Qed.

End Occurrences.

Ltac adds_nothing :=
  repeat first
    [ apply adds_inert; vm_compute; reflexivity
    | apply adds_plain; assumption
    | apply (adds_append _ 0 0) ].

Ltac all_add_nothing :=
  repeat first [ apply List.Forall_nil | apply List.Forall_cons; [adds_nothing|] ].

Lemma qvd_target_statement_eq (T : string) :
  "Let val__qvd_target = '$(val__qvd_path__das)/" +:+ T +:+ ".qvd';" =
  qvd_target_statement T.
Proof.
  unfold qvd_target_statement, qvd_reference, qvd_prefix.
  cbn [String.append]. now rewrite append_assoc.
Qed.

Lemma store_statement_eq (T : string) :
  "    Store [" +:+ T +:+ "] Into [$(val__qvd_path__das)/" +:+ T +:+ ".qvd] (qvd);" =
  store_statement T.
Proof.
  unfold store_statement, qvd_reference, qvd_prefix.
  cbn [String.append]. do 2 f_equal. now rewrite !append_assoc.
Qed.

Lemma parquet_source_eq (T : string) :
  "    [lib://OneDrive - mattias.thalen@two.se/Qlik/Analytical Data Storage System/data/das." +:+
    T +:+ ".parquet] (parquet)" = parquet_source T.
Proof.
  unfold parquet_source, parquet_reference.
  cbn [String.append]. now rewrite !append_assoc.
Qed.

Lemma setup_lines_split (T : string) :
  setup_lines T =
  firstn 6 (setup_lines T) ++ qvd_target_statement T :: skipn 7 (setup_lines T).
Proof.
  unfold setup_lines. cbn [firstn skipn app]. now rewrite qvd_target_statement_eq.
Qed.

Lemma store_reset_lines_split (T : string) :
  store_reset_lines T =
  ["    Trace Storing data...;"] ++
  store_statement T :: removelast (skipn 2 (store_reset_lines T)) ++ [""].
Proof.
  unfold store_reset_lines. cbn [firstn skipn removelast app].
  now rewrite store_statement_eq.
Qed.

Lemma table_fields_cases (e : string) (table_info : yaml) (fl : field_lists) :
  table_fields e table_info = Ok fl ->
  fl = empty_field_lists \/
  exists cols, Py.getitem table_info "columns" = Ok (YMap cols).
Proof.
  unfold table_fields. intros H. bind_inv H. destruct a.
  - right. bind_inv H. bind_inv H. destruct a; try discriminate Ha1. eauto.
  - left. now injection H as <-.
Qed.

Lemma Forall_with_commas (Q : string -> Prop) (l : list string) :
  (forall x, Q x -> Q (x +:+ ",")) -> Forall Q l -> Forall Q (with_commas l).
Proof.
  intros Hc. induction 1 as [|x l Hx Hl IH]; [constructor|].
  destruct l as [|y l]; [repeat constructor; exact Hx|].
  rewrite with_commas_cons. constructor; [now apply Hc | exact IH].
Qed.

Section PlainTable.

Variables (T : string) (table_info : yaml) (fl : field_lists) (tc : list string).
Hypothesis plain_name : plain T = true.
Hypothesis plain_info : plain_table table_info = true.
Hypothesis Hfl : table_fields (entity_name_of T) table_info = Ok fl.
Hypothesis Htc : table_comment_lines T table_info = Ok tc.

Lemma plain_sorted_columns :
  fl = empty_field_lists \/
  exists cols : list (string * yaml),
    field_lists_of cols = Ok fl /\
    Forall (fun col => plain (fst col) = true /\ plain_description (snd col) = true) cols.
Proof.
  destruct (table_fields_cases _ _ _ Hfl) as [->|[cols Hcols]]; [now left|]. right.
  destruct (table_fields_columns _ _ _ _ Hcols Hfl) as (b & Hb & Hfl').
  exists (sorted_columns_of b). split; [exact Hfl'|].
  destruct (categorize_spec _ _ _ Hb) as (named & -> & _).
  apply List.Forall_forall. intros [name info] Hin. cbn [fst snd].
  destruct (sorted_columns_sound _ _ _ _ _ Hb Hin) as [Hin' Hnd].
  unfold plain_table in plain_info. rewrite Hcols in plain_info.
  apply andb_true_iff in plain_info as [_ Hall].
  rewrite forallb_forall in Hall. specialize (Hall _ Hin').
  unfold plain_column in Hall. cbn [fst snd] in Hall. rewrite Hnd in Hall.
  now apply andb_true_iff in Hall.
Qed.

Lemma adds_hash_line (name : string) : plain name = true -> adds T 0 (hash_line name).
Proof. intros H. unfold hash_line. adds_nothing. Qed.

Lemma adds_load_line (name : string) : plain name = true -> adds T 0 (load_line name).
Proof. intros H. unfold load_line. adds_nothing. Qed.

Lemma adds_comma (s : string) : adds T 0 s -> adds T 0 (s +:+ ",").
Proof. intros H. apply (adds_append _ 0 0); [exact H | adds_nothing]. Qed.

Lemma field_lists_add_nothing :
  Forall (adds T 0) (hash_fields fl) /\
  Forall (adds T 0) (field_load_lines fl) /\
  Forall (adds T 0) (field_comment_lines (field_comments fl)).
Proof.
  destruct plain_sorted_columns as [->|(cols & Hcols & Hplain)].
  { repeat split; constructor. }
  destruct (field_lists_spec _ _ Hcols) as (-> & -> & ->).
  split; [|split].
  - apply Forall_with_commas; [apply adds_comma|].
    rewrite map_map. apply Forall_map.
    eapply Forall_impl; [exact Hplain|]. intros col [Hn _]. now apply adds_hash_line.
  - apply Forall_with_commas; [apply adds_comma|].
    rewrite map_map. apply Forall_map.
    eapply Forall_impl; [exact Hplain|]. intros col [Hn _]. now apply adds_load_line.
  - assert (Hc : Forall (adds T 0) (map (fun c => "    " +:+ c) (comments_of cols))).
    { apply Forall_map. unfold comments_of. apply List.Forall_forall. intros line Hin.
      apply in_flat_map in Hin as [[name info] [Hin Hl]]. cbn [fst snd] in Hl.
      rewrite List.Forall_forall in Hplain. destruct (Hplain _ Hin) as [Hn Hd].
      cbn [fst snd] in Hn, Hd. unfold plain_description in Hd.
      destruct (description_of info) as [d|]; [|destruct Hl].
      destruct Hl as [<-|[]]. unfold comment_line.
      apply (adds_append _ 0 0); [adds_nothing|].
      apply (adds_append _ 0 0); [adds_nothing|].
      apply (adds_append _ 0 0); [adds_nothing|].
      apply (adds_append _ 0 0); [adds_nothing|].
      apply (adds_append _ 0 0); [now apply adds_escaped | adds_nothing]. }
    unfold field_comment_lines. destruct (comments_of cols) as [|c cs]; [constructor|].
    apply List.Forall_app; split; [all_add_nothing|].
    apply List.Forall_app; split; [exact Hc | all_add_nothing].
Qed.

Lemma table_comment_adds_nothing : Forall (adds T 0) tc.
Proof.
  unfold table_comment_lines in Htc. apply description_cases in Htc.
  unfold plain_table, plain_description in plain_info.
  apply andb_true_iff in plain_info as [Hd _].
  destruct (description_of table_info) as [d|]; subst tc; [|constructor].
  rewrite escape_quotes_escaped.
  constructor; [adds_nothing|]. constructor; [|all_add_nothing].
  apply (adds_append _ 0 0); [adds_nothing|].
  apply (adds_append _ 0 0); [adds_nothing|].
  apply (adds_append _ 0 0); [adds_nothing|].
  apply (adds_append _ 0 0); [now apply adds_escaped | adds_nothing].
Qed.

Lemma plain_block_count :
  PyStr.count_at
    (render (setup_lines T ++
             hash_open_lines ++ hash_fields fl ++
             load_open_lines T ++ field_load_lines fl ++
             load_close_lines T ++
             tc ++
             field_comment_lines (field_comments fl) ++
             store_reset_lines T))
    (qvd_reference T) = 2.
Proof.
  destruct field_lists_add_nothing as (Hh & Hl & Hc).
  pose proof table_comment_adds_nothing as Ht.
  rewrite setup_lines_split, store_reset_lines_split.
  set (A := firstn 6 (setup_lines T)).
  set (S := skipn 7 (setup_lines T)).
  set (C := removelast (skipn 2 (store_reset_lines T))).
  replace (A ++ qvd_target_statement T :: S) with (A ++ [qvd_target_statement T] ++ S)
    by reflexivity.
  replace ((A ++ [qvd_target_statement T] ++ S) ++
           hash_open_lines ++ hash_fields fl ++ load_open_lines T ++
           field_load_lines fl ++ load_close_lines T ++ tc ++
           field_comment_lines (field_comments fl) ++
           ["    Trace Storing data...;"] ++ store_statement T :: C ++ [""])
    with (A ++ qvd_target_statement T ::
            (S ++ hash_open_lines ++ hash_fields fl ++ load_open_lines T ++
             field_load_lines fl ++ load_close_lines T ++ tc ++
             field_comment_lines (field_comments fl) ++
             ["    Trace Storing data...;"]) ++ store_statement T :: C ++ [""]).
  2: { repeat rewrite <- app_assoc. reflexivity. }
  apply count_two; [exact plain_name | | | | apply adds_empty].
  - subst A. unfold setup_lines. cbn [firstn]. all_add_nothing.
  - subst S. unfold setup_lines, hash_open_lines, load_open_lines, load_close_lines.
    cbn [skipn].
    repeat (apply List.Forall_app; split); try assumption; all_add_nothing.
  - subst C. unfold store_reset_lines. cbn [skipn removelast]. all_add_nothing.
Qed.

End PlainTable.

(** ** The file references of a block *)

Section AtLeast.

Variable T : string.

Lemma count_at_skip_any (s t p : string) :
  PyStr.count_at t p <= PyStr.count_at (s +:+ t) p.
Proof.
  induction s as [|c s IH]; [reflexivity|].
  cbn [String.append]. rewrite count_at_cons. lia.
Qed.

Lemma count_at_self (c : ascii) (p t : string) :
  1 + PyStr.count_at t (String c p) <= PyStr.count_at (String c p +:+ t) (String c p).
Proof.
  pose proof (startswith_append (String c p) t) as Hs.
  pose proof (count_at_skip_any p t (String c p)) as Hle.
  cbn [String.append] in *. rewrite count_at_cons, Hs. lia.
Qed.

Lemma count_at_skip (s t : string) :
  PyStr.count_at t (qvd_reference T) <= PyStr.count_at (s +:+ t) (qvd_reference T).
Proof. apply count_at_skip_any. Qed.

Lemma count_at_reference (t : string) :
  1 + PyStr.count_at t (qvd_reference T) <=
  PyStr.count_at (qvd_reference T +:+ t) (qvd_reference T).
Proof. apply count_at_self. Qed.

Lemma count_at_least_two (A B C : list string) (a b c d x : string) :
  2 <= PyStr.count_at
         (render (A ++ (a +:+ qvd_reference T +:+ b) :: B ++
                       (c +:+ qvd_reference T +:+ d) :: C ++ [x]))
         (qvd_reference T).
Proof.
  unfold render. rewrite join_unlines.
  replace ((a +:+ qvd_reference T +:+ b) :: B ++ (c +:+ qvd_reference T +:+ d) :: C ++ [x])
    with (((a +:+ qvd_reference T +:+ b) :: B) ++
          (c +:+ qvd_reference T +:+ d) :: C ++ [x]) by reflexivity.
  rewrite join_unlines.
  rewrite (unlines_cons (a +:+ qvd_reference T +:+ b) B).
  rewrite !append_assoc.
  etransitivity; [|apply count_at_skip].
  etransitivity; [|apply count_at_skip].
  etransitivity; [|apply count_at_reference].
  apply le_n_S.
  etransitivity; [|apply count_at_skip].
  etransitivity; [|apply count_at_skip].
  etransitivity; [|apply count_at_skip].
  destruct (C ++ [x]) as [|y ys] eqn:E.
  - destruct C; discriminate E.
  - cbn [app]. rewrite join_cons, !append_assoc.
    etransitivity; [|apply count_at_skip].
    etransitivity; [|apply count_at_reference]. lia.
Qed.

End AtLeast.

Lemma contains_join (x p : string) (l : list string) :
  In x l -> PyStr.contains x p = true -> PyStr.contains (render l) p = true.
Proof.
  intros Hin Hp. apply in_split in Hin as (A & R & ->).
  apply contains_spec in Hp as (u & v & ->). apply contains_spec.
  unfold render. rewrite join_unlines. destruct R as [|r R].
  - exists (unlines A +:+ u), v. cbn [PyStr.join String.concat].
    now rewrite !append_assoc.
  - exists (unlines A +:+ u), (v +:+ newline +:+ PyStr.join newline (r :: R)).
    rewrite join_cons. now rewrite !append_assoc.
Qed.

(** C9, as the code has it: the block of a table names the parquet file
    [das.T.parquet] in its source path and names the qvd file of the table
    in the assignment of [val__qvd_target] and in the [Store] statement,
    with the same table name, so at least twice; these are the only two
    occurrences when the table name, the names of the kept columns and the
    descriptions hold no dollar sign. *)
Theorem file_references (table_key table_info : yaml) (block : list string)
  (H : table_block table_key table_info = Ok block) :
  exists table_name,
    table_key = YStr table_name /\
    In (parquet_source table_name) block /\
    PyStr.contains (render block) (parquet_reference table_name) = true /\
    In (qvd_target_statement table_name) block /\
    In (store_statement table_name) block /\
    2 <= PyStr.count_at (render block) (qvd_reference table_name) /\
    (plain table_name = true -> plain_table table_info = true ->
     PyStr.count_at (render block) (qvd_reference table_name) = 2).
Proof.
  destruct (table_block_parts _ _ _ H) as (T & fl & tc & -> & Hfl & Htc & ->).
  exists T. split; [reflexivity|].
  assert (Hpq : In (parquet_source T)
                   (setup_lines T ++ hash_open_lines ++ hash_fields fl ++
                    load_open_lines T ++ field_load_lines fl ++ load_close_lines T ++
                    tc ++ field_comment_lines (field_comments fl) ++
                    store_reset_lines T)).
  { rewrite !in_app_iff. do 5 right. left.
    unfold load_close_lines. rewrite parquet_source_eq. cbn [In]. tauto. }
  split; [exact Hpq|]. split.
  { apply (contains_join _ _ _ Hpq). unfold parquet_source.
    apply contains_spec. eauto. }
  split.
  { rewrite setup_lines_split, !in_app_iff. left. right. now left. }
  split.
  { rewrite store_reset_lines_split, !in_app_iff. do 8 right. right. now left. }
  split.
  - rewrite setup_lines_split, store_reset_lines_split.
    repeat rewrite <- app_assoc. cbn [app].
    set (A := firstn 6 (setup_lines T)).
    set (S := skipn 7 (setup_lines T)).
    set (C := removelast (skipn 2 (store_reset_lines T))).
    replace (S ++ hash_open_lines ++ hash_fields fl ++ load_open_lines T ++
             field_load_lines fl ++ load_close_lines T ++ tc ++
             field_comment_lines (field_comments fl) ++
             "    Trace Storing data...;" :: store_statement T :: C ++ [""])
      with ((S ++ hash_open_lines ++ hash_fields fl ++ load_open_lines T ++
             field_load_lines fl ++ load_close_lines T ++ tc ++
             field_comment_lines (field_comments fl) ++
             ["    Trace Storing data...;"]) ++ store_statement T :: C ++ [""]).
    2: { repeat rewrite <- app_assoc. reflexivity. }
    replace (store_statement T)
      with (("    Store [" +:+ T +:+ "] Into [") +:+ qvd_reference T +:+ "] (qvd);")
      by (unfold store_statement; now rewrite !append_assoc).
    unfold qvd_target_statement.
    apply count_at_least_two.
  - intros Hname Hinfo. now apply (plain_block_count T table_info fl tc).
Qed.

Lemma customer_block_ok :
  table_block (YStr "sales__customer") sample_table = Ok customer_block.
Proof. vm_compute. reflexivity. Qed.

Lemma file_references_witness :
  PyStr.contains (render customer_block) "das.sales__customer.parquet" = true /\
  PyStr.count_at (render customer_block) "$(val__qvd_path__das)/sales__customer.qvd" = 2.
Proof.
  destruct (file_references (YStr "sales__customer") sample_table customer_block
              customer_block_ok) as (table_name & Heq & _ & Hpq & _ & _ & _ & Hcount).
  injection Heq as <-. split; [exact Hpq|].
  apply Hcount; vm_compute; reflexivity.
Defined.

(** C9 as stated fails: a description can hold the reference, and it is
    copied into the block. *)
Lemma qvd_reference_thrice :
  table_block (YStr "sales__customer") annotated_table = Ok annotated_block /\
  PyStr.count_at (render annotated_block) (qvd_reference "sales__customer") = 3.
Proof. split; vm_compute; reflexivity. Qed.

(** * Further properties of the generator *)

(** ** Which documents are rendered *)

Lemma for_each_succeeds {A S : Type} (body : S -> A -> result S) (P : A -> Prop)
  (l : list A) :
  (forall s x, succeeds (body s x) <-> P x) ->
  forall s, succeeds (for_each body l s) <-> Forall P l.
Proof.
  intros Hbody. induction l as [|x l IH]; intros s; cbn [for_each].
  - split; [constructor | intros _; now exists s].
  - split.
    + intros [s' Hs']. bind_inv Hs'. constructor.
      * apply (Hbody s x). now exists a.
      * apply (IH a). now exists s'.
    + intros HF. inversion HF as [|? ? Hx Hl]; subst.
      apply (Hbody s x) in Hx as [a ->]. cbn [mbind result_bind]. now apply IH.
Qed.

Lemma existsb_find_none {A : Type} (f : A -> bool) (l : list A) :
  find f l = None -> existsb f l = false.
Proof.
  induction l as [|x l IH]; cbn [find existsb]; [reflexivity|].
  destruct (f x); [discriminate | exact IH].
Qed.

Lemma description_step_succeeds {A : Type} (info : yaml) (with_desc : string -> A)
  (without : A) :
  succeeds (has_description ← Py.str_in "description" info;
            if has_description : bool then
              d ← Py.getitem info "description";
              desc ← Py.str_method d;
              Ok (with_desc desc)
            else Ok without) <->
  description_readable info = true.
Proof.
  unfold succeeds, description_readable.
  destruct info; cbn [Py.str_in Py.getitem mbind result_bind];
    try (split; [intros [a Ha]; discriminate Ha | discriminate]).
  - destruct (PyStr.contains s "description"); cbn [negb].
    + split; [intros [a Ha]; discriminate Ha | discriminate].
    + split; eauto.
  - destruct (existsb (Py.is_str "description") elems); cbn [negb].
    + split; [intros [a Ha]; discriminate Ha | discriminate].
    + split; eauto.
  - destruct (find _ entries) as [[k v]|] eqn:E.
    + rewrite (find_some_true _ _ _ E). cbn [snd].
      destruct v; cbn [Py.str_method mbind result_bind];
        try (split; [intros [a Ha]; discriminate Ha | discriminate]).
      split; eauto.
    + rewrite (existsb_find_none _ _ E). split; eauto.
Qed.

Lemma categorize_succeeds (e : string) (cols : list (yaml * yaml)) :
  succeeds (categorize e cols) <->
  Forall (fun col => exists name, fst col = YStr name) cols.
Proof.
  apply for_each_succeeds. intros b [k info]. unfold categorize_step. cbn [fst].
  destruct k; cbn [Py.str_method mbind result_bind];
    try (split; [intros [a Ha]; discriminate Ha | intros [nm Hnm]; discriminate Hnm]).
  split; [eauto|]. intros _. unfold succeeds.
  destruct (PyStr.startswith s "_dlt_"); [eauto|].
  destruct (existsb _ _); [eauto|].
  destruct (_ && _); [eauto|].
  destruct (PyStr.endswith s "_id"); eauto.
Qed.

Lemma in_enumerate {A : Type} (k : nat) (x : A) (l : list A) :
  In x l -> exists i, In (i, x) (combine (map Z.of_nat (seq k (length l))) l).
Proof.
  revert k. induction l as [|y l IH]; intros k Hin; [destruct Hin|].
  cbn [length seq map combine]. destruct Hin as [->|Hin].
  - exists (Z.of_nat k). now left.
  - destruct (IH (S k) Hin) as [i Hi]. exists i. now right.
Qed.

Lemma field_lists_succeeds (cols : list (string * yaml)) :
  succeeds (field_lists_of cols) <->
  Forall (fun col => description_readable (snd col) = true) cols.
Proof.
  unfold field_lists_of, Py.enumerate.
  rewrite (for_each_succeeds _ (fun item : Z * (string * yaml) =>
                                  description_readable (snd (snd item)) = true)).
  - rewrite !List.Forall_forall. split.
    + intros H col Hin.
      destruct (in_enumerate 0 col cols Hin) as [i Hi].
      exact (H (i, col) Hi).
    + intros H [i col] Hin. apply in_combine_r in Hin. cbn [snd]. now apply H.
  - intros fl [i [name info]]. cbn [snd]. unfold field_step.
    apply description_step_succeeds.
Qed.

Lemma columns_step_succeeds (e : string) (table_info : yaml) :
  succeeds (table_fields e table_info) <-> columns_accepted table_info = true.
Proof.
  unfold table_fields, columns_accepted.
  destruct table_info; cbn [Py.str_in Py.getitem mbind result_bind];
    try (split; [intros [a Ha]; discriminate Ha | discriminate]).
  - destruct (PyStr.contains s "columns"); cbn [negb].
    + split; [intros [a Ha]; discriminate Ha | discriminate].
    + split; [reflexivity | intros _; now exists empty_field_lists].
  - destruct (existsb (Py.is_str "columns") elems); cbn [negb].
    + split; [intros [a Ha]; discriminate Ha | discriminate].
    + split; [reflexivity | intros _; now exists empty_field_lists].
  - destruct (find _ entries) as [[k v]|] eqn:E.
    + rewrite (find_some_true _ _ _ E). cbn [snd].
      destruct v; cbn [Py.items mbind result_bind];
        try (split; [intros [a Ha]; discriminate Ha | discriminate]).
      rename entries0 into cols. split.
      * intros [fl Hfl]. bind_inv Hfl.
        destruct (categorize_spec _ _ _ Ha) as (named & -> & _).
        assert (Hr : succeeds (field_lists_of (sorted_columns_of a))) by now exists fl.
        apply field_lists_succeeds in Hr. rewrite List.Forall_forall in Hr.
        apply forallb_forall. intros [k' info] Hin.
        unfold named_columns in Hin. apply in_map_iff in Hin as [[n i] [Heq Hin]].
        cbn [fst snd] in Heq. injection Heq as <- <-.
        unfold column_accepted. cbn [fst snd].
        destruct (PyStr.startswith n "_dlt_") eqn:Hd; [reflexivity|]. cbn [orb].
        apply (Hr (n, i)). now apply (sorted_columns_complete e named).
      * intros Hall. rewrite forallb_forall in Hall.
        assert (Hc : succeeds (categorize e cols)).
        { apply categorize_succeeds. apply List.Forall_forall. intros [k' i] Hin.
          specialize (Hall _ Hin). unfold column_accepted in Hall. cbn [fst snd] in *.
          destruct k'; try discriminate Hall. eauto. }
        destruct Hc as [b Hb]. rewrite Hb. cbn [mbind result_bind].
        destruct (categorize_spec _ _ _ Hb) as (named & -> & _).
        apply field_lists_succeeds. apply List.Forall_forall. intros [n i] Hin.
        destruct (sorted_columns_sound _ _ _ _ _ Hb Hin) as [Hin' Hd].
        specialize (Hall _ Hin'). unfold column_accepted in Hall.
        cbn [fst snd] in *. now rewrite Hd in Hall.
    + rewrite (existsb_find_none _ _ E).
      split; [reflexivity | intros _; now exists empty_field_lists].
Qed.

Lemma table_block_succeeds (item : yaml * yaml) :
  succeeds (table_block (fst item) (snd item)) <-> table_accepted item = true.
Proof.
  destruct item as [k info]. unfold table_block, table_accepted. cbn [fst snd].
  destruct k; cbn [Py.str_method mbind result_bind];
    try (split; [intros [a Ha]; discriminate Ha | discriminate]).
  rewrite andb_true_iff, <- (columns_step_succeeds (entity_name_of s)).
  unfold table_comment_lines.
  rewrite <- (description_step_succeeds info
                (fun desc => [ "    Trace Commenting table...;";
                               "    Comment Table [" +:+ s +:+ "] With '" +:+
                                 escape_quotes desc +:+ "';";
                               "" ]) []).
  split.
  - intros [block H]. bind_inv H. bind_inv H. split; [now exists a | now exists a0].
  - intros [[fl ->] [tc ->]]. cbn [mbind result_bind]. eexists. reflexivity.
Qed.

(** X1: the generator produces its lines exactly for the documents of this
    shape: the root, a table and a kept column are each a mapping (with
    [tables]/[columns] a mapping and [description] a string where present),
    or a list or string that does not mention the key looked for; table
    and column keys are strings. *)
Theorem rendered_iff_accepted (schema_data : yaml) :
  succeeds (build_output schema_data) <-> document_accepted schema_data = true.
Proof.
  unfold build_output, document_accepted.
  destruct schema_data; cbn [Py.str_in Py.getitem mbind result_bind];
    try (split; [intros [a Ha]; discriminate Ha | discriminate]).
  - destruct (PyStr.contains s "tables"); cbn [negb].
    + split; [intros [a Ha]; discriminate Ha | discriminate].
    + split; [reflexivity | intros _; now exists header_lines].
  - destruct (existsb (Py.is_str "tables") elems); cbn [negb].
    + split; [intros [a Ha]; discriminate Ha | discriminate].
    + split; [reflexivity | intros _; now exists header_lines].
  - destruct (find _ entries) as [[k v]|] eqn:E.
    + rewrite (find_some_true _ _ _ E). cbn [snd].
      destruct v; cbn [Py.items mbind result_bind];
        try (split; [intros [a Ha]; discriminate Ha | discriminate]).
      rewrite (for_each_succeeds _ (fun item => table_accepted item = true)).
      * rewrite forallb_forall, List.Forall_forall. reflexivity.
      * intros out item. rewrite <- table_block_succeeds. split.
        -- intros [o H]. bind_inv H. now exists a.
        -- intros [b ->]. cbn [mbind result_bind]. eexists. reflexivity.
    + rewrite (existsb_find_none _ _ E).
      split; [reflexivity | intros _; now exists header_lines].
Qed.

Lemma rendered_iff_accepted_witness :
  succeeds (build_output sample_schema) /\ ~ succeeds (build_output malformed_schema).
Proof.
  split.
  - apply (rendered_iff_accepted sample_schema). vm_compute. reflexivity.
  - intros H. apply (rendered_iff_accepted malformed_schema) in H.
    vm_compute in H. discriminate H.
Defined.

(** ** The exceptions of the generator *)

Lemma bind_Raise {A B : Type} (r : result A) (k : A -> result B) (e : exn) :
  r ≫= k = Raise e -> r = Raise e \/ exists a, r = Ok a /\ k a = Raise e.
Proof.
  destruct r as [a|e']; cbn [mbind result_bind]; intros H.
  - right. now exists a.
  - left. now injection H as ->.
Qed.

Ltac bind_raise H :=
  let a := fresh "a" in
  let Ha := fresh "H" a in
  apply bind_Raise in H; destruct H as [H | [a [Ha H]]].

Lemma for_each_raises {A S : Type} (body : S -> A -> result S) (l : list A) (s : S)
  (e : exn) :
  for_each body l s = Raise e -> exists s' x, In x l /\ body s' x = Raise e.
Proof.
  revert s. induction l as [|x l IH]; intros s H; cbn [for_each] in H; [discriminate H|].
  bind_raise H.
  - exists s, x. split; [now left | exact H].
  - destruct (IH _ H) as (s' & y & Hin & Hy). exists s', y. split; [now right | exact Hy].
Qed.

Lemma str_in_raises (key : string) (container : yaml) (e : exn) :
  Py.str_in key container = Raise e -> e = TypeError.
Proof. destruct container; cbn [Py.str_in]; congruence. Qed.

Lemma str_method_raises (v : yaml) (e : exn) :
  Py.str_method v = Raise e -> e = AttributeError.
Proof. destruct v; cbn [Py.str_method]; congruence. Qed.

Lemma items_raises (v : yaml) (e : exn) : Py.items v = Raise e -> e = AttributeError.
Proof. destruct v; cbn [Py.items]; congruence. Qed.

(** A subscript behind its membership test never misses the key. *)
Lemma guarded_getitem_raises (key : string) (container : yaml) (e : exn) :
  Py.str_in key container = Ok true ->
  Py.getitem container key = Raise e -> e = TypeError.
Proof.
  destruct container; cbn [Py.str_in Py.getitem]; try congruence.
  intros H. injection H as H. apply find_some_existsb in H as [x ->]. discriminate.
Qed.

Lemma description_step_raises {A : Type} (info : yaml) (with_desc : string -> A)
  (without : A) (e : exn) :
  (has_description ← Py.str_in "description" info;
   if has_description : bool then
     d ← Py.getitem info "description";
     desc ← Py.str_method d;
     Ok (with_desc desc)
   else Ok without) = Raise e ->
  e = TypeError \/ e = AttributeError.
Proof.
  intros H. bind_raise H; [left; now apply str_in_raises in H|].
  destruct a; [|discriminate H].
  bind_raise H; [left; now apply (guarded_getitem_raises _ _ _ Ha) in H|].
  bind_raise H; [right; now apply str_method_raises in H | discriminate H].
Qed.

Lemma categorize_raises (entity_name : string) (cols : list (yaml * yaml)) (e : exn) :
  categorize entity_name cols = Raise e -> e = AttributeError.
Proof.
  intros H. apply for_each_raises in H as (b & [k info] & _ & H).
  unfold categorize_step in H. bind_raise H; [now apply str_method_raises in H|].
  destruct (PyStr.startswith a "_dlt_"); [discriminate H|].
  destruct (existsb _ _); [discriminate H|].
  destruct (_ && _); [discriminate H|].
  destruct (PyStr.endswith a "_id"); discriminate H.
Qed.

Lemma table_fields_raises (entity_name : string) (table_info : yaml) (e : exn) :
  table_fields entity_name table_info = Raise e -> e = TypeError \/ e = AttributeError.
Proof.
  unfold table_fields. intros H.
  bind_raise H; [left; now apply str_in_raises in H|].
  destruct a; [|discriminate H].
  bind_raise H; [left; now apply (guarded_getitem_raises _ _ _ Ha) in H|].
  bind_raise H; [right; now apply items_raises in H|].
  bind_raise H; [right; now apply categorize_raises in H|].
  apply for_each_raises in H as (fl & [i [name info]] & _ & H).
  unfold field_step in H. now apply description_step_raises in H.
Qed.

Lemma table_block_raises (table_key table_info : yaml) (e : exn) :
  table_block table_key table_info = Raise e -> e = TypeError \/ e = AttributeError.
Proof.
  unfold table_block. intros H.
  bind_raise H; [right; now apply str_method_raises in H|].
  bind_raise H; [now apply table_fields_raises in H|].
  bind_raise H; [|discriminate H].
  unfold table_comment_lines in H. now apply description_step_raises in H.
Qed.

(** X2: whatever the document, the only exceptions building the lines can
    end in are [TypeError] and [AttributeError]; in particular no
    subscript raises [KeyError], each one stands behind its membership
    test. *)
Theorem only_type_and_attribute_errors (schema_data : yaml) (e : exn)
  (H : build_output schema_data = Raise e) :
  e = TypeError \/ e = AttributeError.
Proof.
  unfold build_output in H.
  bind_raise H; [left; now apply str_in_raises in H|].
  destruct a; [|discriminate H].
  bind_raise H; [left; now apply (guarded_getitem_raises _ _ _ Ha) in H|].
  bind_raise H; [right; now apply items_raises in H|].
  apply for_each_raises in H as (out & item & _ & H).
  bind_raise H; [now apply table_block_raises in H | discriminate H].
Qed.

Lemma only_type_and_attribute_errors_witness :
  build_output malformed_schema = Raise TypeError /\
  (TypeError = TypeError \/ TypeError = AttributeError).
Proof.
  split; [vm_compute; reflexivity|].
  apply (only_type_and_attribute_errors malformed_schema). vm_compute. reflexivity.
Defined.

(** ** Columns that are dropped, and the order of the columns *)

Lemma for_each_ext {A S : Type} (body : S -> A -> result S) (l l' : list A) :
  (forall s, for_each body l s = for_each body l' s) ->
  forall (x : A) (s : S), for_each body (x :: l) s = for_each body (x :: l') s.
Proof.
  intros H x s. cbn [for_each]. destruct (body s x); cbn [mbind result_bind]; auto.
Qed.

Lemma categorize_step_dlt (e : string) (b : buckets) (name : string) (info : yaml) :
  PyStr.startswith name "_dlt_" = true ->
  categorize_step e b (YStr name, info) = Ok b.
Proof.
  intros H. unfold categorize_step. cbn [Py.str_method mbind result_bind]. now rewrite H.
Qed.

Lemma categorize_loop_drops_dlt (e : string) (cols : list (yaml * yaml)) (b : buckets) :
  for_each (categorize_step e) cols b =
  for_each (categorize_step e) (List.filter (fun col => negb (is_dlt_key col)) cols) b.
Proof.
  revert b. induction cols as [|[k info] cols IH]; intros b; [reflexivity|].
  cbn [List.filter]. destruct (is_dlt_key (k, info)) eqn:Hd; cbn [negb].
  - unfold is_dlt_key in Hd. cbn [fst] in Hd. destruct k; try discriminate Hd.
    cbn [for_each]. rewrite (categorize_step_dlt e b s info Hd).
    cbn [mbind result_bind]. apply IH.
  - now apply for_each_ext.
Qed.

Lemma table_fields_of_columns (e : string) (table_info : yaml) (cols : list (yaml * yaml)) :
  Py.getitem table_info "columns" = Ok (YMap cols) ->
  table_fields e table_info =
  (b ← categorize e cols; field_lists_of (sorted_columns_of b)).
Proof.
  intros H. unfold table_fields. now rewrite (getitem_str_in _ _ _ H), H.
Qed.

(** X3: the columns whose name starts with [_dlt_] leave no trace: a table
    and the same table without them give the same three field lists, or
    the same exception. *)
Theorem dlt_columns_leave_no_trace (entity_name : string) (table_info table_info' : yaml)
  (columns : list (yaml * yaml))
  (H : Py.getitem table_info "columns" = Ok (YMap columns))
  (H' : Py.getitem table_info' "columns" =
        Ok (YMap (List.filter (fun col => negb (is_dlt_key col)) columns))) :
  table_fields entity_name table_info = table_fields entity_name table_info'.
Proof.
  rewrite (table_fields_of_columns _ _ _ H), (table_fields_of_columns _ _ _ H').
  unfold categorize. now rewrite categorize_loop_drops_dlt.
Qed.

Lemma Permutation_list_filter {A : Type} (p : A -> bool) (l l' : list A) :
  Permutation l l' -> Permutation (List.filter p l) (List.filter p l').
Proof.
  induction 1 as [|x l l' _ IH|x y l|l l' l'' _ IH1 _ IH2]; cbn [List.filter].
  - constructor.
  - destruct (p x); [now constructor | exact IH].
  - destruct (p x), (p y); try reflexivity. apply perm_swap.
  - now transitivity (List.filter p l').
Qed.

Lemma NoDup_map_filter {A B : Type} (f : A -> B) (p : A -> bool) (l : list A) :
  List.NoDup (map f l) -> List.NoDup (map f (List.filter p l)).
Proof.
  induction l as [|x l IH]; cbn [map List.filter]; intros H; [constructor|].
  inversion H as [|? ? Hx Hl]; subst. destruct (p x); [|now apply IH].
  cbn [map]. constructor; [|now apply IH].
  intros Hin. apply Hx. apply in_map_iff in Hin as [y [Hy Hin]].
  apply filter_In in Hin as [Hin _]. apply in_map_iff. now exists y.
Qed.

(** Two name-sorted lists with the same elements and no repeated name are
    the same list. *)
Lemma sorted_perm_unique {A : Type} (l l' : list (string * A)) :
  StronglySorted name_le l -> StronglySorted name_le l' ->
  Permutation l l' -> List.NoDup (map fst l) -> l = l'.
Proof.
  revert l'. induction l as [|x l IH]; intros l' Hs Hs' Hp Hn.
  - apply Permutation_nil in Hp. now subst.
  - destruct l' as [|y l']; [apply Permutation_sym, Permutation_nil in Hp; discriminate Hp|].
    inversion Hs as [|? ? Hsl Hxl]; subst. inversion Hs' as [|? ? Hsl' Hyl']; subst.
    inversion Hn as [|? ? Hx Hnl]; subst.
    assert (x = y) as ->.
    { assert (Hxin : In x (y :: l')) by (eapply Permutation_in; [exact Hp | now left]).
      assert (Hyin : In y (x :: l))
        by (eapply Permutation_in; [symmetry; exact Hp | now left]).
      destruct Hxin as [->|Hxin]; [reflexivity|].
      destruct Hyin as [->|Hyin]; [reflexivity|].
      rewrite List.Forall_forall in Hxl, Hyl'.
      assert (fst x = fst y)
        by (apply String.leb_antisym; [apply (Hxl _ Hyin) | apply (Hyl' _ Hxin)]).
      exfalso. apply Hx. apply in_map_iff. now exists y. }
    f_equal. apply IH; try assumption. now apply Permutation_cons_inv in Hp.
Qed.

Lemma named_columns_inj (named named' : list (string * yaml)) :
  named_columns named = named_columns named' -> named = named'.
Proof.
  revert named'. induction named as [|[n i] named IH]; intros [|[n' i'] named'] H;
    try discriminate H; [reflexivity|].
  cbn in H. injection H as -> -> H. f_equal. now apply IH.
Qed.

Lemma NoDup_named_columns (named : list (string * yaml)) :
  List.NoDup (map fst (named_columns named)) -> List.NoDup (map fst named).
Proof.
  unfold named_columns. rewrite map_map. cbn [fst].
  induction named as [|[n i] named IH]; cbn [map fst]; intros H; [constructor|].
  inversion H as [|? ? Hx Hl]; subst. constructor; [|now apply IH].
  intros Hin. apply Hx. apply in_map_iff in Hin as [[n' i'] [Heq Hin]].
  cbn [fst] in Heq. subst n'. apply in_map_iff. now exists (n, i').
Qed.

Lemma sort_by_name_permuted (p : string * yaml -> bool) (named named' : list (string * yaml)) :
  Permutation named named' -> List.NoDup (map fst named) ->
  Py.sort_by_name (List.filter p named) = Py.sort_by_name (List.filter p named').
Proof.
  intros Hp Hn. apply sorted_perm_unique.
  - apply sort_by_name_sorted.
  - apply sort_by_name_sorted.
  - rewrite !sort_by_name_perm. now apply Permutation_list_filter.
  - eapply Permutation_NoDup.
    + apply Permutation_map. symmetry. apply sort_by_name_perm.
    + now apply NoDup_map_filter.
Qed.

Lemma categorize_permuted (e : string) (cols cols' : list (yaml * yaml)) :
  Permutation cols cols' -> List.NoDup (map fst cols) ->
  match categorize e cols, categorize e cols' with
  | Ok b, Ok b' => sorted_columns_of b = sorted_columns_of b'
  | Raise e1, Raise e2 => e1 = e2
  | _, _ => False
  end.
Proof.
  intros Hp Hn.
  assert (Hiff : succeeds (categorize e cols) <-> succeeds (categorize e cols')).
  { rewrite !categorize_succeeds, !List.Forall_forall. split; intros H col Hin;
      apply H; eapply Permutation_in; try eassumption. now symmetry. }
  destruct (categorize e cols) as [b|e1] eqn:E1, (categorize e cols') as [b'|e2] eqn:E2.
  - destruct (categorize_spec _ _ _ E1) as (named & -> & Hpk & Hfk & Hrg & Hsy).
    destruct (categorize_spec _ _ _ E2) as (named' & -> & Hpk' & Hfk' & Hrg' & Hsy').
    assert (Hp' : Permutation named named').
    { unfold named_columns in Hp. apply Permutation_sym, Permutation_map_inv in Hp
        as (l3 & Heq & Hp3). apply named_columns_inj in Heq. subst l3.
      now symmetry. }
    apply NoDup_named_columns in Hn.
    unfold sorted_columns_of. rewrite Hpk, Hfk, Hrg, Hsy, Hpk', Hfk', Hrg', Hsy'.
    now rewrite !(sort_by_name_permuted _ named named').
  - destruct Hiff as [Hiff _]. destruct (Hiff ltac:(now exists b)) as [b' Hb']. discriminate.
  - destruct Hiff as [_ Hiff]. destruct (Hiff ltac:(now exists b')) as [b Hb]. discriminate.
  - apply categorize_raises in E1, E2. congruence.
Qed.

(** X4: the order in which the columns stand in the schema does not
    matter: two tables whose columns mappings hold the same entries (no key
    twice, as in any mapping) give the same three field lists, or the same
    exception. *)
Theorem column_order_is_irrelevant (entity_name : string) (table_info table_info' : yaml)
  (columns columns' : list (yaml * yaml))
  (H : Py.getitem table_info "columns" = Ok (YMap columns))
  (H' : Py.getitem table_info' "columns" = Ok (YMap columns'))
  (Hperm : Permutation columns columns')
  (Hkeys : List.NoDup (map fst columns)) :
  table_fields entity_name table_info = table_fields entity_name table_info'.
Proof.
  rewrite (table_fields_of_columns _ _ _ H), (table_fields_of_columns _ _ _ H').
  pose proof (categorize_permuted entity_name _ _ Hperm Hkeys) as Hc.
  destruct (categorize entity_name columns), (categorize entity_name columns');
    cbn [mbind result_bind]; try contradiction; congruence.
Qed.

Lemma dlt_columns_leave_no_trace_witness :
  table_fields "order" sample_table = table_fields "order" trimmed_table.
Proof.
  apply (dlt_columns_leave_no_trace "order" sample_table trimmed_table sample_columns);
    reflexivity.
Defined.

Lemma column_order_is_irrelevant_witness :
  table_fields "order" sample_table = table_fields "order" reordered_table.
Proof.
  apply (column_order_is_irrelevant "order" sample_table reordered_table
           sample_columns (rev sample_columns)).
  - reflexivity.
  - reflexivity.
  - apply Permutation_rev.
  - cbn. repeat constructor; cbn; intuition discriminate.
Defined.

(** ** The entity name *)

Lemma last_segment_empty : last_segment "" (PyStr.split_from "__" 0 "").
Proof. cbn. unfold last_segment. cbn. auto. Qed.

Lemma last_segment_match (s : string) :
  last_segment s (PyStr.split_from "__" 0 s) ->
  last_segment (String "_" (String "_" s))
               (PyStr.split_from "__" 0 (String "_" (String "_" s))).
Proof.
  cbn [PyStr.split_from PyStr.startswith Ascii.eqb Bool.eqb andb String.length Nat.sub].
  pose proof (split_from_nonempty "__" 0 s) as Hne.
  unfold last_segment. rewrite last_cons_nonempty by exact Hne.
  intros [Hc Hcases]. split; [exact Hc|]. right. split.
  { destruct (PyStr.split_from "__" 0 s); [congruence | cbn [length]; lia]. }
  destruct Hcases as [[_ Hs] | [_ (p & Hs & Hp)]].
  - exists "__". split; [now rewrite <- Hs | reflexivity].
  - exists (String "_" (String "_" p)). split; [now rewrite Hs at 1|].
    cbn [PyStr.endswith]. rewrite Hp. now rewrite !orb_true_r.
Qed.

Lemma last_segment_step (c : ascii) (s : string) :
  PyStr.startswith (String c s) "__" = false ->
  last_segment s (PyStr.split_from "__" 0 s) ->
  last_segment (String c s) (PyStr.split_from "__" 0 (String c s)).
Proof.
  intros Hsw. cbn [PyStr.split_from]. rewrite Hsw. unfold last_segment.
  intros [Hc Hcases]. destruct Hcases as [[Hone Hs] | [Hlen (p & Hs & Hp)]].
  - rewrite Hone. cbn [List.last]. split.
    + cbn [PyStr.contains]. rewrite Hc, <- Hs, Hsw. reflexivity.
    + left. split; [reflexivity | now rewrite <- Hs].
  - destruct (PyStr.split_from "__" 0 s) as [|p0 [|p1 ps]]; cbn [length] in Hlen;
      [lia | lia |].
    rewrite last_cons_nonempty by discriminate.
    rewrite last_cons_nonempty in Hc, Hs by discriminate.
    split; [exact Hc|]. right. split; [cbn [length]; lia|].
    exists (String c p). split; [now rewrite Hs at 1|].
    cbn [PyStr.endswith]. rewrite Hp. apply orb_true_r.
Qed.

Lemma last_segment_pair (s : string) :
  last_segment s (PyStr.split_from "__" 0 s) /\
  forall c, last_segment (String c s) (PyStr.split_from "__" 0 (String c s)).
Proof.
  induction s as [|a s [IH1 IH2]].
  - split; [exact last_segment_empty|]. intros c.
    apply last_segment_step; [|exact last_segment_empty].
    cbn. now rewrite andb_false_r.
  - split; [apply IH2|]. intros c.
    destruct (PyStr.startswith (String c (String a s)) "__") eqn:Hsw.
    + cbn [PyStr.startswith] in Hsw. rewrite andb_true_r in Hsw.
      apply andb_true_iff in Hsw as [Hc Ha]. apply Ascii.eqb_eq in Hc, Ha. subst c a.
      now apply last_segment_match.
    + apply last_segment_step; [exact Hsw | apply IH2].
Qed.

(** X5: the entity name of a table is the end of its name: it holds no
    [__], and what stands before it is empty or ends with [__]; a table
    name without any [__] is its own entity name. *)
Theorem entity_name_is_last_segment (table_name : string) :
  (exists p,
      table_name = p +:+ entity_name_of table_name /\
      (p = "" \/ PyStr.endswith p "__" = true)) /\
  PyStr.contains (entity_name_of table_name) "__" = false /\
  (PyStr.contains table_name "__" = false -> entity_name_of table_name = table_name).
Proof.
  destruct (last_segment_pair table_name) as [[Hc Hcases] _].
  fold (PyStr.split table_name "__") in Hc, Hcases. fold (entity_name_of table_name) in Hc, Hcases.
  split; [|split; [exact Hc|]].
  - destruct Hcases as [[_ Hs] | [_ (p & Hs & Hp)]].
    + exists "". split; [exact Hs | now left].
    + exists p. split; [exact Hs | now right].
  - intros Hno. destruct Hcases as [[_ Hs] | [_ (p & Hs & Hp)]]; [now symmetry|].
    apply endswith_spec in Hp as [u ->].
    assert (Hin : PyStr.contains table_name "__" = true).
    { apply contains_spec. exists u, (entity_name_of table_name).
      rewrite Hs at 1. now rewrite append_assoc. }
    congruence.
Qed.

Lemma entity_name_is_last_segment_witness :
  entity_name_of "sales__order" = "order" /\
  entity_name_of "customers" = "customers".
Proof.
  split; [reflexivity|].
  apply (entity_name_is_last_segment "customers"). reflexivity.
Defined.

Lemma contains_trans (a b c : string) :
  PyStr.contains a b = true -> PyStr.contains b c = true -> PyStr.contains a c = true.
Proof.
  rewrite !contains_spec. intros (u & v & ->) (u' & v' & ->).
  exists (u +:+ u'), (v' +:+ v). now rewrite !append_assoc.
Qed.

Lemma endswith_contains (s p : string) :
  PyStr.endswith s p = true -> PyStr.contains s p = true.
Proof.
  rewrite endswith_spec, contains_spec. intros [u ->]. exists u, "".
  now rewrite append_empty_r.
Qed.

(** X6: when the entity name is itself part of the text [_id] (a table
    named [dim__id], say), every kept column that ends with [_id] contains
    it, so the table has no foreign keys at all. *)
Theorem entity_within_id_no_foreign_keys (table_name : string)
  (columns : list (yaml * yaml)) (b : buckets)
  (He : PyStr.contains "_id" (entity_name_of table_name) = true)
  (H : categorize (entity_name_of table_name) columns = Ok b) :
  foreign_keys b = [].
Proof.
  destruct (categorize_spec _ _ _ H) as (named & _ & _ & Hfk & _). rewrite Hfk.
  clear -He. induction named as [|[n i] named IH]; [reflexivity|].
  cbn [List.filter]. unfold in_category at 1. cbn [fst]. unfold classify.
  destruct (PyStr.startswith n "_dlt_"); [exact IH|].
  destruct (_ || _); [exact IH|].
  destruct (PyStr.endswith n "_id") eqn:Hid; [|exact IH].
  now rewrite (contains_trans _ _ _ (endswith_contains _ _ Hid) He).
Qed.

Lemma entity_within_id_no_foreign_keys_witness :
  entity_name_of "dim__id" = "id" /\ foreign_keys sample_buckets_id = [].
Proof.
  split; [reflexivity|].
  apply (entity_within_id_no_foreign_keys "dim__id" sample_columns);
    vm_compute; reflexivity.
Defined.

(** ** Tables one after the other *)

Lemma build_output_of_tables (schema_data : yaml) (tables : list (yaml * yaml)) :
  Py.getitem schema_data "tables" = Ok (YMap tables) ->
  build_output schema_data =
  for_each (fun output item =>
              table_lines ← table_block (fst item) (snd item);
              Ok (output ++ table_lines)) tables header_lines.
Proof.
  intros H. unfold build_output. now rewrite (getitem_str_in _ _ _ H), H.
Qed.

Lemma extend_loop_from (tables : list (yaml * yaml)) (acc : list string) :
  for_each (fun output item =>
              table_lines ← table_block (fst item) (snd item);
              Ok (output ++ table_lines)) tables acc =
  (out ← for_each (fun output item =>
                     table_lines ← table_block (fst item) (snd item);
                     Ok (output ++ table_lines)) tables header_lines;
   Ok (acc ++ skipn 6 out)).
Proof.
  assert (Hgen : forall front,
    for_each (fun output item =>
                table_lines ← table_block (fst item) (snd item);
                Ok (output ++ table_lines)) tables (acc ++ front) =
    (out ← for_each (fun output item =>
                       table_lines ← table_block (fst item) (snd item);
                       Ok (output ++ table_lines)) tables (header_lines ++ front);
     Ok (acc ++ skipn 6 out))).
  { induction tables as [|item tables IH]; intros front; cbn [for_each].
    - cbn [mbind result_bind]. reflexivity.
    - destruct (table_block (fst item) (snd item)) as [block|e]; cbn [mbind result_bind].
      + rewrite <- !app_assoc. apply IH.
      + reflexivity. }
  specialize (Hgen []). now rewrite !app_nil_r in Hgen.
Qed.

(** X7: the tables are rendered one after the other and independently: the
    output for the tables of two documents put in sequence is the output of
    the first followed by the blocks of the second, and the first exception
    met, in document order, is the one raised. *)
Theorem tables_compose (d1 d2 d12 : yaml) (t1 t2 : list (yaml * yaml))
  (H1 : Py.getitem d1 "tables" = Ok (YMap t1))
  (H2 : Py.getitem d2 "tables" = Ok (YMap t2))
  (H12 : Py.getitem d12 "tables" = Ok (YMap (t1 ++ t2))) :
  build_output d12 =
  match build_output d1, build_output d2 with
  | Ok o1, Ok o2 => Ok (o1 ++ skipn 6 o2)
  | Ok _, Raise e => Raise e
  | Raise e, _ => Raise e
  end.
Proof.
  rewrite (build_output_of_tables _ _ H1), (build_output_of_tables _ _ H2),
    (build_output_of_tables _ _ H12), for_each_app.
  destruct (for_each _ t1 header_lines) as [o1|e]; cbn [mbind result_bind]; [|reflexivity].
  rewrite extend_loop_from.
  destruct (for_each _ t2 header_lines) as [o2|e]; reflexivity.
Qed.

Lemma tables_compose_witness :
  build_output orders_and_customers =
  match build_output orders_only, build_output customers_only with
  | Ok o1, Ok o2 => Ok (o1 ++ skipn 6 o2)
  | Ok _, Raise e => Raise e
  | Raise e, _ => Raise e
  end.
Proof.
  apply (tables_compose orders_only customers_only orders_and_customers
           [ (YStr "sales__order", sample_table) ]
           [ (YStr "sales__customer", sample_table) ]); reflexivity.
Defined.

(** ** Commas in the field lists *)

Lemma with_commas_length (l : list string) : length (with_commas l) = length l.
Proof.
  induction l as [|x [|y l] IH]; try reflexivity.
  rewrite with_commas_cons. cbn [length] in *. now rewrite IH.
Qed.

Lemma nth_error_with_commas (l : list string) (i : nat) (x : string) :
  nth_error (with_commas l) i = Some x ->
  exists y, nth_error l i = Some y /\
            x = if (S i <? length l)%nat then y +:+ "," else y.
Proof.
  revert i. induction l as [|y l IH]; intros i H; [destruct i; discriminate H|].
  destruct l as [|z l].
  - destruct i as [|[|i]]; try discriminate H. injection H as <-. now exists y.
  - rewrite with_commas_cons in H. destruct i as [|i].
    + injection H as <-. exists y. split; [reflexivity|]. reflexivity.
    + cbn [nth_error] in H. destruct (IH i H) as [w [Hw ->]].
      exists w. split; [exact Hw|]. reflexivity.
Qed.

(** X8: the hash field list and the projection list have one line per kept
    column; every line but the last ends with [],] and the last one with
    []], without a comma. *)
Theorem commas_on_all_but_last (cols : list (string * yaml)) (fl : field_lists)
  (H : field_lists_of cols = Ok fl) :
  length (hash_fields fl) = length cols /\
  length (field_load_lines fl) = length cols /\
  forall i line,
    nth_error (hash_fields fl) i = Some line \/
    nth_error (field_load_lines fl) i = Some line ->
    PyStr.endswith line (if (S i <? length cols)%nat then "]," else "]") = true.
Proof.
  destruct (field_lists_spec _ _ H) as (-> & -> & _).
  rewrite !with_commas_length, !length_map. split; [reflexivity|]. split; [reflexivity|].
  intros i line [Hn|Hn]; apply nth_error_with_commas in Hn as [y [Hy ->]];
    rewrite !length_map; apply nth_error_In, in_map_iff in Hy as [n [<- _]];
    destruct (S i <? length cols)%nat;
    unfold hash_line, load_line; rewrite ?append_assoc;
    change ("]" +:+ ",") with "],"; rewrite <- ?append_assoc; apply endswith_append.
Qed.

Lemma commas_on_all_but_last_witness :
  length (hash_fields sample_fields) = length sample_sorted_columns /\
  length (field_load_lines sample_fields) = length sample_sorted_columns /\
  forall i line,
    nth_error (hash_fields sample_fields) i = Some line \/
    nth_error (field_load_lines sample_fields) i = Some line ->
    PyStr.endswith line (if (S i <? length sample_sorted_columns)%nat then "]," else "]") = true.
Proof.
  apply (commas_on_all_but_last sample_sorted_columns sample_fields).
  vm_compute. reflexivity.
Defined.

(** ** What a run reads, writes and prints *)

Section RunEffects.

Variable parse : string -> result yaml.
Variable encodable : string -> bool.

(** X9: a run changes no file but the output file and no directory; it
    prints one line, which names the output file, when it succeeds and
    nothing when it fails. *)
Theorem run_touches_only_output (script_path schema_path : path) (w w' : world)
  (r : result unit)
  (H : generate_das_qvs parse encodable script_path schema_path w = (w', r)) :
  dirs w' = dirs w /\
  (forall p, p <> script_path ++ ["data_according_to_system.qvs"] ->
             files w' !! p = files w !! p) /\
  match r with
  | Ok _ => exists msg, stdout w' = stdout w ++ [msg] /\
                        PyStr.startswith msg "Generated QVS file at: " = true
  | Raise _ => stdout w' = stdout w
  end.
Proof.
  unfold generate_das_qvs in H.
  destruct (load_and_build parse w schema_path) as [output|e].
  - unfold open_for_writing, write_text in H. repeat case_decide.
    + injection H as <- <-. auto.
    + destruct (encodable (render output)).
      * injection H as <- <-. cbn [print files dirs stdout].
        split; [reflexivity|]. split.
        -- intros p Hp. rewrite insert_insert_eq. now apply lookup_insert_ne.
        -- eexists. split; [reflexivity|]. reflexivity.
      * injection H as <- <-. cbn [files dirs stdout].
        split; [reflexivity|]. split; [|reflexivity].
        intros p Hp. now apply lookup_insert_ne.
    + injection H as <- <-. auto.
  - injection H as <- <-. auto.
Qed.


Lemma main_paths_differ (base_dir : path) :
  (base_dir ++ ["schemas"]) ++ ["raw_schema.yaml"] <>
  (base_dir ++ ["scripts"]) ++ ["data_according_to_system.qvs"].
Proof.
  rewrite <- !app_assoc. intros H. apply app_inv_head in H. discriminate H.
Qed.

(** X11: the program run directly never writes over the schema it reads,
    and running it again after a successful run succeeds again and leaves
    the same files: the output file is replaced by the same text. *)
Theorem main_rerun_changes_nothing (base_dir : path) (w w1 : world)
  (H : main parse encodable base_dir w = (w1, Ok tt)) :
  files w1 !! ((base_dir ++ ["schemas"]) ++ ["raw_schema.yaml"]) =
    files w !! ((base_dir ++ ["schemas"]) ++ ["raw_schema.yaml"]) /\
  exists w2,
    main parse encodable base_dir w1 = (w2, Ok tt) /\
    files w2 = files w1 /\ dirs w2 = dirs w1.
Proof.
  unfold main in *. cbv zeta in *.
  pose proof (main_paths_differ base_dir) as Hne.
  set (schema_path := (base_dir ++ ["schemas"]) ++ ["raw_schema.yaml"]) in *.
  set (script_path := base_dir ++ ["scripts"]) in *.
  destruct (generate_ok _ _ _ _ _ _ H) as (output & Hbuild & Hfiles & Hdirs).
  assert (Hread : files w1 !! schema_path = files w !! schema_path).
  { rewrite Hfiles. apply lookup_insert_ne. congruence. }
  split; [exact Hread|].
  assert (Hbuild1 : load_and_build parse w1 schema_path = Ok output).
  { rewrite <- Hbuild. unfold load_and_build, read_text. now rewrite Hread, Hdirs. }
  unfold generate_das_qvs in H |- *. rewrite Hbuild in H. rewrite Hbuild1.
  unfold open_for_writing, write_text in H |- *. rewrite Hdirs.
  repeat case_decide; try discriminate H.
  destruct (encodable (render output)); [|discriminate H].
  eexists. split; [reflexivity|]. cbn [print files dirs]. split; [|now symmetry].
  rewrite Hfiles. now rewrite !insert_insert_eq.
Qed.

End RunEffects.

Lemma run_touches_only_output_witness :
  dirs sample_world_after = dirs sample_world /\
  (forall p, p <> sample_script_path ++ ["data_according_to_system.qvs"] ->
             files sample_world_after !! p = files sample_world !! p) /\
  exists msg, stdout sample_world_after = stdout sample_world ++ [msg] /\
              PyStr.startswith msg "Generated QVS file at: " = true.
Proof.
  apply (run_touches_only_output sample_parser every_text sample_script_path
           sample_schema_path sample_world sample_world_after (Ok tt)).
  vm_compute. reflexivity.
Defined.


Lemma main_rerun_changes_nothing_witness :
  files main_world_after !! ((["app"] ++ ["schemas"]) ++ ["raw_schema.yaml"]) =
    files sample_world !! ((["app"] ++ ["schemas"]) ++ ["raw_schema.yaml"]) /\
  exists w2,
    main sample_parser every_text ["app"] main_world_after = (w2, Ok tt) /\
    files w2 = files main_world_after /\ dirs w2 = dirs main_world_after.
Proof.
  apply (main_rerun_changes_nothing sample_parser every_text ["app"] sample_world
           main_world_after).
  vm_compute. reflexivity.
Defined.

(** ** The size of a block *)

Lemma kept_named_columns (named : list (string * yaml)) :
  List.filter (fun col => negb (is_dlt_key col)) (named_columns named) =
  named_columns (List.filter (fun col => negb (PyStr.startswith (fst col) "_dlt_")) named).
Proof.
  induction named as [|[n i] named IH]; [reflexivity|].
  change (named_columns ((n, i) :: named)) with ((YStr n, i) :: named_columns named).
  cbn [List.filter fst]. unfold is_dlt_key at 1. cbn [fst].
  destruct (PyStr.startswith n "_dlt_"); cbn [negb]; rewrite IH; reflexivity.
Qed.

Lemma excluded_iff_dlt (e n : string) :
  PyStr.startswith n "_dlt_" = category_eqb (classify e n) Excluded.
Proof.
  unfold classify. destruct (PyStr.startswith n "_dlt_"); [reflexivity|].
  destruct (_ || _); [reflexivity|].
  destruct (PyStr.endswith n "_id"); [destruct (PyStr.contains n e)|]; reflexivity.
Qed.

Lemma buckets_partition (e : string) (named : list (string * yaml)) :
  Permutation
    (List.filter (in_category e PrimaryKey) named ++
     List.filter (in_category e ForeignKey) named ++
     List.filter (in_category e RegularField) named ++
     List.filter (in_category e SystemField) named)
    (List.filter (fun col => negb (PyStr.startswith (fst col) "_dlt_")) named).
Proof.
  induction named as [|[n i] named IH]; [reflexivity|].
  cbn [List.filter fst].
  assert (Hcat : forall c, in_category e c (n, i) = category_eqb (classify e n) c)
    by reflexivity.
  rewrite !Hcat, (excluded_iff_dlt e n).
  destruct (classify e n); cbn [category_eqb negb].
  - exact IH.
  - rewrite !app_assoc. rewrite <- Permutation_middle. constructor.
    now rewrite <- !app_assoc.
  - cbn [app]. now constructor.
  - cbn [app]. rewrite <- Permutation_middle. now constructor.
  - rewrite app_assoc. cbn [app]. rewrite <- Permutation_middle. constructor.
    now rewrite <- app_assoc.
Qed.

(** The sorted column list is an arrangement of the kept columns. *)
Lemma table_fields_kept (e : string) (table_info : yaml) (fl : field_lists) :
  table_fields e table_info = Ok fl ->
  exists sorted,
    field_lists_of sorted = Ok fl /\
    Permutation (named_columns sorted) (kept_columns table_info).
Proof.
  intros H. pose proof H as H0. unfold table_fields in H0. bind_inv H0. destruct a.
  - bind_inv H0. bind_inv H0. destruct a; try discriminate Ha1.
    injection Ha1 as ->. clear H0. rename Ha0 into Hcols.
    destruct (table_fields_columns _ _ _ _ Hcols H) as (b & Hb & Hfl).
    exists (sorted_columns_of b). split; [exact Hfl|].
    unfold kept_columns. rewrite Hcols.
    destruct (categorize_spec _ _ _ Hb) as (named & -> & Hpk & Hfk & Hrg & Hsy).
    rewrite kept_named_columns. unfold named_columns at 1 2. apply Permutation_map.
    rewrite <- buckets_partition. unfold sorted_columns_of.
    rewrite !sort_by_name_perm, Hpk, Hfk, Hrg, Hsy. reflexivity.
  - injection H0 as <-. exists []. split; [reflexivity|].
    unfold kept_columns.
    destruct table_info; cbn [Py.getitem]; try reflexivity.
    cbn [Py.str_in] in Ha. injection Ha as Ha.
    now rewrite (find_none_existsb _ _ Ha).
Qed.

Lemma named_columns_length (named : list (string * yaml)) :
  length (named_columns named) = length named.
Proof. apply length_map. Qed.

Lemma comments_of_length (cols : list (string * yaml)) :
  length (comments_of cols) =
  length (List.filter has_description (named_columns cols)).
Proof.
  unfold comments_of. induction cols as [|[n i] cols IH]; [reflexivity|].
  change (named_columns ((n, i) :: cols)) with ((YStr n, i) :: named_columns cols).
  cbn [flat_map List.filter fst snd]. unfold has_description at 1. cbn [snd].
  destruct (description_of i); cbn [app length]; now rewrite IH.
Qed.

Lemma field_comment_lines_length (comments : list string) :
  length (field_comment_lines comments) = comment_section_length (length comments).
Proof.
  destruct comments as [|c cs]; [reflexivity|].
  unfold field_comment_lines. rewrite !length_app, length_map.
  cbn [length comment_section_length]. lia.
Qed.

(** X12: a block has the 107 fixed lines, two lines for each kept column,
    three for the description of the table if it has one and, if any kept
    column has a description, one line for each of those and two around
    them. *)
Theorem block_length (table_key table_info : yaml) (block : list string)
  (H : table_block table_key table_info = Ok block) :
  length block =
  107 + 2 * length (kept_columns table_info) +
  (match description_of table_info with Some _ => 3 | None => 0 end) +
  comment_section_length
    (length (List.filter has_description (kept_columns table_info))).
Proof.
  destruct (table_block_parts _ _ _ H) as (T & fl & tc & -> & Hfl & Htc & ->).
  destruct (table_fields_kept _ _ _ Hfl) as (sorted & Hsorted & Hperm).
  destruct (field_lists_spec _ _ Hsorted) as (Hh & Hl & Hc).
  unfold table_comment_lines in Htc. apply description_cases in Htc.
  rewrite !length_app, field_comment_lines_length, Hh, Hl, Hc.
  rewrite !with_commas_length, !length_map, comments_of_length.
  rewrite <- (Permutation_length Hperm).
  rewrite <- (Permutation_length (Permutation_list_filter has_description _ _ Hperm)).
  rewrite named_columns_length.
  change (length (setup_lines T)) with 44. change (length hash_open_lines) with 2.
  change (length (load_open_lines T)) with 14. change (length (load_close_lines T)) with 29.
  change (length (store_reset_lines T)) with 18.
  destruct (description_of table_info); subst tc; cbn [length]; lia.
Qed.

Lemma block_length_witness :
  length sample_block =
  107 + 2 * length (kept_columns sample_table) +
  (match description_of sample_table with Some _ => 3 | None => 0 end) +
  comment_section_length (length (List.filter has_description (kept_columns sample_table))).
Proof. apply (block_length (YStr "sales__order") sample_table), sample_block_ok. Defined.

(** X13: a table without kept columns still gets its whole block, with an
    empty field list: [Hash256(] is closed on the next line and the inner
    [Load] is followed at once by the blank line and [From]. *)
Theorem no_kept_columns_empty_lists (table_key table_info : yaml) (block : list string)
  (Hnone : kept_columns table_info = [])
  (H : table_block table_key table_info = Ok block) :
  exists a b c,
    block = a ++ ["Set var__record_hash = Hash256("; ")"; ";"] ++
            b ++ ["Load"; ""; "From"] ++ c.
Proof.
  destruct (table_block_parts _ _ _ H) as (T & fl & tc & -> & Hfl & Htc & ->).
  destruct (table_fields_kept _ _ _ Hfl) as (sorted & Hsorted & Hperm).
  rewrite Hnone in Hperm. apply Permutation_sym, Permutation_nil in Hperm.
  destruct sorted; [|discriminate Hperm].
  injection Hsorted as <-. cbn [hash_fields field_load_lines field_comments app].
  exists (setup_lines T ++ firstn 1 hash_open_lines),
         (firstn 11 (skipn 2 (load_open_lines T))),
         (skipn 2 (load_close_lines T) ++ tc ++ field_comment_lines [] ++ store_reset_lines T).
  rewrite <- !app_assoc. reflexivity.
Qed.

Lemma bare_block_ok : table_block (YStr "sales__empty") bare_table = Ok bare_block.
Proof. vm_compute. reflexivity. Qed.

Lemma no_kept_columns_empty_lists_witness :
  exists a b c,
    bare_block = a ++ ["Set var__record_hash = Hash256("; ")"; ";"] ++
                 b ++ ["Load"; ""; "From"] ++ c.
Proof.
  apply (no_kept_columns_empty_lists (YStr "sales__empty") bare_table).
  - reflexivity.
  - exact bare_block_ok.
Defined.

(** ** Escaping, once more *)

Lemma escaped_length (desc : string) :
  String.length (escaped desc) = String.length desc + 10 * PyStr.count_at desc "'".
Proof.
  induction desc as [|c s IH]; [reflexivity|].
  rewrite escaped_cons, append_length, IH, count_at_cons.
  cbn [PyStr.startswith]. rewrite andb_true_r.
  destruct (Ascii.eqb "'" c); cbn [String.length]; lia.
Qed.

Lemma escaped_without_quote (desc : string) :
  PyStr.contains desc "'" = false -> escaped desc = desc.
Proof.
  induction desc as [|c s IH]; [reflexivity|].
  cbn [PyStr.contains PyStr.startswith]. rewrite andb_true_r.
  intros H. apply orb_false_iff in H as [Hc Hs].
  rewrite escaped_cons, Hc, (IH Hs). reflexivity.
Qed.

(** X14: escaping lengthens a description by ten characters for each
    single quote in it, leaves a description without single quotes exactly
    as it is, and so changes nothing when applied a second time. *)
Theorem escape_quotes_grows_by_quotes (desc : string) :
  String.length (escape_quotes desc) =
    String.length desc + 10 * PyStr.count_at desc "'" /\
  (PyStr.contains desc "'" = false -> escape_quotes desc = desc) /\
  escape_quotes (escape_quotes desc) = escape_quotes desc.
Proof.
  rewrite !escape_quotes_escaped. split; [apply escaped_length|].
  split; [apply escaped_without_quote|].
  apply escaped_without_quote, escaped_no_quote.
Qed.

Lemma escape_quotes_grows_by_quotes_witness :
  String.length (escape_quotes "it's the customer's") = 19 + 10 * 2 /\
  escape_quotes "Primary key" = "Primary key".
Proof.
  split.
  - apply (escape_quotes_grows_by_quotes "it's the customer's").
  - destruct (escape_quotes_grows_by_quotes "Primary key") as (_ & Hsame & _).
    apply Hsame. reflexivity.
Defined.

Lemma plain_cons (c : ascii) (s : string) :
  plain (String c s) = true -> Ascii.eqb "$" c = false /\ plain s = true.
Proof.
  unfold plain. cbn [PyStr.contains PyStr.startswith]. rewrite andb_true_r.
  intros H. apply negb_true_iff, orb_false_iff in H as [Hc Hs]. now rewrite Hs.
Qed.

(** X15: two descriptions without a dollar sign that are escaped to the
    same text are the same description. *)
Theorem escape_quotes_injective (d1 d2 : string)
  (H1 : plain d1 = true) (H2 : plain d2 = true)
  (H : escape_quotes d1 = escape_quotes d2) :
  d1 = d2.
Proof.
  rewrite !escape_quotes_escaped in H. revert d2 H2 H.
  induction d1 as [|c1 s1 IH]; intros [|c2 s2] H2 H.
  - reflexivity.
  - rewrite escaped_cons in H. destruct (Ascii.eqb "'" c2); discriminate H.
  - rewrite escaped_cons in H. destruct (Ascii.eqb "'" c1); discriminate H.
  - apply plain_cons in H1 as [Hc1 Hs1]. apply plain_cons in H2 as [Hc2 Hs2].
    rewrite !escaped_cons in H.
    destruct (Ascii.eqb "'" c1) eqn:E1, (Ascii.eqb "'" c2) eqn:E2.
    + apply Ascii.eqb_eq in E1, E2. subst c1 c2. f_equal.
      apply append_inv_head in H. now apply IH.
    + cbn [String.append] in H. injection H as Hc _. subst c2. discriminate Hc2.
    + cbn [String.append] in H. injection H as Hc _. subst c1. discriminate Hc1.
    + cbn [String.append] in H. injection H as -> H. f_equal. now apply IH.
Qed.

Lemma escape_quotes_injective_witness : "it's" = "it's".
Proof. apply (escape_quotes_injective "it's" "it's"); reflexivity. Defined.

(** With a dollar sign the escaped text no longer tells what was there. *)
Example escape_quotes_collision :
  escape_quotes "'" = escape_quotes "$(=Chr39())".
Proof. reflexivity. Qed.

(** ** Keys by name *)

(** X16: the column named after the entity, [E_id], is a primary key of
    the table whenever it is kept. *)
Theorem own_id_column_is_primary_key (entity_name : string)
  (columns : list (yaml * yaml)) (b : buckets) (column_info : yaml)
  (H : categorize entity_name columns = Ok b)
  (Hin : In (YStr (entity_name +:+ "_id"), column_info) columns)
  (Hkept : PyStr.startswith (entity_name +:+ "_id") "_dlt_" = false) :
  In (entity_name +:+ "_id", column_info) (primary_keys b).
Proof.
  destruct (categorize_spec _ _ _ H) as (named & -> & Hpk & _).
  apply in_named_columns in Hin. rewrite Hpk.
  apply in_filter_category; [exact Hin|].
  assert (Hid : PyStr.endswith (entity_name +:+ "_id") "_id" = true)
    by apply endswith_append.
  assert (Hc : PyStr.contains (entity_name +:+ "_id") entity_name = true).
  { apply contains_spec. now exists "", "_id". }
  unfold classify. rewrite Hkept, Hid, Hc.
  destruct (String.eqb (entity_name +:+ "_id") "rowguid") eqn:E1.
  { apply String.eqb_eq in E1. rewrite E1 in Hid. discriminate Hid. }
  destruct (String.eqb (entity_name +:+ "_id") "modified_date") eqn:E2.
  { apply String.eqb_eq in E2. rewrite E2 in Hid. discriminate Hid. }
  reflexivity.
Qed.

Lemma own_id_column_is_primary_key_witness :
  In ("order" +:+ "_id", YMap [(YStr "description", YStr "Primary key")])
     (primary_keys sample_buckets).
Proof.
  apply (own_id_column_is_primary_key "order" sample_columns).
  - exact sample_buckets_ok.
  - cbn. tauto.
  - reflexivity.
Defined.

Lemma classify_system (e n : string) :
  classify e n = SystemField -> n = "rowguid" \/ n = "modified_date".
Proof.
  unfold classify. destruct (PyStr.startswith n "_dlt_"); [discriminate|].
  destruct (String.eqb n "rowguid") eqn:E1; [apply String.eqb_eq in E1; auto|].
  destruct (String.eqb n "modified_date") eqn:E2; [apply String.eqb_eq in E2; auto|].
  cbn [orb]. destruct (PyStr.endswith n "_id"); [destruct (PyStr.contains n e)|];
    discriminate.
Qed.

Lemma NoDup_names_same_info (named : list (string * yaml)) (n : string) (i i' : yaml) :
  List.NoDup (map fst named) -> In (n, i) named -> In (n, i') named -> i = i'.
Proof.
  induction named as [|[m j] named IH]; intros Hn H1 H2; [destruct H1|].
  cbn [map fst] in Hn. inversion Hn as [|? ? Hx Hl]; subst.
  destruct H1 as [H1|H1], H2 as [H2|H2].
  - congruence.
  - injection H1 as -> ->. exfalso. apply Hx. apply in_map_iff. now exists (n, i').
  - injection H2 as -> ->. exfalso. apply Hx. apply in_map_iff. now exists (n, i).
  - now apply IH.
Qed.

Lemma NoDup_names_NoDup (named : list (string * yaml)) :
  List.NoDup (map fst named) -> List.NoDup named.
Proof.
  induction named as [|x named IH]; cbn [map]; intros H; [constructor|].
  inversion H as [|? ? Hx Hl]; subst. constructor; [|now apply IH].
  intros Hin. apply Hx. now apply in_map.
Qed.

(** X17: in a table that has both [modified_date] and [rowguid], these two
    close the sorted column list, in this order. *)
Theorem system_fields_come_last (entity_name : string) (columns : list (yaml * yaml))
  (b : buckets) (i1 i2 : yaml)
  (H : categorize entity_name columns = Ok b)
  (Hkeys : List.NoDup (map fst columns))
  (Hmd : In (YStr "modified_date", i1) columns)
  (Hrg : In (YStr "rowguid", i2) columns) :
  exists front,
    sorted_columns_of b = front ++ [("modified_date", i1); ("rowguid", i2)].
Proof.
  destruct (categorize_spec _ _ _ H) as (named & -> & _ & _ & _ & Hsy).
  apply in_named_columns in Hmd, Hrg. apply NoDup_named_columns in Hkeys.
  unfold sorted_columns_of. rewrite !app_assoc. eexists. f_equal.
  rewrite Hsy. apply sorted_perm_unique.
  - apply sort_by_name_sorted.
  - repeat constructor.
  - rewrite sort_by_name_perm. apply Permutation.NoDup_Permutation.
    + apply List.NoDup_filter. now apply NoDup_names_NoDup.
    + repeat constructor; cbn; intuition discriminate.
    + intros [n i]. rewrite filter_In. unfold in_category. cbn [fst]. split.
      * intros [Hin Hc].
        assert (Hs : classify entity_name n = SystemField)
          by (destruct (classify entity_name n); try discriminate Hc; reflexivity).
        apply classify_system in Hs as [-> | ->].
        -- right. left. f_equal. exact (NoDup_names_same_info _ _ _ _ Hkeys Hrg Hin).
        -- left. f_equal. exact (NoDup_names_same_info _ _ _ _ Hkeys Hmd Hin).
      * intros [Heq | [Heq | []]]; injection Heq as <- <-; split; auto.
  - eapply Permutation_NoDup.
    + apply Permutation_map. symmetry. apply sort_by_name_perm.
    + now apply NoDup_map_filter.
Qed.

Lemma system_fields_come_last_witness :
  exists front,
    sorted_columns_of sample_buckets =
    front ++ [("modified_date", YMap []); ("rowguid", YMap [])].
Proof.
  apply (system_fields_come_last "order" sample_columns).
  - exact sample_buckets_ok.
  - cbn. repeat constructor; cbn; intuition discriminate.
  - cbn. tauto.
  - cbn. tauto.
Defined.

(** ** Lines of text *)

Lemma one_line_append (a b : string) : one_line (a +:+ b) = one_line a && one_line b.
Proof.
  unfold one_line, newline. rewrite contains_char_append. apply negb_orb.
Qed.

Lemma one_line_escaped (desc : string) : one_line desc = true -> one_line (escaped desc) = true.
Proof.
  induction desc as [|c s IH]; [reflexivity|].
  change (String c s) with (String c "" +:+ s) at 1.
  rewrite escaped_cons, !one_line_append, !andb_true_iff. intros [Hc Hs].
  split; [|now apply IH]. destruct (Ascii.eqb "'" c); [reflexivity | exact Hc].
Qed.

Ltac one_line_solve :=
  rewrite ?one_line_append, ?andb_true_iff;
  repeat split; first [assumption | reflexivity].

Ltac all_one_line :=
  repeat first [ apply List.Forall_nil | apply List.Forall_cons; [one_line_solve|] ].

(** X18: when the table name, the names of the kept columns and the
    descriptions hold no line break, no line of the block does: the block
    takes as many lines in the file as it has entries. *)
Theorem block_lines_are_lines (table_name : string) (table_info : yaml)
  (block : list string)
  (H : table_block (YStr table_name) table_info = Ok block)
  (Hname : one_line table_name = true)
  (Hdesc : one_line_description table_info = true)
  (Hcols : forallb one_line_column (kept_columns table_info) = true) :
  Forall (fun line => one_line line = true) block.
Proof.
  destruct (table_block_parts _ _ _ H) as (T & fl & tc & Heq & Hfl & Htc & ->).
  injection Heq as <-.
  destruct (table_fields_kept _ _ _ Hfl) as (sorted & Hsorted & Hperm).
  destruct (field_lists_spec _ _ Hsorted) as (Hh & Hl & Hc).
  assert (Hs : Forall (fun col => one_line (fst col) = true /\
                                  one_line_description (snd col) = true) sorted).
  { apply List.Forall_forall. intros [n i] Hin. cbn [fst snd].
    rewrite forallb_forall in Hcols.
    assert (Hin' : In (YStr n, i) (kept_columns table_info)).
    { eapply Permutation_in; [exact Hperm|]. now apply in_named_columns. }
    specialize (Hcols _ Hin'). unfold one_line_column in Hcols. cbn [fst snd] in Hcols.
    now apply andb_true_iff in Hcols. }
  unfold table_comment_lines in Htc. apply description_cases in Htc.
  unfold one_line_description in Hdesc.
  repeat (apply List.Forall_app; split).
  - unfold setup_lines. all_one_line.
  - unfold hash_open_lines. all_one_line.
  - rewrite Hh. apply Forall_with_commas; [intros x Hx; now rewrite one_line_append, Hx|].
    rewrite map_map. apply Forall_map. eapply Forall_impl; [exact Hs|].
    intros [n i] [Hn _]. cbn [fst] in *. unfold hash_line. one_line_solve.
  - unfold load_open_lines. all_one_line.
  - rewrite Hl. apply Forall_with_commas; [intros x Hx; now rewrite one_line_append, Hx|].
    rewrite map_map. apply Forall_map. eapply Forall_impl; [exact Hs|].
    intros [n i] [Hn _]. cbn [fst] in *. unfold load_line. one_line_solve.
  - unfold load_close_lines. all_one_line.
  - destruct (description_of table_info) as [d|]; subst tc; [|constructor].
    rewrite escape_quotes_escaped. apply one_line_escaped in Hdesc. all_one_line.
  - rewrite Hc.
    assert (Hcm : Forall (fun line => one_line line = true)
                    (map (fun c => "    " +:+ c) (comments_of sorted))).
    { apply Forall_map. unfold comments_of. apply List.Forall_forall. intros line Hin.
      apply in_flat_map in Hin as [[n i] [Hin Hline]]. cbn [fst snd] in Hline.
      rewrite List.Forall_forall in Hs. destruct (Hs _ Hin) as [Hn Hd].
      cbn [fst snd] in Hn, Hd. unfold one_line_description in Hd.
      destruct (description_of i) as [d|]; [|destruct Hline].
      destruct Hline as [<-|[]]. apply one_line_escaped in Hd.
      unfold comment_line. one_line_solve. }
    unfold field_comment_lines. destruct (comments_of sorted) as [|c cs]; [constructor|].
    apply List.Forall_app; split; [all_one_line|].
    apply List.Forall_app; split; [exact Hcm | all_one_line].
  - unfold store_reset_lines. all_one_line.
Qed.

Lemma block_lines_are_lines_witness :
  Forall (fun line => one_line line = true) sample_block.
Proof.
  apply (block_lines_are_lines "sales__order" sample_table sample_block);
    solve [exact sample_block_ok | reflexivity].
Defined.

(** ** The end of the text *)

Lemma render_ends_with_newline (A : list string) :
  A <> [] -> PyStr.endswith (render (A ++ [""])) newline = true.
Proof.
  intros HA. unfold render. rewrite join_last, append_empty_r.
  apply exists_last in HA as (B & x & ->).
  unfold unlines. rewrite map_app. cbn [map].
  apply endswith_spec.
  exists (String.concat "" (map (fun line => line +:+ newline) B) +:+ x).
  clear. induction B as [|b B IH].
  - cbn [map app String.concat]. reflexivity.
  - cbn [map app]. rewrite !concat_empty_cons, IH. now rewrite !append_assoc.
Qed.

(** X19: with at least one table the output ends with the blank line that
    closes the last block, so the text ends with a line break; without
    tables the text is the header and ends with its [;]. *)
Theorem text_ends_with_newline_iff_tables (schema_data : yaml) (out : list string)
  (H : build_output schema_data = Ok out) :
  match tables_of schema_data with
  | [] => render out = header_text
  | _ :: _ => List.last out "x" = "" /\ PyStr.endswith (render out) newline = true
  end.
Proof.
  destruct (build_output_blocks _ _ H) as (blocks & HF & ->).
  destruct (tables_of schema_data) as [|item items].
  - inversion HF; subst. reflexivity.
  - assert (Hlast : exists A, header_lines ++ List.concat blocks = A ++ [""] /\ A <> []).
    { destruct blocks as [|b0 blocks0]; [inversion HF|].
      destruct (exists_last (l := b0 :: blocks0) ltac:(discriminate)) as (bs & bl & Hbl).
      rewrite Hbl in *. clear Hbl.
      apply Forall2_app_inv_r in HF as (l1 & l2 & _ & HF2 & _).
      inversion HF2 as [|t ? ? ? Hb Hnil]; subst. inversion Hnil; subst.
      destruct (table_block_parts _ _ _ Hb) as (T & fl & tc & _ & _ & _ & ->).
      rewrite store_reset_lines_split, List.concat_app. cbn [List.concat]. rewrite app_nil_r.
      exists (header_lines ++ List.concat bs ++ setup_lines T ++ hash_open_lines ++
              hash_fields fl ++ load_open_lines T ++ field_load_lines fl ++
              load_close_lines T ++ tc ++ field_comment_lines (field_comments fl) ++
              ["    Trace Storing data...;"] ++
              store_statement T :: removelast (skipn 2 (store_reset_lines T))).
      split.
      - repeat rewrite <- app_assoc. cbn [app]. reflexivity.
      - unfold header_lines. cbn [app]. discriminate. }
    destruct Hlast as (A & -> & HA). split.
    + now rewrite last_last.
    + now apply render_ends_with_newline.
Qed.

Lemma text_ends_with_newline_iff_tables_witness :
  List.last sample_output "x" = "" /\
  PyStr.endswith (render sample_output) newline = true.
Proof.
  apply (text_ends_with_newline_iff_tables sample_schema sample_output sample_output_ok).
Defined.
